(** * Task manager: the stored-procedure rule engine, its service facade and
      its HTTP controller, embedded from the sources

    - [backend/database/functional/_structure.sql]: the [functional].[task]
      table and its constraints;
    - [backend/database/functional/task/spTaskCreate.sql] (spTaskCreate,
      spTaskGet, spTaskUpdate, spTaskList) and the spTaskDelete procedure;
    - [backend/src/services/task/taskRules.ts]: the service facade;
    - [backend/src/api/v1/internal/task/controller.ts] and
      [backend/src/utils/zodValidation/zodHelpers.ts]: the HTTP handlers;
    - the router, the connection pool of instances/database, and of the
      client the two forms that create a task.

    The procedures are T-SQL for SQL Server.  A procedure is embedded as a
    function in a small monad over the state of one database session: the
    tables, the identity counter of the task table, the open transaction and
    a trace of the table accesses and transaction commands so far. *)

From Stdlib Require Import ZArith List String Ascii Bool Lia.
From Stdlib Require Import Permutation Sorted.
Import ListNotations.

Local Open Scope string_scope.
Local Open Scope list_scope.
Local Open Scope Z_scope.

(** ** T-SQL scalar expressions *)

Module TSql.

(** NVARCHAR values are strings; a NULL is [None]. *)

Definition blank (c : ascii) : bool := Ascii.eqb c " "%char.

(** [LTRIM] and [RTRIM] remove the leading, resp. trailing, blanks. *)
Fixpoint LTRIM (s : string) : string :=
  match s with
  | String c rest => if blank c then LTRIM rest else s
  | EmptyString => EmptyString
  end.

Fixpoint RTRIM (s : string) : string :=
  match s with
  | EmptyString => EmptyString
  | String c rest =>
      match RTRIM rest with
      | EmptyString => if blank c then EmptyString else String c EmptyString
      | kept => String c kept
      end
  end.

(** [LEN] counts the characters of its argument without the trailing
    blanks. *)
Definition LEN (s : string) : Z := Z.of_nat (String.length (RTRIM s)).

(** [=] on character strings pads the shorter operand with blanks, so that
    trailing blanks never distinguish two strings.  Letter case is compared
    as in a case-sensitive collation. *)
Definition nv_eq (a b : string) : bool := String.eqb (RTRIM a) (RTRIM b).

(** An argument given to a parameter declared [NVARCHAR(n)] is converted to
    that type when the procedure is entered: the characters after the n-th
    are dropped, without an error. *)
Definition NVARCHAR (n : nat) (s : string) : string := substring 0 n s.

(** [CAST(t AS DATE)] of a DATETIME: time stamps are counted in milliseconds
    and dates in days, from one common origin. *)
Definition ms_per_day : Z := 86400000.
Definition CAST_AS_DATE (t : Z) : Z := t / ms_per_day.

(** Conditions are three-valued: [None] is UNKNOWN.  [IF] and [WHERE] take
    a condition that is TRUE. *)
Definition tri := option bool.

Definition holds (c : tri) : bool :=
  match c with Some true => true | _ => false end.

Definition NOT (c : tri) : tri := option_map negb c.

Definition AND (a b : tri) : tri :=
  match a, b with
  | Some false, _ | _, Some false => Some false
  | Some true, Some true => Some true
  | _, _ => None
  end.

Definition OR (a b : tri) : tri :=
  match a, b with
  | Some true, _ | _, Some true => Some true
  | Some false, Some false => Some false
  | _, _ => None
  end.

Definition IS_NULL {A : Type} (x : option A) : tri :=
  Some (match x with None => true | Some _ => false end).

Definition IS_NOT_NULL {A : Type} (x : option A) : tri :=
  Some (match x with None => false | Some _ => true end).

Definition compare2 {A : Type} (f : A -> A -> bool) (x y : option A) : tri :=
  match x, y with
  | Some a, Some b => Some (f a b)
  | _, _ => None
  end.

Definition EQ : option Z -> option Z -> tri := compare2 Z.eqb.
Definition LT : option Z -> option Z -> tri := compare2 Z.ltb.
Definition GT : option Z -> option Z -> tri := compare2 Z.gtb.
Definition EQS : option string -> option string -> tri := compare2 nv_eq.

(** [x BETWEEN lo AND hi] is [x >= lo AND x <= hi]. *)
Definition BETWEEN (x : option Z) (lo hi : Z) : tri :=
  AND (compare2 Z.geb x (Some lo)) (compare2 Z.leb x (Some hi)).

(** [ORDER BY x ASC] and [ORDER BY x DESC]: NULL is the lowest value, so
    it comes first under ASC and last under DESC. *)
Definition ASC (x y : option Z) : comparison :=
  match x, y with
  | None, None => Eq
  | None, Some _ => Lt
  | Some _, None => Gt
  | Some a, Some b => a ?= b
  end.

Definition DESC (x y : option Z) : comparison := ASC y x.

(** A later sort key decides where the earlier ones tie. *)
Definition then_by (c next : comparison) : comparison :=
  match c with Eq => next | _ => c end.

Definition not_after (c : comparison) : bool :=
  match c with Gt => false | _ => true end.

End TSql.
Import TSql.

(** ** The tables ([_structure.sql]) *)

(** A row of [functional].[task].  Every column but [dueDate] is NOT NULL.
    DATE values are day numbers, DATETIME2 values are milliseconds. *)
Record task_row : Type := mkTask {
  tsk_idTask : Z;
  tsk_idAccount : Z;
  tsk_idUser : Z;
  tsk_title : string;
  tsk_description : string;
  tsk_priority : Z;
  tsk_dueDate : option Z;
  tsk_status : Z;
  tsk_dateCreated : Z;
  tsk_dateModified : Z;
  tsk_deleted : bool
}.

(** The columns of [security].[user] that the procedures read. *)
Record user_row : Type := mkUser {
  usr_idUser : Z;
  usr_idAccount : Z
}.

(** The three tables; of [subscription].[account] only [idAccount] is read.
    The tasks are kept in the order of their insertion. *)
Record db : Type := mkDb {
  account : list Z;
  user : list user_row;
  task : list task_row
}.

Inductive table : Type := Account | User | Task.

(** What a session did to the store, in the order it happened. *)
Inductive event : Type :=
| EvRead (t : table)
| EvWrite (t : table)
| BeginTran
| CommitTran
| RollbackTran.

(** The state of one session.  [undo] holds the tables as they were when the
    outermost open transaction began.  [ident] is the last identity value
    generated for [task].[idTask] (IDENTITY(1, 1)); an identity value is
    consumed by every attempted insert and is not given back by a
    rollback.  [clock] is what GETUTCDATE() returns during the call. *)
Record session : Type := mkSession {
  tables : db;
  ident : Z;
  trancount : nat;
  undo : option db;
  clock : Z;
  trace : list event
}.

Definition set_tables (d : db) (s : session) : session :=
  mkSession d (ident s) (trancount s) (undo s) (clock s) (trace s).

Definition set_task (l : list task_row) (d : db) : db :=
  mkDb (account d) (user d) l.

Definition log (e : event) (s : session) : session :=
  mkSession (tables s) (ident s) (trancount s) (undo s) (clock s)
    (trace s ++ [e]).

(** ** Errors and the procedure monad *)

Record sql_error : Type := mkError {
  number : Z;
  message : string
}.

Inductive outcome (A : Type) : Type :=
| Done (a : A)
| Raised (e : sql_error).
Arguments Done {A} a.
Arguments Raised {A} e.

Definition proc (A : Type) : Type := session -> outcome A * session.

Definition ret {A : Type} (a : A) : proc A := fun s => (Done a, s).

Definition bind {A B : Type} (m : proc A) (k : A -> proc B) : proc B :=
  fun s =>
    match m s with
    | (Done a, s') => k a s'
    | (Raised e, s') => (Raised e, s')
    end.

Declare Scope proc_scope.
Delimit Scope proc_scope with proc.
Notation "x <- m ;; k" := (bind m (fun x => k))
  (at level 100, m at next level, right associativity) : proc_scope.
Notation "m ;; k" := (bind m (fun _ => k))
  (at level 100, right associativity) : proc_scope.
Local Open Scope proc_scope.

(** [;THROW number, 'message', 1]. *)
Definition THROW {A : Type} (n : Z) (msg : string) : proc A :=
  fun s => (Raised (mkError n msg), s).

(** [THROW;] inside a CATCH block raises the caught error again. *)
Definition RETHROW {A : Type} (e : sql_error) : proc A :=
  fun s => (Raised e, s).

(** [IF (c) BEGIN stmt END]. *)
Definition IF (c : bool) (stmt : proc unit) : proc unit :=
  if c then stmt else ret tt.

(** [BEGIN TRY body END TRY BEGIN CATCH handler END CATCH]. *)
Definition TRY_CATCH {A : Type} (body : proc A) (handler : sql_error -> proc A)
  : proc A :=
  fun s =>
    match body s with
    | (Done a, s') => (Done a, s')
    | (Raised e, s') => handler e s'
    end.

Definition GETUTCDATE : proc Z := fun s => (Done (clock s), s).

(** [BEGIN TRAN]: the outermost one remembers the tables. *)
Definition BEGIN_TRAN : proc unit :=
  fun s =>
    (Done tt,
     mkSession (tables s) (ident s) (S (trancount s))
       (match trancount s with O => Some (tables s) | S _ => undo s end)
       (clock s) (trace s ++ [BeginTran])).

(** [COMMIT TRAN]: error 3902 when no transaction is open. *)
Definition COMMIT_TRAN : proc unit :=
  fun s =>
    match trancount s with
    | O => (Raised (mkError 3902
              "The COMMIT TRANSACTION request has no corresponding BEGIN TRANSACTION."), s)
    | S n =>
        (Done tt,
         mkSession (tables s) (ident s) n
           (match n with O => None | S _ => undo s end)
           (clock s) (trace s ++ [CommitTran]))
    end.

(** [ROLLBACK TRAN] undoes everything back to the outermost BEGIN TRAN:
    error 3903 when no transaction is open. *)
Definition ROLLBACK_TRAN : proc unit :=
  fun s =>
    match trancount s with
    | O => (Raised (mkError 3903
              "The ROLLBACK TRANSACTION request has no corresponding BEGIN TRANSACTION."), s)
    | S _ =>
        (Done tt,
         mkSession (match undo s with Some d => d | None => tables s end)
           (ident s) O None (clock s) (trace s ++ [RollbackTran]))
    end.

(** [EXISTS (SELECT * FROM t WHERE ...)]: a read of table [t]. *)
Definition EXISTS (t : table) (q : db -> bool) : proc bool :=
  fun s => (Done (q (tables s)), log (EvRead t) s).

(** ** Constraints of [functional].[task] *)

(** [chkTask_Priority] and [chkTask_Status]. *)
Definition chkTask_Priority (r : task_row) : bool :=
  (0 <=? tsk_priority r) && (tsk_priority r <=? 2).

Definition chkTask_Status (r : task_row) : bool :=
  (0 <=? tsk_status r) && (tsk_status r <=? 1).

(** [fkTask_Account] and [fkTask_User]. *)
Definition fkTask_Account (d : db) (r : task_row) : bool :=
  existsb (fun acc => acc =? tsk_idAccount r) (account d).

Definition fkTask_User (d : db) (r : task_row) : bool :=
  existsb (fun usr => usr_idUser usr =? tsk_idUser r) (user d).

(** [pkTask]: no other row has the [idTask]. *)
Definition pkTask_free (l : list task_row) (r : task_row) : bool :=
  negb (existsb (fun r' => tsk_idTask r' =? tsk_idTask r) l).

(** [uqTask_Account_User_Title]: unique on (idAccount, idUser, title),
    over the rows WHERE deleted = 0.  Two rows clash when both are in the
    index under one key. *)
Definition uq_clash (r r' : task_row) : bool :=
  negb (tsk_deleted r) && negb (tsk_deleted r')
  && (tsk_idAccount r =? tsk_idAccount r')
  && (tsk_idUser r =? tsk_idUser r')
  && nv_eq (tsk_title r) (tsk_title r').

Fixpoint uqTask_Account_User_Title (l : list task_row) : bool :=
  match l with
  | [] => true
  | r :: rest =>
      negb (existsb (uq_clash r) rest) && uqTask_Account_User_Title rest
  end.

(** The engine's own errors: 515 (NULL into a NOT NULL column), 547 (CHECK
    or FOREIGN KEY conflict), 2627 (primary key), 2601 (unique index). *)
Definition err_null : sql_error :=
  mkError 515 "Cannot insert the value NULL into a column that does not allow nulls.".
Definition err_check : sql_error :=
  mkError 547 "The statement conflicted with a CHECK constraint.".
Definition err_fk : sql_error :=
  mkError 547 "The statement conflicted with a FOREIGN KEY constraint.".
Definition err_pk : sql_error :=
  mkError 2627 "Violation of PRIMARY KEY constraint.".
Definition err_uq : sql_error :=
  mkError 2601 "Cannot insert duplicate key row with unique index.".

Definition insert_conflict (d : db) (r : task_row) : option sql_error :=
  if negb (chkTask_Priority r && chkTask_Status r) then Some err_check
  else if negb (fkTask_Account d r && fkTask_User d r) then Some err_fk
  else if negb (pkTask_free (task d) r) then Some err_pk
  else if existsb (uq_clash r) (task d) then Some err_uq
  else None.

(** [INSERT INTO functional.task (idAccount, idUser, title, description,
    priority, dueDate, status, dateCreated, dateModified) VALUES (...)].
    [idTask] takes the next identity value and [deleted] its default 0. *)
Definition INSERT_task (idAccount idUser : Z) (title description : option string)
    (priority dueDate : option Z) (status dateCreated dateModified : Z)
  : proc unit :=
  fun s =>
    let id := ident s + 1 in
    let s1 := mkSession (tables s) id (trancount s) (undo s) (clock s)
                (trace s ++ [EvWrite Task]) in
    match title, description, priority with
    | Some t, Some d, Some p =>
        let r := mkTask id idAccount idUser t d p dueDate status
                   dateCreated dateModified false in
        match insert_conflict (tables s) r with
        | Some e => (Raised e, s1)
        | None =>
            (Done tt, set_tables (set_task (task (tables s) ++ [r]) (tables s)) s1)
        end
    | _, _, _ => (Raised err_null, s1)
    end.

Definition SCOPE_IDENTITY : proc Z := fun s => (Done (ident s), s).

(** [UPDATE functional.task SET ... WHERE ...].  [SET] gives the new row, or
    [None] when a NULL is assigned to a NOT NULL column.  The statement
    changes every row of the WHERE clause or, on an error, none. *)
Definition updated_rows (SET : task_row -> option task_row)
    (WHERE : task_row -> bool) (l : list task_row) : list task_row :=
  map (fun r => if WHERE r
                then match SET r with Some r' => r' | None => r end
                else r) l.

Definition update_result (SET : task_row -> option task_row)
    (WHERE : task_row -> bool) (l : list task_row) : sql_error + list task_row :=
  let hit := filter WHERE l in
  let new := updated_rows SET WHERE l in
  if negb (forallb (fun r => match SET r with Some _ => true | None => false end) hit)
  then inl err_null
  else if negb (forallb (fun r => chkTask_Priority r && chkTask_Status r)
                  (updated_rows SET (fun _ => true) hit))
  then inl err_check
  else if existsb WHERE l && negb (uqTask_Account_User_Title new)
  then inl err_uq
  else inr new.

Definition UPDATE_task (SET : task_row -> option task_row)
    (WHERE : task_row -> bool) : proc unit :=
  fun s =>
    match update_result SET WHERE (task (tables s)) with
    | inl e => (Raised e, log (EvWrite Task) s)
    | inr new => (Done tt, set_tables (set_task new (tables s)) (log (EvWrite Task) s))
    end.

(** ** Result sets *)

Inductive value : Type :=
| VNull
| VInt (z : Z)
| VStr (s : string)
| VDate (d : Z)
| VDateTime (t : Z).

(** A record of a result set: the columns in the order selected. *)
Definition record : Type := list (string * value).
Definition recordset : Type := list record.

Definition column (name : string) (r : task_row) : option value :=
  if String.eqb name "idTask" then Some (VInt (tsk_idTask r))
  else if String.eqb name "idAccount" then Some (VInt (tsk_idAccount r))
  else if String.eqb name "idUser" then Some (VInt (tsk_idUser r))
  else if String.eqb name "title" then Some (VStr (tsk_title r))
  else if String.eqb name "description" then Some (VStr (tsk_description r))
  else if String.eqb name "priority" then Some (VInt (tsk_priority r))
  else if String.eqb name "dueDate"
       then Some (match tsk_dueDate r with Some d => VDate d | None => VNull end)
  else if String.eqb name "status" then Some (VInt (tsk_status r))
  else if String.eqb name "dateCreated" then Some (VDateTime (tsk_dateCreated r))
  else if String.eqb name "dateModified" then Some (VDateTime (tsk_dateModified r))
  else if String.eqb name "deleted"
       then Some (VInt (if tsk_deleted r then 1 else 0))
  else None.

Definition project (columns : list string) (r : task_row) : record :=
  flat_map (fun c => match column c r with
                     | Some v => [(c, v)]
                     | None => []
                     end) columns.

(** [ORDER BY]: the rows are sorted by insertion. *)
Fixpoint insert_sorted (leb : task_row -> task_row -> bool) (r : task_row)
    (l : list task_row) : list task_row :=
  match l with
  | [] => [r]
  | x :: rest => if leb r x then r :: l else x :: insert_sorted leb r rest
  end.

Fixpoint ORDER_BY (leb : task_row -> task_row -> bool) (l : list task_row)
  : list task_row :=
  match l with
  | [] => []
  | r :: rest => insert_sorted leb r (ORDER_BY leb rest)
  end.

(** [SELECT columns FROM functional.task WHERE ... [ORDER BY ...]]. *)
Definition SELECT_task (columns : list string) (WHERE : task_row -> bool)
    (order : option (task_row -> task_row -> bool)) : proc recordset :=
  fun s =>
    let rows := filter WHERE (task (tables s)) in
    let rows := match order with
                | Some leb => ORDER_BY leb rows
                | None => rows
                end in
    (Done (map (project columns) rows), log (EvRead Task) s).

(** [SELECT @x AS [name]]: one record with one column. *)
Definition SELECT_scalar (name : string) (x : Z) : proc recordset :=
  ret [[(name, VInt x)]].

(** ** The stored procedures *)

(** The three existence conditions the procedures share. *)
Definition account_exists (idAccount : Z) (d : db) : bool :=
  existsb (fun acc => acc =? idAccount) (account d).

Definition user_exists (idUser idAccount : Z) (d : db) : bool :=
  existsb (fun usr => (usr_idUser usr =? idUser) && (usr_idAccount usr =? idAccount))
    (user d).

(** [tsk.idTask = @idTask AND tsk.idAccount = @idAccount AND
     tsk.idUser = @idUser AND tsk.deleted = 0]. *)
Definition own_task (idTask idAccount idUser : Z) (tsk : task_row) : bool :=
  (tsk_idTask tsk =? idTask) && (tsk_idAccount tsk =? idAccount)
  && (tsk_idUser tsk =? idUser) && negb (tsk_deleted tsk).

(** [spTaskCreate]: the procedure, from BEGIN to END, on the values that its
    parameters hold. *)
Definition spTaskCreate (idAccount idUser : Z)
    (title description : option string) (priority dueDate : option Z)
  : proc recordset :=
  IF (holds (OR (IS_NULL title)
                (EQS (option_map LTRIM (option_map RTRIM title)) (Some ""))))
     (THROW 51000 "titleRequired") ;;
  IF (holds (GT (option_map LEN title) (Some 100)))
     (THROW 51000 "titleExceedsMaxLength") ;;
  IF (holds (AND (IS_NOT_NULL description)
                 (GT (option_map LEN description) (Some 500))))
     (THROW 51000 "descriptionExceedsMaxLength") ;;
  IF (holds (NOT (BETWEEN priority 0 2)))
     (THROW 51000 "invalidPriority") ;;
  now <- GETUTCDATE ;;
  IF (holds (AND (IS_NOT_NULL dueDate) (LT dueDate (Some (CAST_AS_DATE now)))))
     (THROW 51000 "dueDateInPast") ;;
  found <- EXISTS Account (account_exists idAccount) ;;
  IF (negb found) (THROW 51000 "accountDoesntExist") ;;
  found <- EXISTS User (user_exists idUser idAccount) ;;
  IF (negb found) (THROW 51000 "userDoesntExist") ;;
  found <- EXISTS Task (fun d =>
    existsb (fun tsk =>
      (tsk_idAccount tsk =? idAccount) && (tsk_idUser tsk =? idUser)
      && holds (EQS (Some (tsk_title tsk)) title)
      && negb (tsk_deleted tsk)) (task d)) ;;
  IF found (THROW 51000 "titleAlreadyExists") ;;
  TRY_CATCH
    (BEGIN_TRAN ;;
     now <- GETUTCDATE ;;
     INSERT_task idAccount idUser title description priority dueDate 0 now now ;;
     idTask <- SCOPE_IDENTITY ;;
     out <- SELECT_scalar "idTask" idTask ;;
     COMMIT_TRAN ;;
     ret out)
    (fun e => ROLLBACK_TRAN ;; RETHROW e).

(** [.execute('[functional].[spTaskCreate]')]: the procedure as it is called.
    The arguments are converted to the declared types of the parameters:
    [@title NVARCHAR(100)] and [@description NVARCHAR(500)] keep the first
    100 and 500 characters.  The callers of this repository give every
    parameter, so no default value applies; the numbers and the date are
    those that fit the types of their parameters (see the facade for the
    others). *)
Definition execute_spTaskCreate (idAccount idUser : Z)
    (title description : option string) (priority dueDate : option Z)
  : proc recordset :=
  spTaskCreate idAccount idUser
    (option_map (NVARCHAR 100) title) (option_map (NVARCHAR 500) description)
    priority dueDate.

(** The columns that spTaskGet and spTaskList select. *)
Definition task_columns : list string :=
  ["idTask"; "title"; "description"; "priority"; "dueDate"; "status";
   "dateCreated"; "dateModified"].

Definition spTaskGet (idAccount idUser idTask : Z) : proc recordset :=
  found <- EXISTS Account (account_exists idAccount) ;;
  IF (negb found) (THROW 51000 "accountDoesntExist") ;;
  found <- EXISTS User (user_exists idUser idAccount) ;;
  IF (negb found) (THROW 51000 "userDoesntExist") ;;
  found <- EXISTS Task (fun d => existsb (own_task idTask idAccount idUser) (task d)) ;;
  IF (negb found) (THROW 51000 "taskDoesntExist") ;;
  SELECT_task task_columns (own_task idTask idAccount idUser) None.

Definition spTaskUpdate (idAccount idUser idTask : Z)
    (title description : option string) (priority dueDate status : option Z)
  : proc recordset :=
  IF (holds (OR (IS_NULL title)
                (EQS (option_map LTRIM (option_map RTRIM title)) (Some ""))))
     (THROW 51000 "titleRequired") ;;
  IF (holds (GT (option_map LEN title) (Some 100)))
     (THROW 51000 "titleExceedsMaxLength") ;;
  IF (holds (AND (IS_NOT_NULL description)
                 (GT (option_map LEN description) (Some 500))))
     (THROW 51000 "descriptionExceedsMaxLength") ;;
  IF (holds (NOT (BETWEEN priority 0 2)))
     (THROW 51000 "invalidPriority") ;;
  IF (holds (NOT (BETWEEN status 0 1)))
     (THROW 51000 "invalidStatus") ;;
  now <- GETUTCDATE ;;
  IF (holds (AND (IS_NOT_NULL dueDate) (LT dueDate (Some (CAST_AS_DATE now)))))
     (THROW 51000 "dueDateInPast") ;;
  found <- EXISTS Account (account_exists idAccount) ;;
  IF (negb found) (THROW 51000 "accountDoesntExist") ;;
  found <- EXISTS User (user_exists idUser idAccount) ;;
  IF (negb found) (THROW 51000 "userDoesntExist") ;;
  found <- EXISTS Task (fun d => existsb (own_task idTask idAccount idUser) (task d)) ;;
  IF (negb found) (THROW 51000 "taskDoesntExist") ;;
  found <- EXISTS Task (fun d =>
    existsb (fun tsk =>
      (tsk_idAccount tsk =? idAccount) && (tsk_idUser tsk =? idUser)
      && holds (EQS (Some (tsk_title tsk)) title)
      && negb (tsk_idTask tsk =? idTask)
      && negb (tsk_deleted tsk)) (task d)) ;;
  IF found (THROW 51000 "titleAlreadyExists") ;;
  TRY_CATCH
    (BEGIN_TRAN ;;
     now <- GETUTCDATE ;;
     UPDATE_task
       (fun tsk =>
          match title, description, priority, status with
          | Some t, Some d, Some p, Some st =>
              Some (mkTask (tsk_idTask tsk) (tsk_idAccount tsk) (tsk_idUser tsk)
                      t d p dueDate st (tsk_dateCreated tsk) now (tsk_deleted tsk))
          | _, _, _, _ => None
          end)
       (own_task idTask idAccount idUser) ;;
     out <- SELECT_scalar "idTask" idTask ;;
     COMMIT_TRAN ;;
     ret out)
    (fun e => ROLLBACK_TRAN ;; RETHROW e).

(** [.execute('[functional].[spTaskUpdate]')], likewise. *)
Definition execute_spTaskUpdate (idAccount idUser idTask : Z)
    (title description : option string) (priority dueDate status : option Z)
  : proc recordset :=
  spTaskUpdate idAccount idUser idTask
    (option_map (NVARCHAR 100) title) (option_map (NVARCHAR 500) description)
    priority dueDate status.

(** [ORDER BY tsk.priority DESC, tsk.dueDate ASC, tsk.dateCreated DESC]. *)
Definition spTaskList_order (a b : task_row) : comparison :=
  then_by (DESC (Some (tsk_priority a)) (Some (tsk_priority b)))
    (then_by (ASC (tsk_dueDate a) (tsk_dueDate b))
       (DESC (Some (tsk_dateCreated a)) (Some (tsk_dateCreated b)))).

Definition spTaskList_where (idAccount idUser : Z) (status priority : option Z)
    (tsk : task_row) : bool :=
  (tsk_idAccount tsk =? idAccount) && (tsk_idUser tsk =? idUser)
  && negb (tsk_deleted tsk)
  && holds (OR (IS_NULL status) (EQ (Some (tsk_status tsk)) status))
  && holds (OR (IS_NULL priority) (EQ (Some (tsk_priority tsk)) priority)).

Definition spTaskList (idAccount idUser : Z) (status priority : option Z)
  : proc recordset :=
  found <- EXISTS Account (account_exists idAccount) ;;
  IF (negb found) (THROW 51000 "accountDoesntExist") ;;
  found <- EXISTS User (user_exists idUser idAccount) ;;
  IF (negb found) (THROW 51000 "userDoesntExist") ;;
  IF (holds (AND (IS_NOT_NULL status) (NOT (BETWEEN status 0 1))))
     (THROW 51000 "invalidStatus") ;;
  IF (holds (AND (IS_NOT_NULL priority) (NOT (BETWEEN priority 0 2))))
     (THROW 51000 "invalidPriority") ;;
  SELECT_task task_columns (spTaskList_where idAccount idUser status priority)
    (Some (fun a b => not_after (spTaskList_order a b))).

Definition spTaskDelete (idAccount idUser idTask : Z) : proc recordset :=
  found <- EXISTS Account (account_exists idAccount) ;;
  IF (negb found) (THROW 51000 "accountDoesntExist") ;;
  found <- EXISTS User (user_exists idUser idAccount) ;;
  IF (negb found) (THROW 51000 "userDoesntExist") ;;
  found <- EXISTS Task (fun d => existsb (own_task idTask idAccount idUser) (task d)) ;;
  IF (negb found) (THROW 51000 "taskDoesntExist") ;;
  TRY_CATCH
    (BEGIN_TRAN ;;
     now <- GETUTCDATE ;;
     UPDATE_task
       (fun tsk =>
          Some (mkTask (tsk_idTask tsk) (tsk_idAccount tsk) (tsk_idUser tsk)
                  (tsk_title tsk) (tsk_description tsk) (tsk_priority tsk)
                  (tsk_dueDate tsk) (tsk_status tsk) (tsk_dateCreated tsk)
                  now true))
       (own_task idTask idAccount idUser) ;;
     out <- SELECT_scalar "idTask" idTask ;;
     COMMIT_TRAN ;;
     ret out)
    (fun e => ROLLBACK_TRAN ;; RETHROW e).

(** ** The service facade ([taskRules.ts]) *)

(** The request types.  An optional property that is absent is [None]; a
    [Date] is its time value in milliseconds, and [dueDate]'s null is [None]
    as well, since the facade treats it as it treats undefined. *)
Record TaskCreateRequest : Type := mkCreateRequest {
  cr_idAccount : Z;
  cr_idUser : Z;
  cr_title : string;
  cr_description : option string;
  cr_priority : option Z;
  cr_dueDate : option Z
}.

Record TaskUpdateRequest : Type := mkUpdateRequest {
  ur_idAccount : Z;
  ur_idUser : Z;
  ur_idTask : Z;
  ur_title : string;
  ur_description : option string;
  ur_priority : Z;
  ur_dueDate : option Z;
  ur_status : Z
}.

Record TaskListRequest : Type := mkListRequest {
  lr_idAccount : Z;
  lr_idUser : Z;
  lr_status : option Z;
  lr_priority : option Z
}.

(** TaskGetRequest and TaskDeleteRequest have the same three properties. *)
Record TaskGetRequest : Type := mkGetRequest {
  gr_idAccount : Z;
  gr_idUser : Z;
  gr_idTask : Z
}.

(** The properties that the interface TaskEntity declares. *)
Definition TaskEntity : list string :=
  ["idTask"; "idAccount"; "idUser"; "title"; "description"; "priority";
   "dueDate"; "status"; "dateCreated"; "dateModified"].

(** [params.description || '']: the empty string is falsy. *)
Definition or_empty (x : option string) : string :=
  match x with
  | Some d => if String.eqb d "" then "" else d
  | None => ""
  end.

(** *** The arguments of a call

    [.input(name, value)] is given no type.  A number is then sent as an INT
    when it is within the range of INT, and as a BIGINT otherwise; a [Date]
    is sent as a DATETIME, in UTC.  The engine converts what it receives to
    the declared type of the parameter.  A value that does not fit (a number
    outside INTEGER or TINYINT, a date outside DATETIME) makes the call fail
    before the procedure is entered, with an error of the driver or of the
    engine whose number is not 51000. *)
Definition INTEGER (z : Z) : bool := (-2147483648 <=? z) && (z <=? 2147483647).
Definition TINYINT (z : Z) : bool := (0 <=? z) && (z <=? 255).

(** The time values from 1753-01-01T00:00:00.000Z to
    9999-12-31T23:59:59.998Z. *)
Definition DATETIME (t : Z) : bool :=
  (-6847804800000 <=? t) && (t <=? 253402300799998).

Definition if_given (fits : Z -> bool) (x : option Z) : bool :=
  match x with
  | Some z => fits z
  | None => true
  end.

(** The error of a value that does not fit its parameter. *)
Definition err_conversion : sql_error :=
  mkError 8114 "Error converting data type.".

(** A DATETIME counts the time of the day in 1/300 of a second:
    [Math.round(milliseconds / (3 + 1/3))], here in exact arithmetic, and a
    time that rounds to the 25920000 of a whole day is the midnight of the
    next day.  Of the milliseconds of a day only the last one,
    23:59:59.999, does: it is at 25919999.7, the one before at 25919999.4,
    both far from a tie, so that the day does not depend on how the quotient
    is rounded in floating point. *)
Definition threeHundredths (milliseconds : Z) : Z := (3 * milliseconds + 5) / 10.

Definition DATETIME_day (t : Z) : Z :=
  if 25920000 <=? threeHundredths (t mod ms_per_day)
  then t / ms_per_day + 1
  else t / ms_per_day.

(** A [Date] given to a DATE parameter: the day of the DATETIME that is
    sent. *)
Definition input_date (x : option Z) : option Z := option_map DATETIME_day x.

(** The call of a procedure with arguments that fit, or do not fit, the
    types of its parameters. *)
Definition input {A : Type} (fits : bool) (execute : proc A) : proc A :=
  fun s => if fits then execute s else (Raised err_conversion, s).

Definition create_fits (params : TaskCreateRequest) : bool :=
  INTEGER (cr_idAccount params) && INTEGER (cr_idUser params)
  && TINYINT (match cr_priority params with Some p => p | None => 1 end)
  && if_given DATETIME (cr_dueDate params).

Definition list_fits (params : TaskListRequest) : bool :=
  INTEGER (lr_idAccount params) && INTEGER (lr_idUser params)
  && if_given TINYINT (lr_status params) && if_given TINYINT (lr_priority params).

Definition task_fits (params : TaskGetRequest) : bool :=
  INTEGER (gr_idAccount params) && INTEGER (gr_idUser params)
  && INTEGER (gr_idTask params).

Definition update_fits (params : TaskUpdateRequest) : bool :=
  INTEGER (ur_idAccount params) && INTEGER (ur_idUser params)
  && INTEGER (ur_idTask params) && TINYINT (ur_priority params)
  && if_given DATETIME (ur_dueDate params) && TINYINT (ur_status params).

(** A call [pool.request().input(...).execute(proc)] runs the procedure; its
    promise is rejected with the error the procedure raised.  [getPool()] is
    taken to give a connected pool.
    [result.recordset[0]] is undefined when the record set is empty. *)
Definition taskCreate (params : TaskCreateRequest) : proc (option record) :=
  result <- input (create_fits params)
              (execute_spTaskCreate (cr_idAccount params) (cr_idUser params)
                 (Some (cr_title params))
                 (Some (or_empty (cr_description params)))
                 (Some (match cr_priority params with Some p => p | None => 1 end))
                 (input_date (cr_dueDate params))) ;;
  ret (nth_error result 0).

Definition taskList (params : TaskListRequest) : proc recordset :=
  input (list_fits params)
    (spTaskList (lr_idAccount params) (lr_idUser params)
       (lr_status params) (lr_priority params)).

Definition taskGet (params : TaskGetRequest) : proc (option record) :=
  result <- input (task_fits params)
              (spTaskGet (gr_idAccount params) (gr_idUser params)
                 (gr_idTask params)) ;;
  ret (nth_error result 0).

Definition taskUpdate (params : TaskUpdateRequest) : proc (option record) :=
  result <- input (update_fits params)
              (execute_spTaskUpdate (ur_idAccount params) (ur_idUser params)
                 (ur_idTask params)
                 (Some (ur_title params))
                 (Some (or_empty (ur_description params)))
                 (Some (ur_priority params))
                 (input_date (ur_dueDate params))
                 (Some (ur_status params))) ;;
  ret (nth_error result 0).

Definition taskDelete (params : TaskGetRequest) : proc (option record) :=
  result <- input (task_fits params)
              (spTaskDelete (gr_idAccount params) (gr_idUser params)
                 (gr_idTask params)) ;;
  ret (nth_error result 0).

(** ** The HTTP controller ([controller.ts], [zodHelpers.ts]) *)

(** A JSON value of a request body.  [JInt] is a number that is an integer;
    [JOther] stands for the values no schema of the controller accepts: the
    other numbers, booleans, arrays and objects. *)
Inductive json : Type :=
| JUndefined
| JNull
| JString (s : string)
| JInt (z : Z)
| JOther.

(** An object: its properties, the absent ones being undefined. *)
Definition jobject : Type := list (string * json).

Fixpoint prop (name : string) (o : jobject) : json :=
  match o with
  | [] => JUndefined
  | (k, v) :: rest => if String.eqb k name then v else prop name rest
  end.

(** The query string, and the route parameter [id], hold strings. *)
Definition qobject : Type := list (string * string).

Fixpoint qprop (name : string) (q : qobject) : option string :=
  match q with
  | [] => None
  | (k, v) :: rest => if String.eqb k name then Some v else qprop name rest
  end.

(** A value that may be undefined or null. *)
Inductive maybe (A : Type) : Type :=
| MUndefined
| MNull
| MValue (a : A).
Arguments MUndefined {A}.
Arguments MNull {A}.
Arguments MValue {A} a.

(** Modelled from the spec: the constants of [@/constants/http], which is
    not among the sources; the spec gives 201 for a creation, 400 for a
    rule violation or a parse failure and 404 for a task that is absent. *)
Module HTTP_STATUS.
Definition CREATED : Z := 201.
Definition BAD_REQUEST : Z := 400.
Definition NOT_FOUND : Z := 404.
End HTTP_STATUS.

(** [res.json(...)] without [res.status(...)] answers 200. *)
Definition default_status : Z := 200.

(** What the handlers hand to [successResponse] and [errorResponse]. *)
Inductive data : Type :=
| One (r : option record)
| Many (l : recordset).

(** Modelled from the spec: the envelope of [@/utils/response], which is
    not among the sources: [{success, data?, error?: {code, message,
    details?}}].  [Failure] keeps the arguments given to errorResponse. *)
Inductive envelope : Type :=
| Success (d : data)
| Failure (message : string) (code : option string) (details : list string).

Record response : Type := mkResponse {
  status : Z;
  payload : envelope
}.

(** What a try block of a handler can throw: a ZodError with the paths of
    its issues, or the error of a rejected procedure call. *)
Inductive js_error : Type :=
| ZodError (issues : list string)
| RequestError (e : sql_error).

(** A handler answers, or passes the error to the generic handler. *)
Inductive reply : Type :=
| Responded (r : response)
| Next (e : js_error).

(** The catch block that the five handlers share but for the status they
    give to an error whose number is 51000. *)
Definition catch_block (status51000 : Z) (error : js_error) : reply :=
  match error with
  | ZodError issues =>
      Responded (mkResponse HTTP_STATUS.BAD_REQUEST
                   (Failure "Validation failed" (Some "VALIDATION_ERROR") issues))
  | RequestError e =>
      if number e =? 51000
      then Responded (mkResponse status51000 (Failure (message e) None []))
      else Next error
  end.

Definition postHandler_catch : js_error -> reply := catch_block HTTP_STATUS.BAD_REQUEST.
Definition getListHandler_catch : js_error -> reply := catch_block HTTP_STATUS.BAD_REQUEST.
Definition getHandler_catch : js_error -> reply := catch_block HTTP_STATUS.NOT_FOUND.
Definition putHandler_catch : js_error -> reply := catch_block HTTP_STATUS.BAD_REQUEST.
Definition deleteHandler_catch : js_error -> reply := catch_block HTTP_STATUS.NOT_FOUND.

(** *** The schemas *)

(** [zString(maxLength)]: [z.string().min(1)], and [.max(maxLength)] when
    maxLength is truthy. *)
Definition zString (maxLength : option nat) (v : json) : option string :=
  match v with
  | JString s =>
      if Nat.leb 1 (String.length s)
         && match maxLength with
            | Some (S n) => Nat.leb (String.length s) (S n)
            | _ => true
            end
      then Some s else None
  | _ => None
  end.

(** [zNullableString(maxLength)]. *)
Definition zNullableString (maxLength : option nat) (v : json)
  : option (maybe string) :=
  match v with
  | JNull => Some MNull
  | JString s =>
      if match maxLength with
         | Some (S n) => Nat.leb (String.length s) (S n)
         | _ => true
         end
      then Some (MValue s) else None
  | _ => None
  end.

(** [zFK]: [z.number().int().positive()]. *)
Definition zFK (v : json) : option Z :=
  match v with
  | JInt z => if 0 <? z then Some z else None
  | _ => None
  end.

(** [z.number().int().min(lo).max(hi)]. *)
Definition zIntRange (lo hi : Z) (v : json) : option Z :=
  match v with
  | JInt z => if (lo <=? z) && (z <=? hi) then Some z else None
  | _ => None
  end.

(** [schema.optional()]: undefined is accepted as it is. *)
Definition optional {A : Type} (schema : json -> option (maybe A)) (v : json)
  : option (maybe A) :=
  match v with
  | JUndefined => Some MUndefined
  | _ => schema v
  end.

Definition required {A : Type} (schema : json -> option A) (v : json)
  : option (maybe A) :=
  option_map MValue (schema v).

Definition issue {A : Type} (path : string) (parsed : option A) : list string :=
  match parsed with
  | Some _ => []
  | None => [path]
  end.

(** [x ?? undefined], and reading an optional number. *)
Definition to_option {A : Type} (x : maybe A) : option A :=
  match x with
  | MValue a => Some a
  | _ => None
  end.

Section Controller.

(** Two functions of the platform are taken as they are: [Number s] is
    [Some z] when JavaScript's Number(s) is the integer z, and [None] when
    it is NaN or no integer; [datetime s] is [Some t] when
    [z.string().datetime()] accepts s, t being the time value of
    [new Date(s)]. *)
Variable Number : string -> option Z.
Variable datetime : string -> option Z.

(** [zNullableDateString]: [z.string().datetime().nullable()]. *)
Definition zNullableDateString (v : json) : option (maybe string) :=
  match v with
  | JNull => Some MNull
  | JString s => match datetime s with Some _ => Some (MValue s) | None => None end
  | _ => None
  end.

(** [z.coerce.number().int().positive()] on a string of the request. *)
Definition zCoercePositive (v : option string) : option Z :=
  match v with
  | Some s =>
      match Number s with
      | Some z => if 0 <? z then Some z else None
      | None => None
      end
  | None => None
  end.

(** [z.coerce.number().int().min(lo).max(hi).optional()]. *)
Definition zCoerceRangeOptional (lo hi : Z) (v : option string)
  : option (option Z) :=
  match v with
  | Some s =>
      match Number s with
      | Some z => if (lo <=? z) && (z <=? hi) then Some (Some z) else None
      | None => None
      end
  | None => Some None
  end.

Record CreateBody : Type := mkCreateBody {
  cb_idAccount : Z;
  cb_idUser : Z;
  cb_title : string;
  cb_description : maybe string;
  cb_priority : maybe Z;
  cb_dueDate : maybe string
}.

(** [schema.parse(x)] gives the validated object, or throws a ZodError that
    holds an issue for every property that fails. *)
Definition createBodySchema (body : jobject) : list string + CreateBody :=
  let idAccount := zFK (prop "idAccount" body) in
  let idUser := zFK (prop "idUser" body) in
  let title := zString (Some 100%nat) (prop "title" body) in
  let description := optional (zNullableString (Some 500%nat)) (prop "description" body) in
  let priority := optional (required (zIntRange 0 2)) (prop "priority" body) in
  let dueDate := optional zNullableDateString (prop "dueDate" body) in
  match idAccount, idUser, title, description, priority, dueDate with
  | Some a, Some u, Some t, Some d, Some p, Some due =>
      inr (mkCreateBody a u t d p due)
  | _, _, _, _, _, _ =>
      inl (issue "idAccount" idAccount ++ issue "idUser" idUser
           ++ issue "title" title ++ issue "description" description
           ++ issue "priority" priority ++ issue "dueDate" dueDate)
  end.

Record UpdateBody : Type := mkUpdateBody {
  ub_idAccount : Z;
  ub_idUser : Z;
  ub_title : string;
  ub_description : maybe string;
  ub_priority : Z;
  ub_dueDate : maybe string;
  ub_status : Z
}.

Definition updateBodySchema (body : jobject) : list string + UpdateBody :=
  let idAccount := zFK (prop "idAccount" body) in
  let idUser := zFK (prop "idUser" body) in
  let title := zString (Some 100%nat) (prop "title" body) in
  let description := optional (zNullableString (Some 500%nat)) (prop "description" body) in
  let priority := zIntRange 0 2 (prop "priority" body) in
  let dueDate := optional zNullableDateString (prop "dueDate" body) in
  let status := zIntRange 0 1 (prop "status" body) in
  match idAccount, idUser, title, description, priority, dueDate, status with
  | Some a, Some u, Some t, Some d, Some p, Some due, Some st =>
      inr (mkUpdateBody a u t d p due st)
  | _, _, _, _, _, _, _ =>
      inl (issue "idAccount" idAccount ++ issue "idUser" idUser
           ++ issue "title" title ++ issue "description" description
           ++ issue "priority" priority ++ issue "dueDate" dueDate
           ++ issue "status" status)
  end.

Definition listQuerySchema (query : qobject) : list string + TaskListRequest :=
  let idAccount := zCoercePositive (qprop "idAccount" query) in
  let idUser := zCoercePositive (qprop "idUser" query) in
  let status := zCoerceRangeOptional 0 1 (qprop "status" query) in
  let priority := zCoerceRangeOptional 0 2 (qprop "priority" query) in
  match idAccount, idUser, status, priority with
  | Some a, Some u, Some st, Some p => inr (mkListRequest a u st p)
  | _, _, _, _ =>
      inl (issue "idAccount" idAccount ++ issue "idUser" idUser
           ++ issue "status" status ++ issue "priority" priority)
  end.

(** getParamsSchema, updateParamsSchema and deleteParamsSchema. *)
Definition idParamsSchema (id : string) : list string + Z :=
  match zCoercePositive (Some id) with
  | Some z => inr z
  | None => inl ["id"]
  end.

(** getQuerySchema and deleteQuerySchema. *)
Definition ownerQuerySchema (query : qobject) : list string + (Z * Z) :=
  let idAccount := zCoercePositive (qprop "idAccount" query) in
  let idUser := zCoercePositive (qprop "idUser" query) in
  match idAccount, idUser with
  | Some a, Some u => inr (a, u)
  | _, _ => inl (issue "idAccount" idAccount ++ issue "idUser" idUser)
  end.

(** [validated.dueDate ? new Date(validated.dueDate) : undefined]. *)
Definition to_Date (x : maybe string) : option Z :=
  match x with
  | MValue s => if String.eqb s "" then None else datetime s
  | _ => None
  end.

(** A handler: the reply, and the session as the call left it. *)
Definition handler : Type := session -> reply * session.

(** [try { ... await service(...) ; res.status(ok).json(successResponse(data)) }
     catch (error) { ... }]. *)
Definition respond {A : Type} (call : proc A) (ok : Z) (wrap : A -> data)
    (catch : js_error -> reply) : handler :=
  fun s =>
    match call s with
    | (Done a, s') => (Responded (mkResponse ok (Success (wrap a))), s')
    | (Raised e, s') => (catch (RequestError e), s')
    end.

Definition postHandler (body : jobject) : handler :=
  fun s =>
    match createBodySchema body with
    | inl issues => (postHandler_catch (ZodError issues), s)
    | inr validated =>
        respond
          (taskCreate
             (mkCreateRequest (cb_idAccount validated) (cb_idUser validated)
                (cb_title validated)
                (to_option (cb_description validated))
                (to_option (cb_priority validated))
                (to_Date (cb_dueDate validated))))
          HTTP_STATUS.CREATED One postHandler_catch s
    end.

Definition getListHandler (query : qobject) : handler :=
  fun s =>
    match listQuerySchema query with
    | inl issues => (getListHandler_catch (ZodError issues), s)
    | inr validated =>
        respond (taskList validated) default_status Many getListHandler_catch s
    end.

Definition getHandler (id : string) (query : qobject) : handler :=
  fun s =>
    match idParamsSchema id with
    | inl issues => (getHandler_catch (ZodError issues), s)
    | inr idTask =>
        match ownerQuerySchema query with
        | inl issues => (getHandler_catch (ZodError issues), s)
        | inr (idAccount, idUser) =>
            respond (taskGet (mkGetRequest idAccount idUser idTask))
              default_status One getHandler_catch s
        end
    end.

Definition putHandler (id : string) (body : jobject) : handler :=
  fun s =>
    match idParamsSchema id with
    | inl issues => (putHandler_catch (ZodError issues), s)
    | inr idTask =>
        match updateBodySchema body with
        | inl issues => (putHandler_catch (ZodError issues), s)
        | inr validated =>
            respond
              (taskUpdate
                 (mkUpdateRequest (ub_idAccount validated) (ub_idUser validated)
                    idTask (ub_title validated)
                    (to_option (ub_description validated))
                    (ub_priority validated)
                    (to_Date (ub_dueDate validated))
                    (ub_status validated)))
              default_status One putHandler_catch s
        end
    end.

Definition deleteHandler (id : string) (query : qobject) : handler :=
  fun s =>
    match idParamsSchema id with
    | inl issues => (deleteHandler_catch (ZodError issues), s)
    | inr idTask =>
        match ownerQuerySchema query with
        | inl issues => (deleteHandler_catch (ZodError issues), s)
        | inr (idAccount, idUser) =>
            respond (taskDelete (mkGetRequest idAccount idUser idTask))
              default_status One deleteHandler_catch s
        end
    end.

End Controller.

(** ** The rule violations, as the spec names them *)

Inductive error_kind : Type :=
| titleRequired
| titleExceedsMaxLength
| descriptionExceedsMaxLength
| invalidPriority
| invalidStatus
| dueDateInPast
| accountDoesntExist
| userDoesntExist
| taskDoesntExist
| titleAlreadyExists.

Definition kind_name (k : error_kind) : string :=
  match k with
  | titleRequired => "titleRequired"
  | titleExceedsMaxLength => "titleExceedsMaxLength"
  | descriptionExceedsMaxLength => "descriptionExceedsMaxLength"
  | invalidPriority => "invalidPriority"
  | invalidStatus => "invalidStatus"
  | dueDateInPast => "dueDateInPast"
  | accountDoesntExist => "accountDoesntExist"
  | userDoesntExist => "userDoesntExist"
  | taskDoesntExist => "taskDoesntExist"
  | titleAlreadyExists => "titleAlreadyExists"
  end.

(** The tagged error of a kind: what [;THROW 51000, 'kind', 1] raises. *)
Definition violation (k : error_kind) : sql_error := mkError 51000 (kind_name k).

(** *** The checks of Create, in the words of the spec *)

Fixpoint all_blank (s : string) : bool :=
  match s with
  | EmptyString => true
  | String c rest => blank c && all_blank rest
  end.

(** 1. title present and non-blank. *)
Definition title_present (title : option string) : bool :=
  match title with
  | Some t => negb (all_blank t)
  | None => false
  end.

(** [LEN(@title) > 100] and [LEN(@description) > 500], negated: the checks 2
    and 3 as the procedure makes them, on the values that its parameters
    hold.  The length that the spec counts, in the characters of the
    request, is [characters_within] below. *)
Definition length_within (n : Z) (x : option string) : bool :=
  match x with
  | Some t => LEN t <=? n
  | None => true
  end.

(** 4. priority in [0,2] (if present). *)
Definition within (lo hi : Z) (x : option Z) : bool :=
  match x with
  | Some p => (lo <=? p) && (p <=? hi)
  | None => true
  end.

(** 5. dueDate >= today (if present). *)
Definition not_in_past (today : Z) (dueDate : option Z) : bool :=
  match dueDate with
  | Some d => today <=? d
  | None => true
  end.

(** 8. no existing non-deleted task with the same (idAccount, idUser,
    title). *)
Definition same_title (idAccount idUser : Z) (title : string) (tsk : task_row)
  : bool :=
  (tsk_idAccount tsk =? idAccount) && (tsk_idUser tsk =? idUser)
  && nv_eq (tsk_title tsk) title.

Definition title_free (idAccount idUser : Z) (title : option string) (d : db)
  : bool :=
  match title with
  | Some t =>
      negb (existsb (fun tsk => same_title idAccount idUser t tsk
                                && negb (tsk_deleted tsk)) (task d))
  | None => true
  end.

(** The eight checks of the procedure in their order, on the values that its
    parameters hold, each with the kind raised when it is violated.  The
    checks of the spec on a request are [claimed_checks] below. *)
Definition create_checks (idAccount idUser : Z)
    (title description : option string) (priority dueDate : option Z)
    (s : session) : list (bool * error_kind) :=
  [ (title_present title, titleRequired);
    (length_within 100 title, titleExceedsMaxLength);
    (length_within 500 description, descriptionExceedsMaxLength);
    (within 0 2 priority, invalidPriority);
    (not_in_past (CAST_AS_DATE (clock s)) dueDate, dueDateInPast);
    (account_exists idAccount (tables s), accountDoesntExist);
    (user_exists idUser idAccount (tables s), userDoesntExist);
    (title_free idAccount idUser title (tables s), titleAlreadyExists) ].

Fixpoint first_violation (checks : list (bool * error_kind)) : option error_kind :=
  match checks with
  | [] => None
  | (passed, k) :: rest => if passed then first_violation rest else Some k
  end.

(** The session after some more events. *)
Definition after (evs : list event) (s : session) : session :=
  mkSession (tables s) (ident s) (trancount s) (undo s) (clock s)
    (trace s ++ evs).

(** ** What the statements are about *)

(** The row that the INSERT of spTaskCreate builds, or the error of the
    engine when the row cannot be stored. *)
Definition create_insert (idAccount idUser : Z)
    (title description : option string) (priority dueDate : option Z)
    (s : session) : sql_error + task_row :=
  match title, description, priority with
  | Some t, Some d, Some p =>
      let r := mkTask (ident s + 1) idAccount idUser t d p dueDate 0
                 (clock s) (clock s) false in
      match insert_conflict (tables s) r with
      | Some e => inl e
      | None => inr r
      end
  | _, _, _ => inl err_null
  end.

(** The TRY and CATCH blocks of spTaskCreate. *)
Definition create_transaction (idAccount idUser : Z)
    (title description : option string) (priority dueDate : option Z)
  : proc recordset :=
  TRY_CATCH
    (BEGIN_TRAN ;;
     now <- GETUTCDATE ;;
     INSERT_task idAccount idUser title description priority dueDate 0 now now ;;
     idTask <- SCOPE_IDENTITY ;;
     out <- SELECT_scalar "idTask" idTask ;;
     COMMIT_TRAN ;;
     ret out)
    (fun e => ROLLBACK_TRAN ;; RETHROW e).

(** The session when a procedure's transaction has ended: nothing is open,
    the tables are [d], and [n] identity values were consumed. *)
Definition closed (d : db) (n : Z) (evs : list event) (s : session) : session :=
  mkSession d (ident s + n) O None (clock s) (trace s ++ evs).

(** The reads of the three EXISTS checks that come before a transaction. *)
Definition checked : list event := [EvRead Account; EvRead User; EvRead Task].

(** An outcome that is no rule violation: a result, or an error of the
    engine itself. *)
Definition no_violation {A : Type} (o : outcome A) : Prop :=
  match o with
  | Done _ => True
  | Raised e => number e <> 51000
  end.

(** The table accesses of a trace that were made while no transaction was
    open; [depth] counts the transactions open at the start. *)
Fixpoint outside_transaction (depth : nat) (evs : list event) : list event :=
  match evs with
  | [] => []
  | BeginTran :: rest => outside_transaction (S depth) rest
  | CommitTran :: rest => outside_transaction (pred depth) rest
  | RollbackTran :: rest => outside_transaction O rest
  | ev :: rest =>
      match depth with
      | O => ev :: outside_transaction depth rest
      | S _ => outside_transaction depth rest
      end
  end.

(** The events that a run from [s] to [s'] added to the trace. *)
Definition events_of (s s' : session) : list event :=
  skipn (List.length (trace s)) (trace s').

(** Steps 1 to 5 of Create are the first five checks, steps 6 to 8 the
    other three. *)
Definition passes_field_validation (idAccount idUser : Z)
    (title description : option string) (priority dueDate : option Z)
    (s : session) : Prop :=
  first_violation
    (firstn 5 (create_checks idAccount idUser title description priority dueDate s))
  = None.

(** The claim as the spec words it: a Create that passes steps 1 to 5 makes
    all its accesses to the tables, those of the checks 6 to 8 and the
    insert, inside a transaction. *)
Definition create_in_one_transaction (idAccount idUser : Z)
    (title description : option string) (priority dueDate : option Z)
    (s : session) : Prop :=
  passes_field_validation idAccount idUser title description priority dueDate s ->
  outside_transaction (trancount s)
    (events_of s
       (snd (spTaskCreate idAccount idUser title description priority
               dueDate s)))
  = [].

(** A store with one account and two users of it, on day 100. *)
Definition two_users : db := mkDb [1] [mkUser 1 1; mkUser 2 1] [].
Definition day100 : session := mkSession two_users 0 O None 8640000005 [].

(** Reading a record of a result set. *)
Fixpoint field (name : string) (r : record) : value :=
  match r with
  | [] => VNull
  | (k, v) :: rest => if String.eqb k name then v else field name rest
  end.

Definition number_of (v : value) : option Z :=
  match v with
  | VInt z => Some z
  | VDate d => Some d
  | VDateTime t => Some t
  | _ => None
  end.

(** An ascending order in which the NULLs come last. *)
Definition ASC_NULLS_LAST (x y : option Z) : comparison :=
  match x, y with
  | None, None => Eq
  | None, Some _ => Gt
  | Some _, None => Lt
  | Some a, Some b => a ?= b
  end.

(** The order of two records under three sort keys, given the order of the
    second key. *)
Definition record_order (by_dueDate : option Z -> option Z -> comparison)
    (a b : record) : comparison :=
  then_by (DESC (number_of (field "priority" a)) (number_of (field "priority" b)))
    (then_by (by_dueDate (number_of (field "dueDate" a))
                (number_of (field "dueDate" b)))
       (DESC (number_of (field "dateCreated" a))
          (number_of (field "dateCreated" b)))).

(** The order that the spec claims: priority descending, dueDate ascending
    with the nulls last, dateCreated descending. *)
Definition claimed_order : record -> record -> comparison :=
  record_order ASC_NULLS_LAST.

(** The order of the ORDER BY clause: the same with the nulls first. *)
Definition listed_order : record -> record -> comparison :=
  record_order ASC.

(** A sequence is sorted when no element comes after a later one. *)
Fixpoint sorted_by {A : Type} (cmp : A -> A -> comparison) (l : list A) : bool :=
  match l with
  | [] => true
  | x :: rest => forallb (fun y => not_after (cmp x y)) rest && sorted_by cmp rest
  end.

(** The sort keys of a row as numbers, a NULL dueDate below every date. *)
Definition due_key (x : option Z) : Z * Z :=
  match x with
  | None => (0, 0)
  | Some d => (1, d)
  end.

(** Row [a] may come before row [b] under the ORDER BY clause. *)
Definition precedes (a b : task_row) : Prop :=
  tsk_priority b < tsk_priority a
  \/ (tsk_priority a = tsk_priority b
      /\ (fst (due_key (tsk_dueDate a)) < fst (due_key (tsk_dueDate b))
          \/ (fst (due_key (tsk_dueDate a)) = fst (due_key (tsk_dueDate b))
              /\ (snd (due_key (tsk_dueDate a)) < snd (due_key (tsk_dueDate b))
                  \/ (snd (due_key (tsk_dueDate a)) = snd (due_key (tsk_dueDate b))
                      /\ tsk_dateCreated b <= tsk_dateCreated a))))).

(** The reads of a List: two EXISTS checks and the SELECT. *)
Definition listed : list event := [EvRead Account; EvRead User; EvRead Task].

(** Four tasks of user 1 that span the three priorities, one of them
    without a dueDate, and a task of user 2. *)
Definition fixture : session :=
  mkSession
    (mkDb [1] [mkUser 1 1; mkUser 2 1]
       [ mkTask 1 1 1 "Pay rent" "" 2 (Some 120) 0 8640000001 8640000001 false;
         mkTask 2 1 1 "Call home" "" 1 None 0 8640000002 8640000002 false;
         mkTask 3 1 1 "Buy milk" "" 1 (Some 110) 0 8640000003 8640000003 false;
         mkTask 4 1 1 "Water plants" "" 0 (Some 105) 1 8640000004 8640000004 false;
         mkTask 5 1 2 "Buy milk" "" 1 (Some 110) 0 8640000005 8640000005 false ])
    5 O None 8640000006 [].

(** The status that the spec claims for a rule violation. *)
Definition claimed_status (k : error_kind) : Z :=
  match k with
  | taskDoesntExist => 404
  | _ => 400
  end.

(** A handler surfaces a rule violation of kind [k] with status [st] when
    it answers with [errorResponse(error.message)] under that status. *)
Definition surfaces (h : handler) (s : session) (k : error_kind) (st : Z) : Prop :=
  exists s', h s = (Responded (mkResponse st (Failure (kind_name k) None [])), s').

(** An instance of [Number] for the examples: it reads the strings of
    decimal digits, as Number does ([Number("")] is 0). *)
Fixpoint digits (s : string) (acc : Z) : option Z :=
  match s with
  | EmptyString => Some acc
  | String c rest =>
      let n := Z.of_nat (nat_of_ascii c) in
      if (48 <=? n) && (n <=? 57) then digits rest (10 * acc + (n - 48)) else None
  end.

Definition decimal (s : string) : option Z := digits s 0.

(** An instance of [datetime] for the examples, which give no dueDate. *)
Definition no_datetime (s : string) : option Z := None.

(** The string of [n] characters [c]. *)
Fixpoint replicate (n : nat) (c : ascii) : string :=
  match n with
  | O => EmptyString
  | S m => String c (replicate m c)
  end.

(** A request of user 1 with a title of [n] letters. *)
Definition titled (n : nat) : jobject :=
  [("idAccount", JInt 1); ("idUser", JInt 1); ("title", JString (replicate n "a"))].

(** The TRY and CATCH blocks of spTaskUpdate and spTaskDelete: one UPDATE in
    a transaction. *)
Definition update_transaction (SET : Z -> task_row -> option task_row)
    (WHERE : task_row -> bool) (idTask : Z) : proc recordset :=
  TRY_CATCH
    (BEGIN_TRAN ;;
     now <- GETUTCDATE ;;
     UPDATE_task (SET now) WHERE ;;
     out <- SELECT_scalar "idTask" idTask ;;
     COMMIT_TRAN ;;
     ret out)
    (fun e => ROLLBACK_TRAN ;; RETHROW e).

(** The SET clause of spTaskDelete. *)
Definition delete_set (now : Z) (tsk : task_row) : option task_row :=
  Some (mkTask (tsk_idTask tsk) (tsk_idAccount tsk) (tsk_idUser tsk)
          (tsk_title tsk) (tsk_description tsk) (tsk_priority tsk)
          (tsk_dueDate tsk) (tsk_status tsk) (tsk_dateCreated tsk) now true).

(** The SET clause of spTaskUpdate. *)
Definition update_set (title description : option string)
    (priority dueDate status : option Z) (now : Z) (tsk : task_row)
  : option task_row :=
  match title, description, priority, status with
  | Some t, Some d, Some p, Some st =>
      Some (mkTask (tsk_idTask tsk) (tsk_idAccount tsk) (tsk_idUser tsk)
              t d p dueDate st (tsk_dateCreated tsk) now (tsk_deleted tsk))
  | _, _, _, _ => None
  end.

(** The field validation of Update: the five of Create and the status. *)
Definition update_fields_valid (title description : option string)
    (priority dueDate status : option Z) (s : session) : bool :=
  title_present title && length_within 100 title && length_within 500 description
  && within 0 2 priority && within 0 1 status
  && not_in_past (CAST_AS_DATE (clock s)) dueDate.

(** No other task of the pair that is not deleted has the title. *)
Definition title_free_but (idTask idAccount idUser : Z) (title : option string)
    (d : db) : bool :=
  match title with
  | Some t =>
      negb (existsb (fun tsk => same_title idAccount idUser t tsk
                                && negb (tsk_idTask tsk =? idTask)
                                && negb (tsk_deleted tsk)) (task d))
  | None => true
  end.

(** The reads of the four EXISTS checks of spTaskUpdate. *)
Definition checked_twice : list event :=
  [EvRead Account; EvRead User; EvRead Task; EvRead Task].

(** The user owns no task with the identifier: every row that has it, if
    there is one, belongs to another user. *)
Definition does_not_own (idUser idTask : Z) (d : db) : Prop :=
  forall r, In r (task d) -> tsk_idTask r = idTask -> tsk_idUser r <> idUser.

(** The fixture after user 1 deleted task 3, "Buy milk". *)
Definition fixture_without_3 : session := snd (spTaskDelete 1 1 3 fixture).

(** The columns of the unique index, and the flag that filters it. *)
Definition same_key (a b : task_row) : Prop :=
  tsk_deleted a = tsk_deleted b /\ tsk_idAccount a = tsk_idAccount b
  /\ tsk_idUser a = tsk_idUser b /\ tsk_title a = tsk_title b.

(** The invariant of a store that the constraints keep: the unique index
    holds, and no row has an [idTask] beyond the identity counter. *)
Definition consistent (s : session) : Prop :=
  uqTask_Account_User_Title (task (tables s)) = true
  /\ Forall (fun r => tsk_idTask r <= ident s) (task (tables s)).

(** ** The procedures beyond the claims *)

(** The ten checks of Update, in the order of spTaskUpdate, each with the
    kind raised when it is violated. *)
Definition update_checks (idAccount idUser idTask : Z)
    (title description : option string) (priority dueDate status : option Z)
    (s : session) : list (bool * error_kind) :=
  [ (title_present title, titleRequired);
    (length_within 100 title, titleExceedsMaxLength);
    (length_within 500 description, descriptionExceedsMaxLength);
    (within 0 2 priority, invalidPriority);
    (within 0 1 status, invalidStatus);
    (not_in_past (CAST_AS_DATE (clock s)) dueDate, dueDateInPast);
    (account_exists idAccount (tables s), accountDoesntExist);
    (user_exists idUser idAccount (tables s), userDoesntExist);
    (existsb (own_task idTask idAccount idUser) (task (tables s)), taskDoesntExist);
    (title_free_but idTask idAccount idUser title (tables s), titleAlreadyExists) ].

(** The checks of Get and of Delete, and those of List. *)
Definition task_checks (idAccount idUser idTask : Z) (s : session)
  : list (bool * error_kind) :=
  [ (account_exists idAccount (tables s), accountDoesntExist);
    (user_exists idUser idAccount (tables s), userDoesntExist);
    (existsb (own_task idTask idAccount idUser) (task (tables s)), taskDoesntExist) ].

Definition list_checks (idAccount idUser : Z) (status priority : option Z)
    (s : session) : list (bool * error_kind) :=
  [ (account_exists idAccount (tables s), accountDoesntExist);
    (user_exists idUser idAccount (tables s), userDoesntExist);
    (within 0 1 status, invalidStatus);
    (within 0 2 priority, invalidPriority) ].

(** The events of a trace that change or may change the store. *)
Definition is_read (ev : event) : bool :=
  match ev with
  | EvRead _ => true
  | _ => false
  end.

(** A row as the checks of the procedures admit it: priority and status in
    range, an account and a user of that account, a title that is not blank
    and within 100 characters, a description within 500. *)
Definition row_valid (d : db) (r : task_row) : bool :=
  chkTask_Priority r && chkTask_Status r
  && account_exists (tsk_idAccount r) d
  && user_exists (tsk_idUser r) (tsk_idAccount r) d
  && title_present (Some (tsk_title r))
  && length_within 100 (Some (tsk_title r))
  && length_within 500 (Some (tsk_description r)).

(** A session between two calls: no transaction is open, the unique index
    and the primary key hold, the identity counter is not behind the rows,
    and every row is valid. *)
Definition sound (s : session) : Prop :=
  trancount s = O
  /\ consistent s
  /\ NoDup (map tsk_idTask (task (tables s)))
  /\ forallb (row_valid (tables s)) (task (tables s)) = true.

(** The rows of the pair (idAccount, idUser), and the others. *)
Definition owned_by (idAccount idUser : Z) (r : task_row) : bool :=
  (tsk_idAccount r =? idAccount) && (tsk_idUser r =? idUser).

(** An outcome that the controller can answer: a result or a rule
    violation. *)
Definition answered {A : Type} (o : outcome A) : Prop :=
  match o with
  | Done _ => True
  | Raised e => exists k, e = violation k
  end.

(** ** Requests in a row *)

(** The routes of the router: [router.post('/task', postHandler)],
    [router.get('/task', getListHandler)], [router.get('/task/:id',
    getHandler)], [router.put('/task/:id', putHandler)] and
    [router.delete('/task/:id', deleteHandler)].  A request is one of the
    five, with what the handler reads of it. *)
Inductive request : Type :=
| POST_task (body : jobject)
| GET_task_list (query : qobject)
| GET_task (id : string) (query : qobject)
| PUT_task (id : string) (body : jobject)
| DELETE_task (id : string) (query : qobject).

Definition router (Number datetime : string -> option Z) (r : request) : handler :=
  match r with
  | POST_task body => postHandler datetime body
  | GET_task_list query => getListHandler Number query
  | GET_task id query => getHandler Number id query
  | PUT_task id body => putHandler Number datetime id body
  | DELETE_task id query => deleteHandler Number id query
  end.

(** The session at another time of the clock. *)
Definition at_time (t : Z) (s : session) : session :=
  mkSession (tables s) (ident s) (trancount s) (undo s) t (trace s).

(** Requests served one after the other, each at its time. *)
Fixpoint serve (Number datetime : string -> option Z)
    (requests : list (Z * request)) (s : session) : list reply * session :=
  match requests with
  | [] => ([], s)
  | (t, r) :: rest =>
      let (answer, s1) := router Number datetime r (at_time t s) in
      let (answers, s2) := serve Number datetime rest s1 in
      (answer :: answers, s2)
  end.

(** A reply that the handler gave itself, under one of the statuses that
    the controller uses. *)
Definition responded (rp : reply) : bool :=
  match rp with
  | Responded r =>
      (status r =? 200) || (status r =? 201) || (status r =? 400)
      || (status r =? 404)
  | Next _ => false
  end.

(** What no call changes of a row: its idTask, its pair and its
    dateCreated. *)
Definition identity (r : task_row) : Z * Z * Z * Z :=
  (tsk_idTask r, tsk_idAccount r, tsk_idUser r, tsk_dateCreated r).

(** [s'] keeps the rows of [s]: every row of [s] is at its place in [s']
    with its identity, and a row that is deleted in [s] is the same row in
    [s']. *)
Definition keeps_rows (s s' : session) : Prop :=
  (exists added,
      map identity (task (tables s')) = map identity (task (tables s)) ++ added)
  /\ (forall i r, nth_error (task (tables s)) i = Some r ->
                  tsk_deleted r = true ->
                  nth_error (task (tables s')) i = Some r).

(** Five requests to the fixture, on day 100: a second "Buy milk" is
    refused, task 3 is deleted, the title is free again, task 3 is gone,
    and the list has four tasks. *)
Definition five_requests : list (Z * request) :=
  [ (8640000010,
     POST_task [("idAccount", JInt 1); ("idUser", JInt 1);
                ("title", JString "Buy milk")]);
    (8640000020, DELETE_task "3" [("idAccount", "1"); ("idUser", "1")]);
    (8640000030,
     POST_task [("idAccount", JInt 1); ("idUser", JInt 1);
                ("title", JString "Buy milk")]);
    (8640000040, GET_task "3" [("idAccount", "1"); ("idUser", "1")]);
    (8640000050, GET_task_list [("idAccount", "1"); ("idUser", "1")]) ].

(** ** The client ([QuickTaskForm/main.tsx], [TaskCreate/main.tsx], the
       TaskForm component)

    [createTask] of useTaskCreate is [mutation.mutateAsync], whose mutation
    function is [taskService.create], which posts its argument as the body
    of POST /task: the object that a form hands to [createTask] is the body
    that postHandler reads. *)

Section Client.

(** [white_space c]: [String.prototype.trim] removes the character [c], a
    WhiteSpace or a LineTerminator of ECMAScript. *)
Variable white_space : ascii -> bool.

(** [not_before_today date]: [new Date(date) >= today], [today] being the
    local midnight of the browser. *)
Variable not_before_today : string -> bool.

Fixpoint trimStart (s : string) : string :=
  match s with
  | String c rest => if white_space c then trimStart rest else s
  | EmptyString => EmptyString
  end.

Fixpoint trimEnd (s : string) : string :=
  match s with
  | EmptyString => EmptyString
  | String c rest =>
      match trimEnd rest with
      | EmptyString => if white_space c then EmptyString else String c EmptyString
      | kept => String c kept
      end
  end.

Definition trim (s : string) : string := trimEnd (trimStart s).

(** The state of QuickTaskForm. *)
Record QuickTaskForm : Type := mkQuickTaskForm {
  qf_title : string;
  qf_error : string
}.

(** [handleSubmit]: the state it leaves, and the argument of [onSubmit] when
    it calls it.  The empty string is falsy. *)
Definition handleSubmit (form : QuickTaskForm) : QuickTaskForm * option string :=
  if String.eqb (trim (qf_title form)) ""
  then (mkQuickTaskForm (qf_title form) "O título da tarefa é obrigatório", None)
  else if Nat.ltb 100 (String.length (qf_title form))
  then (mkQuickTaskForm (qf_title form)
          "O título não pode ter mais de 100 caracteres", None)
  else (mkQuickTaskForm "" "", Some (trim (qf_title form))).

(** [handleQuickSubmit]: the object given to [createTask]. *)
Definition handleQuickSubmit (title : string) : jobject :=
  [("idAccount", JInt 1); ("idUser", JInt 1); ("title", JString title);
   ("priority", JInt 1)].

(** What [taskFormSchema] infers. *)
Record TaskFormData : Type := mkTaskFormData {
  tf_title : string;
  tf_description : option string;
  tf_priority : Z;
  tf_dueDate : option string
}.

(** [taskFormSchema]: the values of the form that it accepts, or the paths
    of its issues. *)
Definition taskFormSchema (values : jobject) : list string + TaskFormData :=
  let title := zString (Some 100%nat) (prop "title" values) in
  let description :=
    match prop "description" values with
    | JUndefined => Some None
    | JString d => if Nat.leb (String.length d) 500 then Some (Some d) else None
    | _ => None
    end in
  let priority :=
    match prop "priority" values with
    | JUndefined => Some 1
    | v => zIntRange 0 2 v
    end in
  let dueDate :=
    match prop "dueDate" values with
    | JUndefined => Some None
    | JString date =>
        if String.eqb date "" || not_before_today date then Some (Some date) else None
    | _ => None
    end in
  match title, description, priority, dueDate with
  | Some t, Some d, Some p, Some due => inr (mkTaskFormData t d p due)
  | _, _, _, _ =>
      inl (issue "title" title ++ issue "description" description
           ++ issue "priority" priority ++ issue "dueDate" dueDate)
  end.

(** [x || undefined] of an optional string. *)
Definition or_undefined (x : option string) : json :=
  match x with
  | Some v => if String.eqb v "" then JUndefined else JString v
  | None => JUndefined
  end.

(** [handleFormSubmit]: the object given to [onSubmit], which is
    [handleFullSubmit] and gives it to [createTask]. *)
Definition handleFormSubmit (data : TaskFormData) : jobject :=
  [("idAccount", JInt 1); ("idUser", JInt 1); ("title", JString (tf_title data));
   ("description", or_undefined (tf_description data));
   ("priority", JInt (tf_priority data));
   ("dueDate", or_undefined (tf_dueDate data))].

End Client.

(** The characters below 256 that [trim] removes: tab, line feed, vertical
    tab, form feed, carriage return, space and no-break space. *)
Definition latin1_white_space (c : ascii) : bool :=
  let n := nat_of_ascii c in
  (Nat.leb 9 n && Nat.leb n 13) || Nat.eqb n 32 || Nat.eqb n 160.

(** ** The connection pool (the module instances/database)

    A [sql.ConnectionPool] is an object with a flag [connected];
    [new sql.ConnectionPool(config).connect()] gives a promise that is
    fulfilled with the pool itself, then connected, or is rejected with an
    error; [close()] disconnects the pool.  The objects created so far are
    numbered in the order of their creation. *)

Module Database.

Record instance : Type := mkInstance {
  pool : option nat;
  pools : list bool;
  console : list string
}.

Definition connected (p : nat) (i : instance) : bool := nth p (pools i) false.

Fixpoint set_connected (p : nat) (flag : bool) (l : list bool) : list bool :=
  match l, p with
  | [], _ => []
  | _ :: rest, O => flag :: rest
  | x :: rest, S q => x :: set_connected q flag rest
  end.

(** An asynchronous function runs to its first [await], and goes on when
    the promise it awaits is settled. *)
Inductive pending : Type :=
| Returns (p : nat)
| Awaits (p : nat).

(** [getPool], to its [await]: [pool && pool.connected] returns the pool;
    otherwise a new pool is created and its connection awaited. *)
Definition getPool_enter (i : instance) : pending * instance :=
  let connect :=
    (Awaits (List.length (pools i)),
     mkInstance (pool i) (pools i ++ [false]) (console i)) in
  match pool i with
  | Some p => if connected p i then (Returns p, i) else connect
  | None => connect
  end.

(** [getPool], from its [await]: the promise of [connect()] was fulfilled,
    or rejected with an error. *)
Definition getPool_resume (p : nat) (rejected : option string) (i : instance)
  : (string + nat) * instance :=
  match rejected with
  | None =>
      (inr p,
       mkInstance (Some p) (set_connected p true (pools i))
         (console i ++ ["Database connection established"]))
  | Some error =>
      (inl error,
       mkInstance (pool i) (pools i)
         (console i ++ ["Database connection failed:"; error]))
  end.

(** A call of [getPool] that no other call overlaps. *)
Definition getPool (rejected : option string) (i : instance)
  : (string + nat) * instance :=
  match getPool_enter i with
  | (Returns p, i1) => (inr p, i1)
  | (Awaits p, i1) => getPool_resume p rejected i1
  end.

Definition closePool (i : instance) : instance :=
  match pool i with
  | Some p =>
      mkInstance None (set_connected p false (pools i))
        (console i ++ ["Database connection closed"])
  | None => i
  end.

(** Two calls of [getPool] that overlap: the second one is entered before
    the connection of the first one is made.  Both connections are made, in
    one order or the other, and each call goes on when its own connection
    is made. *)
Definition getPool_twice (second_connects_first : bool) (i : instance)
  : pending * pending * instance :=
  let (first, i1) := getPool_enter i in
  let (second, i2) := getPool_enter i1 in
  let resume (call : pending) (j : instance) :=
    match call with
    | Awaits p => snd (getPool_resume p None j)
    | Returns _ => j
    end in
  (first, second,
   if second_connects_first
   then resume first (resume second i2)
   else resume second (resume first i2)).

(** The module holds every pool that is connected: a connected pool is the
    one the variable refers to. *)
Definition one_pool (i : instance) : Prop :=
  forall p, connected p i = true -> pool i = Some p.

End Database.

(** What a function of the facade does on a session: called with arguments
    that fit the types of the parameters, it returns its result or is
    rejected with a rule violation; called with an argument that does not
    fit, it is rejected with the error of the conversion and the procedure
    is not entered.  In both cases the session it leaves is sound. *)
Definition settled {A : Type} (fits : bool) (call : proc A) (s : session) : Prop :=
  (if fits
   then answered (fst (call s))
   else call s = (Raised err_conversion, s))
  /\ sound (snd (call s)).

(** The numbers of a request that fit INTEGER, and its dueDate when it fits
    DATETIME: the properties of a body, and the strings of a query or of
    the route parameter. *)
Definition number_fits (v : json) : bool :=
  match v with
  | JInt z => INTEGER z
  | _ => true
  end.

Definition date_fits (datetime : string -> option Z) (v : json) : bool :=
  match v with
  | JString d => if_given DATETIME (datetime d)
  | _ => true
  end.

Definition string_fits (Number : string -> option Z) (v : option string) : bool :=
  match v with
  | Some text => if_given INTEGER (Number text)
  | None => true
  end.

Definition within_types (Number datetime : string -> option Z) (r : request)
  : bool :=
  match r with
  | POST_task body =>
      number_fits (prop "idAccount" body) && number_fits (prop "idUser" body)
      && date_fits datetime (prop "dueDate" body)
  | GET_task_list query =>
      string_fits Number (qprop "idAccount" query)
      && string_fits Number (qprop "idUser" query)
  | GET_task id query | DELETE_task id query =>
      string_fits Number (Some id)
      && string_fits Number (qprop "idAccount" query)
      && string_fits Number (qprop "idUser" query)
  | PUT_task id body =>
      string_fits Number (Some id)
      && number_fits (prop "idAccount" body) && number_fits (prop "idUser" body)
      && date_fits datetime (prop "dueDate" body)
  end.

(** Three requests to the fixture whose numbers do not all fit: an idTask
    and an idAccount beyond INTEGER pass the schemas and are refused by the
    call; the third request is an ordinary one. *)
Definition three_requests : list (Z * request) :=
  [ (8640000010, GET_task "99999999999" [("idAccount", "1"); ("idUser", "1")]);
    (8640000020,
     POST_task [("idAccount", JInt 3000000000); ("idUser", JInt 1);
                ("title", JString "Buy bread")]);
    (8640000030, GET_task "3" [("idAccount", "1"); ("idUser", "1")]) ].

(** *** The checks of a Create request

    The spec counts the length of a title or of a description in the
    characters of the request. *)
Definition characters_within (n : nat) (x : option string) : bool :=
  match x with
  | Some t => Nat.leb (String.length t) n
  | None => true
  end.

(** The eight checks of the spec on a Create request, in its order. *)
Definition claimed_checks (idAccount idUser : Z)
    (title description : option string) (priority dueDate : option Z)
    (s : session) : list (bool * error_kind) :=
  [ (title_present title, titleRequired);
    (characters_within 100 title, titleExceedsMaxLength);
    (characters_within 500 description, descriptionExceedsMaxLength);
    (within 0 2 priority, invalidPriority);
    (not_in_past (CAST_AS_DATE (clock s)) dueDate, dueDateInPast);
    (account_exists idAccount (tables s), accountDoesntExist);
    (user_exists idUser idAccount (tables s), userDoesntExist);
    (title_free idAccount idUser title (tables s), titleAlreadyExists) ].

(** What the spec claims of a Create request: the procedure, called with
    the request, raises the error of the first of the eight checks that the
    request violates, and no rule violation when it violates none. *)
Definition first_violation_claimed (idAccount idUser : Z)
    (title description : option string) (priority dueDate : option Z)
    (s : session) : Prop :=
  let run := execute_spTaskCreate idAccount idUser title description priority
               dueDate s in
  match first_violation
          (claimed_checks idAccount idUser title description priority dueDate s)
  with
  | Some k => fst run = Raised (violation k)
  | None => no_violation (fst run)
  end.

(** The checks that a Create request can fail: the title that the parameter
    holds, the first 100 characters of the title of the request, is not
    blank; the priority; the dueDate; the account; the user; and the title
    that the parameter holds is free. *)
Definition request_checks (idAccount idUser : Z)
    (title : option string) (priority dueDate : option Z)
    (s : session) : list (bool * error_kind) :=
  let held := option_map (NVARCHAR 100) title in
  [ (title_present held, titleRequired);
    (within 0 2 priority, invalidPriority);
    (not_in_past (CAST_AS_DATE (clock s)) dueDate, dueDateInPast);
    (account_exists idAccount (tables s), accountDoesntExist);
    (user_exists idUser idAccount (tables s), userDoesntExist);
    (title_free idAccount idUser held (tables s), titleAlreadyExists) ].

(** * Proofs *)

(** ** Strings *)

Lemma RTRIM_empty (s : string) : String.eqb (RTRIM s) "" = all_blank s.
Proof.
  induction s as [|c rest IH]; simpl; [reflexivity|].
  destruct (RTRIM rest) eqn:E.
  - simpl in IH. rewrite <- IH.
    destruct (blank c); reflexivity.
  - simpl in IH. rewrite <- IH. rewrite andb_false_r. reflexivity.
Qed.

Lemma all_blank_RTRIM (s : string) : all_blank (RTRIM s) = all_blank s.
Proof.
  induction s as [|c rest IH]; simpl; [reflexivity|].
  destruct (RTRIM rest) eqn:E.
  - simpl in IH. rewrite <- IH.
    destruct (blank c) eqn:B; simpl; rewrite ?B; reflexivity.
  - rewrite <- IH. reflexivity.
Qed.

Lemma all_blank_LTRIM (s : string) : all_blank (LTRIM s) = all_blank s.
Proof.
  induction s as [|c rest IH]; simpl; [reflexivity|].
  destruct (blank c) eqn:B; simpl; rewrite ?B; auto.
Qed.

Lemma RTRIM_idem (s : string) : RTRIM (RTRIM s) = RTRIM s.
Proof.
  induction s as [|c rest IH]; simpl; [reflexivity|].
  destruct (RTRIM rest) eqn:E.
  - destruct (blank c) eqn:B; simpl; rewrite ?B; reflexivity.
  - simpl. simpl in IH. rewrite IH. reflexivity.
Qed.

Lemma nv_eq_refl (s : string) : nv_eq s s = true.
Proof. unfold nv_eq. apply String.eqb_refl. Qed.

Lemma nv_eq_sym (a b : string) : nv_eq a b = nv_eq b a.
Proof. unfold nv_eq. apply String.eqb_sym. Qed.

(** The condition of the first IF of spTaskCreate and spTaskUpdate. *)
Lemma titleRequired_condition (title : option string) :
  holds (OR (IS_NULL title)
            (EQS (option_map LTRIM (option_map RTRIM title)) (Some "")))
  = negb (title_present title).
Proof.
  destruct title as [t|]; simpl; [|reflexivity].
  unfold nv_eq. simpl (RTRIM "").
  rewrite RTRIM_empty, all_blank_LTRIM, all_blank_RTRIM.
  destruct (all_blank t); reflexivity.
Qed.

Lemma length_condition (n : Z) (x : option string) :
  holds (GT (option_map LEN x) (Some n)) = negb (length_within n x).
Proof.
  destruct x as [t|]; simpl; [|reflexivity].
  rewrite Z.gtb_ltb, Z.leb_antisym.
  destruct (n <? LEN t); reflexivity.
Qed.

Lemma description_condition (n : Z) (x : option string) :
  holds (AND (IS_NOT_NULL x) (GT (option_map LEN x) (Some n)))
  = negb (length_within n x).
Proof.
  destruct x as [t|]; simpl; [|reflexivity].
  rewrite Z.gtb_ltb, Z.leb_antisym.
  destruct (n <? LEN t); reflexivity.
Qed.

Lemma between_condition (lo hi : Z) (x : option Z) :
  holds (NOT (BETWEEN x lo hi)) = negb (within lo hi x).
Proof.
  destruct x as [p|]; [|reflexivity].
  unfold BETWEEN, compare2, within. rewrite Z.geb_leb.
  destruct (lo <=? p), (p <=? hi); reflexivity.
Qed.

Lemma dueDate_condition (today : Z) (x : option Z) :
  holds (AND (IS_NOT_NULL x) (LT x (Some today))) = negb (not_in_past today x).
Proof.
  destruct x as [d|]; simpl; [|reflexivity].
  rewrite Z.leb_antisym.
  destruct (d <? today); reflexivity.
Qed.

Lemma title_condition (idAccount idUser : Z) (title : option string) (d : db) :
  title_present title = true ->
  existsb (fun tsk =>
      (tsk_idAccount tsk =? idAccount) && (tsk_idUser tsk =? idUser)
      && holds (EQS (Some (tsk_title tsk)) title)
      && negb (tsk_deleted tsk)) (task d)
  = negb (title_free idAccount idUser title d).
Proof.
  destruct title as [t|]; simpl; [|discriminate].
  intros _. rewrite negb_involutive.
  induction (task d) as [|r l IH]; simpl; [reflexivity|].
  rewrite IH. unfold same_title.
  destruct (nv_eq (tsk_title r) t); reflexivity.
Qed.

(** ** One run of spTaskCreate *)

Lemma after_after (e1 e2 : list event) (s : session) :
  after e2 (after e1 s) = after (e1 ++ e2) s.
Proof. unfold after; cbn. rewrite app_assoc. reflexivity. Qed.

Lemma closed_after (d : db) (n : Z) (e1 e2 : list event) (s : session) :
  closed d n e2 (after e1 s) = closed d n (e1 ++ e2) s.
Proof. unfold closed, after; cbn. rewrite app_assoc. reflexivity. Qed.

(** Stepping through a procedure: [enter] goes into the next statement,
    [reads] performs the read of an EXISTS, [decide_on c] takes a check both
    ways and closes the branch that throws, and [checks_done] names the
    session that the reads leave. *)
Ltac thrown :=
  unfold THROW, after, checked, checked_twice, listed, log; cbn;
  rewrite <- ?app_assoc; reflexivity.

Ltac enter := unfold ret at 1; unfold bind at 1.

Ltac reads := unfold EXISTS at 1; cbn [log tables]; unfold bind at 1.

Ltac decide_on c := destruct c eqn:?; simpl (negb _); cbn [IF]; [|thrown].

Ltac checks_done evs s :=
  unfold ret at 1;
  match goal with
  | |- context [?f (log ?e ?s')] =>
      replace (log e s') with (after evs s) by thrown
  end;
  reflexivity.

(** The validations, one after the other, up to the transaction. *)
Lemma spTaskCreate_checks (idAccount idUser : Z)
    (title description : option string) (priority dueDate : option Z)
    (s : session) :
  spTaskCreate idAccount idUser title description priority dueDate s =
  if negb (title_present title) then (Raised (violation titleRequired), s)
  else if negb (length_within 100 title)
  then (Raised (violation titleExceedsMaxLength), s)
  else if negb (length_within 500 description)
  then (Raised (violation descriptionExceedsMaxLength), s)
  else if negb (within 0 2 priority) then (Raised (violation invalidPriority), s)
  else if negb (not_in_past (CAST_AS_DATE (clock s)) dueDate)
  then (Raised (violation dueDateInPast), s)
  else if negb (account_exists idAccount (tables s))
  then (Raised (violation accountDoesntExist), after [EvRead Account] s)
  else if negb (user_exists idUser idAccount (tables s))
  then (Raised (violation userDoesntExist), after [EvRead Account; EvRead User] s)
  else if negb (title_free idAccount idUser title (tables s))
  then (Raised (violation titleAlreadyExists), after checked s)
  else create_transaction idAccount idUser title description priority dueDate
         (after checked s).
Proof.
  unfold spTaskCreate.
  unfold bind at 1. rewrite titleRequired_condition.
  destruct (title_present title) eqn:Hpresent; simpl (negb _); cbn [IF]; [|thrown].
  enter. rewrite length_condition. decide_on (length_within 100 title).
  enter. rewrite description_condition. decide_on (length_within 500 description).
  enter. rewrite between_condition. decide_on (within 0 2 priority).
  enter. unfold GETUTCDATE at 1. unfold bind at 1. rewrite dueDate_condition.
  decide_on (not_in_past (CAST_AS_DATE (clock s)) dueDate).
  enter. reads. decide_on (account_exists idAccount (tables s)).
  enter. reads. decide_on (user_exists idUser idAccount (tables s)).
  enter. unfold EXISTS at 1. cbn [log tables].
  rewrite (title_condition idAccount idUser title (tables s) Hpresent).
  unfold bind at 1. decide_on (title_free idAccount idUser title (tables s)).
  checks_done checked s.
Qed.

(** The transaction, when none was open at the call: the insert is
    committed, or it is rolled back and its error raised again. *)
Lemma create_transaction_run (idAccount idUser : Z)
    (title description : option string) (priority dueDate : option Z)
    (s : session) :
  trancount s = O ->
  create_transaction idAccount idUser title description priority dueDate s =
  match create_insert idAccount idUser title description priority dueDate s with
  | inl e =>
      (Raised e, closed (tables s) 1 [BeginTran; EvWrite Task; RollbackTran] s)
  | inr r =>
      (Done [[("idTask", VInt (ident s + 1))]],
       closed (set_task (task (tables s) ++ [r]) (tables s)) 1
         [BeginTran; EvWrite Task; CommitTran] s)
  end.
Proof.
  intros Hopen.
  unfold create_transaction, TRY_CATCH, bind, BEGIN_TRAN, GETUTCDATE, INSERT_task,
    SCOPE_IDENTITY, SELECT_scalar, COMMIT_TRAN, ROLLBACK_TRAN, RETHROW, ret,
    create_insert, closed, log.
  cbn [tables ident trancount undo clock trace]. rewrite Hopen.
  destruct title as [t|], description as [d|], priority as [p|];
    cbn [tables ident trancount undo clock trace];
    try (rewrite <- !app_assoc; reflexivity).
  destruct (insert_conflict (tables s) _) as [e|];
    cbn [set_tables tables ident trancount undo clock trace];
    rewrite <- !app_assoc; reflexivity.
Qed.

(** The errors of the engine are no rule violations. *)
Lemma insert_conflict_number (d : db) (r : task_row) (e : sql_error) :
  insert_conflict d r = Some e -> number e <> 51000.
Proof.
  unfold insert_conflict.
  repeat match goal with
         | |- context [if ?c then _ else _] => destruct c
         end; intros H; inversion H; subst; cbn; lia.
Qed.

Lemma create_transaction_raises (idAccount idUser : Z)
    (title description : option string) (priority dueDate : option Z)
    (s s' : session) (e : sql_error) :
  create_transaction idAccount idUser title description priority dueDate s
  = (Raised e, s') ->
  number e <> 51000.
Proof.
  unfold create_transaction, TRY_CATCH, bind, BEGIN_TRAN, GETUTCDATE, INSERT_task,
    SCOPE_IDENTITY, SELECT_scalar, COMMIT_TRAN, ROLLBACK_TRAN, RETHROW, ret.
  cbn [tables ident trancount undo clock trace].
  destruct title as [t|], description as [d|], priority as [p|];
    cbn [tables ident trancount undo clock trace];
    try (intros H; inversion H; subst; cbn; lia).
  destruct (insert_conflict (tables s) _) as [e0|] eqn:E;
    cbn [set_tables tables ident trancount undo clock trace];
    intros H; inversion H; subst.
  eapply insert_conflict_number; eassumption.
Qed.

(** The body of the procedure, on the values that its parameters hold: it
    evaluates its eight checks in order (title present and non-blank, LEN of
    the title, LEN of the description, priority, dueDate, account, user,
    title uniqueness) and raises exactly the tagged error of the first one
    that is violated, leaving the tables as they were; when none is
    violated, no rule violation is raised at all. *)
Lemma spTaskCreate_body_first_violation (idAccount idUser : Z)
    (title description : option string) (priority dueDate : option Z)
    (s : session) :
  let run := spTaskCreate idAccount idUser title description priority
               dueDate s in
  match first_violation
          (create_checks idAccount idUser title description priority dueDate s)
  with
  | Some k => fst run = Raised (violation k) /\ tables (snd run) = tables s
  | None => no_violation (fst run)
  end.
Proof.
  cbv zeta. rewrite spTaskCreate_checks.
  unfold create_checks, first_violation.
  destruct (title_present title); cbn [negb]; [|split; reflexivity].
  destruct (length_within 100 title); cbn [negb]; [|split; reflexivity].
  destruct (length_within 500 description); cbn [negb]; [|split; reflexivity].
  destruct (within 0 2 priority); cbn [negb]; [|split; reflexivity].
  destruct (not_in_past (CAST_AS_DATE (clock s)) dueDate); cbn [negb];
    [|split; reflexivity].
  destruct (account_exists idAccount (tables s)); cbn [negb]; [|split; reflexivity].
  destruct (user_exists idUser idAccount (tables s)); cbn [negb];
    [|split; reflexivity].
  destruct (title_free idAccount idUser title (tables s)); cbn [negb];
    [|split; reflexivity].
  destruct (create_transaction _ _ _ _ _ _ _) as [[out|e] s'] eqn:E; cbn.
  - exact I.
  - eapply create_transaction_raises; eassumption.
Qed.

(** ** Create and its transaction *)

(** The checks 6 to 8 run before BEGIN TRAN: a Create that succeeds has read
    the three tables outside its transaction. *)
Lemma create_checks_precede_transaction :
  ~ create_in_one_transaction 1 1 (Some "Buy milk") (Some "") (Some 2) None day100.
Proof.
  intros H. specialize (H eq_refl). vm_compute in H. discriminate H.
Qed.

Lemma create_insert_after (idAccount idUser : Z)
    (title description : option string) (priority dueDate : option Z)
    (evs : list event) (s : session) :
  create_insert idAccount idUser title description priority dueDate (after evs s)
  = create_insert idAccount idUser title description priority dueDate s.
Proof. reflexivity. Qed.

Lemma skipn_prefix {A : Type} (l evs : list A) :
  skipn (List.length l) (l ++ evs) = evs.
Proof. induction l as [|x rest IH]; cbn; [reflexivity|exact IH]. Qed.

Lemma events_of_after (evs : list event) (s : session) :
  events_of s (after evs s) = evs.
Proof. unfold events_of, after; cbn [trace]. apply skipn_prefix. Qed.

Lemma events_of_closed (d : db) (n : Z) (evs : list event) (s : session) :
  events_of s (closed d n evs s) = evs.
Proof. unfold events_of, closed; cbn [trace]. apply skipn_prefix. Qed.

(** C2, amended.  For a Create request that passes the field validation
    (steps 1 to 5), called with no transaction open: the checks of steps 6
    to 8 run before any transaction begins, and one that is violated raises
    its error after nothing but the reads of the checks, with the tables
    untouched; when they pass, BEGIN TRAN comes next and the insert alone
    runs inside the transaction: either it is committed, or its error is
    raised again unchanged after a rollback that leaves the tables as they
    were before the call.  No transaction is left open. *)
Theorem spTaskCreate_checks_then_transaction (idAccount idUser : Z)
    (title description : option string) (priority dueDate : option Z)
    (s : session) :
  trancount s = O ->
  passes_field_validation idAccount idUser title description priority dueDate s ->
  let run := spTaskCreate idAccount idUser title description priority
               dueDate s in
  trancount (snd run) = O
  /\ match first_violation
             (skipn 5 (create_checks idAccount idUser title description priority
                         dueDate s))
     with
     | Some k =>
         fst run = Raised (violation k)
         /\ tables (snd run) = tables s
         /\ exists n, events_of s (snd run) = firstn n checked
     | None =>
         match create_insert idAccount idUser title description priority dueDate s
         with
         | inl e =>
             fst run = Raised e
             /\ tables (snd run) = tables s
             /\ events_of s (snd run)
                = checked ++ [BeginTran; EvWrite Task; RollbackTran]
         | inr r =>
             fst run = Done [[("idTask", VInt (tsk_idTask r))]]
             /\ tables (snd run) = set_task (task (tables s) ++ [r]) (tables s)
             /\ events_of s (snd run)
                = checked ++ [BeginTran; EvWrite Task; CommitTran]
         end
     end.
Proof.
  intros Hopen Hfields. cbv zeta. rewrite spTaskCreate_checks.
  unfold passes_field_validation, create_checks in Hfields.
  cbn [firstn first_violation] in Hfields.
  unfold create_checks. cbn [skipn first_violation].
  destruct (title_present title); [|discriminate].
  destruct (length_within 100 title); [|discriminate].
  destruct (length_within 500 description); [|discriminate].
  destruct (within 0 2 priority); [|discriminate].
  destruct (not_in_past (CAST_AS_DATE (clock s)) dueDate); [|discriminate].
  cbn [negb].
  destruct (account_exists idAccount (tables s)); cbn [negb fst snd];
    [|rewrite events_of_after; repeat split; try assumption;
      exists 1%nat; reflexivity].
  destruct (user_exists idUser idAccount (tables s)); cbn [negb fst snd];
    [|rewrite events_of_after; repeat split; try assumption;
      exists 2%nat; reflexivity].
  destruct (title_free idAccount idUser title (tables s)); cbn [negb fst snd];
    [|rewrite events_of_after; repeat split; try assumption;
      exists 3%nat; reflexivity].
  rewrite create_transaction_run by exact Hopen.
  rewrite create_insert_after.
  destruct (create_insert idAccount idUser title description priority dueDate s)
    as [e|r] eqn:E; cbn [fst snd]; rewrite closed_after, events_of_closed;
    repeat split.
  unfold create_insert in E.
  destruct title, description, priority; try discriminate.
  destruct (insert_conflict (tables s) _); [discriminate|].
  inversion E. reflexivity.
Qed.

(** The theorem at a request that is committed. *)
Lemma spTaskCreate_checks_then_transaction_committed :
  trancount day100 = O
  /\ passes_field_validation 1 1 (Some "Buy milk") (Some "") (Some 2) None day100
  /\ fst (spTaskCreate 1 1 (Some "Buy milk") (Some "") (Some 2) None day100)
     = Done [[("idTask", VInt 1)]]
  /\ tables (snd (spTaskCreate 1 1 (Some "Buy milk") (Some "") (Some 2) None
                    day100))
     = set_task [mkTask 1 1 1 "Buy milk" "" 2 None 0 8640000005 8640000005 false]
         two_users
  /\ events_of day100
       (snd (spTaskCreate 1 1 (Some "Buy milk") (Some "") (Some 2) None day100))
     = checked ++ [BeginTran; EvWrite Task; CommitTran].
Proof.
  split; [reflexivity|]. split; [reflexivity|].
  apply (spTaskCreate_checks_then_transaction 1 1 (Some "Buy milk") (Some "")
           (Some 2) None day100); reflexivity.
Defined.

(** A NULL description passes the checks and fails in the INSERT: the
    transaction is rolled back and error 515 is what the caller gets. *)
Example create_null_description_rolls_back :
  let run := execute_spTaskCreate 1 1 (Some "Buy milk") None (Some 2) None day100 in
  fst run = Raised err_null
  /\ tables (snd run) = two_users
  /\ events_of day100 (snd run)
     = checked ++ [BeginTran; EvWrite Task; RollbackTran].
Proof. repeat split. Qed.

(** Where several checks are violated, the first one is raised: a blank
    title with a priority out of range, and a description of 501 letters
    with a dueDate in the past. *)
Example create_blank_title_and_bad_priority :
  fst (spTaskCreate 1 1 (Some "   ") (Some "") (Some 7) None day100)
  = Raised (violation titleRequired).
Proof. reflexivity. Qed.

Example create_long_description_and_past_dueDate :
  fst (spTaskCreate 1 1 (Some "Buy milk") (Some (replicate 501 "a")) (Some 1)
         (Some 99) day100)
  = Raised (violation descriptionExceedsMaxLength).
Proof. reflexivity. Qed.

(** ** List and its order *)

Section InsertionSort.

Variable leb : task_row -> task_row -> bool.
Hypothesis leb_total : forall a b, leb a b = true \/ leb b a = true.
Hypothesis leb_trans : forall a b c, leb a b = true -> leb b c = true -> leb a c = true.

Lemma insert_sorted_perm (r : task_row) (l : list task_row) :
  Permutation (r :: l) (insert_sorted leb r l).
Proof.
  induction l as [|x rest IH]; cbn; [apply Permutation_refl|].
  destruct (leb r x); [apply Permutation_refl|].
  eapply perm_trans; [apply perm_swap|]. apply perm_skip, IH.
Qed.

Lemma ORDER_BY_perm (l : list task_row) : Permutation l (ORDER_BY leb l).
Proof.
  induction l as [|r rest IH]; cbn; [apply perm_nil|].
  eapply perm_trans; [apply perm_skip, IH|]. apply insert_sorted_perm.
Qed.

Lemma insert_sorted_sorted (r : task_row) (l : list task_row) :
  StronglySorted (fun a b => leb a b = true) l ->
  StronglySorted (fun a b => leb a b = true) (insert_sorted leb r l).
Proof.
  induction 1 as [|x rest Hrest IH Hx]; cbn.
  - constructor; constructor.
  - destruct (leb r x) eqn:E.
    + constructor; [constructor; assumption|].
      constructor; [assumption|].
      eapply Forall_impl; [|exact Hx]. intros y Hy. eapply leb_trans; eassumption.
    + constructor; [assumption|].
      eapply Permutation_Forall; [apply insert_sorted_perm|].
      constructor; [|assumption].
      destruct (leb_total r x) as [H|H]; [congruence|assumption].
Qed.

Lemma ORDER_BY_sorted (l : list task_row) :
  StronglySorted (fun a b => leb a b = true) (ORDER_BY leb l).
Proof.
  induction l as [|r rest IH]; cbn; [constructor|].
  apply insert_sorted_sorted, IH.
Qed.

End InsertionSort.

Lemma sorted_by_map {A B : Type} (f : A -> B) (cmp : B -> B -> comparison)
    (leb : A -> A -> bool) (l : list A) :
  (forall a b, not_after (cmp (f a) (f b)) = leb a b) ->
  StronglySorted (fun a b => leb a b = true) l ->
  sorted_by cmp (map f l) = true.
Proof.
  intros Hcmp. induction 1 as [|x rest Hrest IH Hx]; cbn; [reflexivity|].
  rewrite IH, andb_true_r. rewrite forallb_forall.
  intros y Hy. apply in_map_iff in Hy. destruct Hy as [r [<- Hr]].
  rewrite Hcmp. rewrite Forall_forall in Hx. apply Hx, Hr.
Qed.

Lemma spTaskList_order_precedes (a b : task_row) :
  not_after (spTaskList_order a b) = true <-> precedes a b.
Proof.
  unfold spTaskList_order, precedes, DESC, ASC, then_by, not_after.
  destruct (Z.compare_spec (tsk_priority b) (tsk_priority a));
    destruct (tsk_dueDate a) as [da|], (tsk_dueDate b) as [db|]; cbn [due_key fst snd];
    try destruct (Z.compare_spec da db);
    destruct (Z.compare_spec (tsk_dateCreated b) (tsk_dateCreated a));
    split; intros; try discriminate; try reflexivity; lia.
Qed.

Lemma spTaskList_order_total (a b : task_row) :
  not_after (spTaskList_order a b) = true \/ not_after (spTaskList_order b a) = true.
Proof.
  rewrite !spTaskList_order_precedes. unfold precedes.
  destruct (tsk_dueDate a), (tsk_dueDate b); cbn [due_key fst snd]; lia.
Qed.

Lemma spTaskList_order_trans (a b c : task_row) :
  not_after (spTaskList_order a b) = true ->
  not_after (spTaskList_order b c) = true ->
  not_after (spTaskList_order a c) = true.
Proof.
  rewrite !spTaskList_order_precedes. unfold precedes.
  destruct (tsk_dueDate a), (tsk_dueDate b), (tsk_dueDate c);
    cbn [due_key fst snd]; lia.
Qed.

(** On the records of a result set, the order of the ORDER BY clause is the
    order of the rows they come from. *)
Lemma listed_order_project (a b : task_row) :
  not_after (listed_order (project task_columns a) (project task_columns b))
  = not_after (spTaskList_order a b).
Proof.
  destruct a as [? ? ? ? ? ? [da|] ? ? ? ?], b as [? ? ? ? ? ? [db|] ? ? ? ?];
    reflexivity.
Qed.

Lemma optional_between_condition (lo hi : Z) (x : option Z) :
  holds (AND (IS_NOT_NULL x) (NOT (BETWEEN x lo hi))) = negb (within lo hi x).
Proof.
  destruct x as [p|]; [|reflexivity].
  unfold BETWEEN, compare2, within. rewrite Z.geb_leb.
  destruct (lo <=? p), (p <=? hi); reflexivity.
Qed.

(** One run of spTaskList. *)
Lemma spTaskList_run (idAccount idUser : Z) (status priority : option Z)
    (s : session) :
  spTaskList idAccount idUser status priority s =
  if negb (account_exists idAccount (tables s))
  then (Raised (violation accountDoesntExist), after [EvRead Account] s)
  else if negb (user_exists idUser idAccount (tables s))
  then (Raised (violation userDoesntExist), after [EvRead Account; EvRead User] s)
  else if negb (within 0 1 status)
  then (Raised (violation invalidStatus), after [EvRead Account; EvRead User] s)
  else if negb (within 0 2 priority)
  then (Raised (violation invalidPriority), after [EvRead Account; EvRead User] s)
  else
    (Done (map (project task_columns)
             (ORDER_BY (fun a b => not_after (spTaskList_order a b))
                (filter (spTaskList_where idAccount idUser status priority)
                   (task (tables s))))),
     after listed s).
Proof.
  unfold spTaskList.
  unfold bind at 1. reads. decide_on (account_exists idAccount (tables s)).
  enter. reads. decide_on (user_exists idUser idAccount (tables s)).
  enter. rewrite optional_between_condition. decide_on (within 0 1 status).
  enter. rewrite optional_between_condition. decide_on (within 0 2 priority).
  unfold ret at 1, SELECT_task. thrown.
Qed.

(** The claim fails where a dueDate is NULL: of the two tasks of priority 1,
    the one without a dueDate is listed before the one that has a date, so
    the sequence is not sorted with the nulls last. *)
Lemma list_puts_null_dueDate_first :
  exists out,
    fst (spTaskList 1 1 None None fixture) = Done out
    /\ map (field "idTask") out = [VInt 1; VInt 2; VInt 3; VInt 4]
    /\ map (field "dueDate") out = [VDate 120; VNull; VDate 110; VDate 105]
    /\ sorted_by claimed_order out = false.
Proof.
  eexists. split; [reflexivity|]. split; [reflexivity|]. split; reflexivity.
Qed.

(** C3, amended.  For every List call and every store: when the account and
    the user exist and the filters are in range, the call returns the
    non-deleted tasks of the (idAccount, idUser) pair that pass the filters,
    sorted by priority descending, then by dueDate ascending with the tasks
    whose dueDate is null first, then by dateCreated descending; otherwise
    it raises a rule violation. *)
Theorem spTaskList_sorted (idAccount idUser : Z) (status priority : option Z)
    (s : session) :
  let run := spTaskList idAccount idUser status priority s in
  if account_exists idAccount (tables s) && user_exists idUser idAccount (tables s)
     && within 0 1 status && within 0 2 priority
  then exists out,
      fst run = Done out
      /\ sorted_by listed_order out = true
      /\ Permutation out
           (map (project task_columns)
              (filter (spTaskList_where idAccount idUser status priority)
                 (task (tables s))))
  else exists k, fst run = Raised (violation k).
Proof.
  cbv zeta. rewrite spTaskList_run.
  destruct (account_exists idAccount (tables s)); cbn [negb andb];
    [|exists accountDoesntExist; reflexivity].
  destruct (user_exists idUser idAccount (tables s)); cbn [negb andb];
    [|exists userDoesntExist; reflexivity].
  destruct (within 0 1 status); cbn [negb andb];
    [|exists invalidStatus; reflexivity].
  destruct (within 0 2 priority); cbn [negb andb];
    [|exists invalidPriority; reflexivity].
  eexists. split; [reflexivity|]. split.
  - apply sorted_by_map with (leb := fun a b => not_after (spTaskList_order a b)).
    + apply listed_order_project.
    + apply ORDER_BY_sorted.
      * apply spTaskList_order_total.
      * apply spTaskList_order_trans.
  - apply Permutation_map, Permutation_sym, ORDER_BY_perm.
Qed.

(** ** The statuses of the handlers *)

(** GET /task/:id for an account that does not exist answers 404 where the
    claim has 400, and PUT /task/:id for a task that does not exist answers
    400 where the claim has 404. *)
Lemma status_follows_handler_not_kind :
  (surfaces (getHandler decimal "1" [("idAccount", "7"); ("idUser", "1")])
     day100 accountDoesntExist 404
   /\ claimed_status accountDoesntExist = 400)
  /\ (surfaces
        (putHandler decimal no_datetime "99"
           [("idAccount", JInt 1); ("idUser", JInt 1); ("title", JString "Buy milk");
            ("priority", JInt 1); ("status", JInt 0)])
        day100 taskDoesntExist 400
      /\ claimed_status taskDoesntExist = 404).
Proof.
  split; (split; [eexists; reflexivity|reflexivity]).
Qed.

Lemma catch_block_surfaces (st st' : Z) (e : js_error) (k : error_kind) :
  catch_block st e = Responded (mkResponse st' (Failure (kind_name k) None [])) ->
  st' = st.
Proof.
  unfold catch_block. destruct e as [issues|e].
  - intros H. inversion H.
  - destruct (number e =? 51000); intros H; inversion H. reflexivity.
Qed.

Lemma respond_surfaces {A : Type} (call : proc A) (ok st st' : Z)
    (wrap : A -> data) (s : session) (k : error_kind) :
  surfaces (respond call ok wrap (catch_block st)) s k st' -> st' = st.
Proof.
  unfold surfaces, respond. intros [s' H].
  destruct (call s) as [[a|e] s1].
  - inversion H.
  - injection H as Hr Hs.
    apply (catch_block_surfaces st st' (RequestError e) k). exact Hr.
Qed.

(** C4, amended.  For every rule violation that the engine raises (an error
    whose number is 51000), the status depends on the handler alone: the
    catch blocks of POST /task, GET /task and PUT /task/:id answer 400, and
    those of GET /task/:id and DELETE /task/:id answer 404, whatever the
    kind; and whenever one of the five handlers surfaces a rule violation,
    it is under that status. *)
Theorem status_by_handler (Number datetime : string -> option Z) :
  (forall k : error_kind,
      postHandler_catch (RequestError (violation k))
      = Responded (mkResponse 400 (Failure (kind_name k) None []))
      /\ getListHandler_catch (RequestError (violation k))
         = Responded (mkResponse 400 (Failure (kind_name k) None []))
      /\ getHandler_catch (RequestError (violation k))
         = Responded (mkResponse 404 (Failure (kind_name k) None []))
      /\ putHandler_catch (RequestError (violation k))
         = Responded (mkResponse 400 (Failure (kind_name k) None []))
      /\ deleteHandler_catch (RequestError (violation k))
         = Responded (mkResponse 404 (Failure (kind_name k) None [])))
  /\ (forall body s k st,
         surfaces (postHandler datetime body) s k st -> st = 400)
  /\ (forall query s k st,
         surfaces (getListHandler Number query) s k st -> st = 400)
  /\ (forall id query s k st,
         surfaces (getHandler Number id query) s k st -> st = 404)
  /\ (forall id body s k st,
         surfaces (putHandler Number datetime id body) s k st -> st = 400)
  /\ (forall id query s k st,
         surfaces (deleteHandler Number id query) s k st -> st = 404).
Proof.
  split; [intros k; repeat split; reflexivity|].
  split; [|split; [|split; [|split]]].
  - intros body s k st H. unfold postHandler, surfaces in H.
    destruct (createBodySchema datetime body) as [issues|v].
    + destruct H as [s' H]. inversion H.
    + eapply respond_surfaces. exact H.
  - intros query s k st H. unfold getListHandler, surfaces in H.
    destruct (listQuerySchema Number query) as [issues|v].
    + destruct H as [s' H]. inversion H.
    + eapply respond_surfaces. exact H.
  - intros id query s k st H. unfold getHandler, surfaces in H.
    destruct (idParamsSchema Number id) as [issues|idTask].
    + destruct H as [s' H]. inversion H.
    + destruct (ownerQuerySchema Number query) as [issues|[a u]].
      * destruct H as [s' H]. inversion H.
      * eapply respond_surfaces. exact H.
  - intros id body s k st H. unfold putHandler, surfaces in H.
    destruct (idParamsSchema Number id) as [issues|idTask].
    + destruct H as [s' H]. inversion H.
    + destruct (updateBodySchema datetime body) as [issues|v].
      * destruct H as [s' H]. inversion H.
      * eapply respond_surfaces. exact H.
  - intros id query s k st H. unfold deleteHandler, surfaces in H.
    destruct (idParamsSchema Number id) as [issues|idTask].
    + destruct H as [s' H]. inversion H.
    + destruct (ownerQuerySchema Number query) as [issues|[a u]].
      * destruct H as [s' H]. inversion H.
      * eapply respond_surfaces. exact H.
Qed.

(** GET /task/:id for an account that does not exist, once more: the
    violation is surfaced, under 404. *)
Lemma status_by_handler_get :
  surfaces (getHandler decimal "1" [("idAccount", "7"); ("idUser", "1")])
    day100 accountDoesntExist 404
  /\ 404 = 404.
Proof.
  split; [eexists; reflexivity|].
  apply (proj1 (proj2 (proj2 (proj2 (status_by_handler decimal no_datetime))))
           "1" [("idAccount", "7"); ("idUser", "1")] day100 accountDoesntExist 404).
  eexists; reflexivity.
Defined.

(** ** The length of a title *)

(** A title of 101 characters does not fail with titleExceedsMaxLength.
    Sent to POST /task it fails in the schema, with the code
    VALIDATION_ERROR, and the procedure is not called.  Given to the
    procedure, the parameter @title keeps its first 100 characters, the
    length check passes and the task is created. *)
Lemma title_of_101_characters :
  String.length (replicate 101 "a") = 101%nat
  /\ postHandler no_datetime (titled 101) day100
     = (Responded (mkResponse 400
          (Failure "Validation failed" (Some "VALIDATION_ERROR") ["title"])),
        day100)
  /\ (let run := execute_spTaskCreate 1 1 (Some (replicate 101 "a")) (Some "")
                   (Some 1) None day100 in
      fst run = Done [[("idTask", VInt 1)]]
      /\ map tsk_title (task (tables (snd run))) = [replicate 100 "a"]
      /\ fst run <> Raised (violation titleExceedsMaxLength)).
Proof.
  split; [reflexivity|]. split; [reflexivity|]. cbv zeta.
  split; [reflexivity|]. split; [reflexivity|]. vm_compute. discriminate.
Qed.

Lemma RTRIM_length (s : string) : (String.length (RTRIM s) <= String.length s)%nat.
Proof.
  induction s as [|c rest IH]; cbn; [lia|].
  destruct (RTRIM rest) eqn:E.
  - destruct (blank c); cbn; lia.
  - cbn in *. lia.
Qed.

Lemma substring_length_le (n : nat) (s : string) :
  (String.length (substring 0 n s) <= n)%nat.
Proof.
  revert s. induction n as [|n IH]; intros [|c rest]; cbn; try lia.
  specialize (IH rest). lia.
Qed.

Lemma LEN_NVARCHAR (n : nat) (s : string) : LEN (NVARCHAR n s) <= Z.of_nat n.
Proof.
  unfold LEN, NVARCHAR.
  pose proof (RTRIM_length (substring 0 n s)).
  pose proof (substring_length_le n s). lia.
Qed.

(** A parameter that is within the length does not raise the error of the
    length check. *)
Lemma create_length_check_passes (idAccount idUser : Z)
    (title description : option string) (priority dueDate : option Z)
    (s : session) :
  length_within 100 title = true ->
  fst (spTaskCreate idAccount idUser title description priority dueDate s)
  <> Raised (violation titleExceedsMaxLength).
Proof.
  intros Hlen. rewrite spTaskCreate_checks. rewrite Hlen. cbn [negb].
  repeat match goal with
         | |- context [if negb ?c then _ else _] => destruct c; cbn [negb fst]
         end; try discriminate.
  destruct (create_transaction _ _ _ _ _ _ _) as [[out|e] s'] eqn:E; cbn [fst];
    [discriminate|].
  apply create_transaction_raises in E. intros H. inversion H; subst.
  apply E. reflexivity.
Qed.

(** The check [LEN(@title) > 100] of spTaskCreate never holds, since the
    parameter is an NVARCHAR(100). *)
Lemma execute_spTaskCreate_never_titleExceedsMaxLength (idAccount idUser : Z)
    (title description : option string) (priority dueDate : option Z)
    (s : session) :
  fst (execute_spTaskCreate idAccount idUser title description priority dueDate s)
  <> Raised (violation titleExceedsMaxLength).
Proof.
  unfold execute_spTaskCreate. apply create_length_check_passes.
  destruct title as [t|]; cbn; [|reflexivity].
  apply Z.leb_le. apply (LEN_NVARCHAR 100 t).
Qed.

Lemma zString_too_long (n : nat) (t : string) :
  (S n < String.length t)%nat -> zString (Some (S n)) (JString t) = None.
Proof.
  intros H. unfold zString.
  replace (Nat.leb (String.length t) (S n)) with false
    by (symmetry; apply Nat.leb_gt; exact H).
  rewrite andb_false_r. reflexivity.
Qed.

Lemma zString_accepts (n : nat) (t : string) :
  (1 <= String.length t <= S n)%nat -> zString (Some (S n)) (JString t) = Some t.
Proof.
  intros [H1 H2]. unfold zString.
  replace (Nat.leb 1 (String.length t)) with true
    by (symmetry; apply Nat.leb_le; exact H1).
  replace (Nat.leb (String.length t) (S n)) with true
    by (symmetry; apply Nat.leb_le; exact H2).
  reflexivity.
Qed.

(** C9, amended.  A Create whose title is exactly 100 characters is
    accepted: the schema of POST /task takes the title, and the procedure
    does not raise titleExceedsMaxLength.  A Create whose title is longer
    (101 characters, say) sent to POST /task fails in the schema: the answer
    is 400 with the code VALIDATION_ERROR and an issue for the title, and
    the procedure is not called. *)
Theorem title_length_limit (datetime : string -> option Z) :
  (forall (t : string),
      String.length t = 100%nat ->
      zString (Some 100%nat) (JString t) = Some t
      /\ forall idAccount idUser description priority dueDate s,
          fst (execute_spTaskCreate idAccount idUser (Some t) description priority
                 dueDate s)
          <> Raised (violation titleExceedsMaxLength))
  /\ (forall (body : jobject) (t : string) (s : session),
         prop "title" body = JString t ->
         (100 < String.length t)%nat ->
         exists issues,
           In "title" issues
           /\ postHandler datetime body s
              = (Responded (mkResponse 400
                   (Failure "Validation failed" (Some "VALIDATION_ERROR") issues)),
                 s)).
Proof.
  split.
  - intros t Hlen. split.
    + apply zString_accepts. lia.
    + intros. apply execute_spTaskCreate_never_titleExceedsMaxLength.
  - intros body t s Htitle Hlen. unfold postHandler, createBodySchema.
    rewrite Htitle, (zString_too_long 99 t Hlen).
    exists (issue "idAccount" (zFK (prop "idAccount" body))
            ++ issue "idUser" (zFK (prop "idUser" body))
            ++ issue "title" (@None string)
            ++ issue "description"
                 (optional (zNullableString (Some 500%nat)) (prop "description" body))
            ++ issue "priority"
                 (optional (required (zIntRange 0 2)) (prop "priority" body))
            ++ issue "dueDate"
                 (optional (zNullableDateString datetime) (prop "dueDate" body))).
    split; [|destruct (zFK (prop "idAccount" body)),
                      (zFK (prop "idUser" body)); reflexivity].
    apply in_or_app. right. apply in_or_app. right. left. reflexivity.
Qed.

(** The theorem at a title of 100 letters and at a body whose title has
    101. *)
Lemma title_length_limit_at_100_and_101 :
  (String.length (replicate 100 "a") = 100%nat
   /\ zString (Some 100%nat) (JString (replicate 100 "a"))
      = Some (replicate 100 "a"))
  /\ (prop "title" (titled 101) = JString (replicate 101 "a")
      /\ (100 < String.length (replicate 101 "a"))%nat
      /\ exists issues,
          In "title" issues
          /\ postHandler no_datetime (titled 101) day100
             = (Responded (mkResponse 400
                  (Failure "Validation failed" (Some "VALIDATION_ERROR") issues)),
                day100)).
Proof.
  destruct (title_length_limit no_datetime) as [H100 H101].
  split.
  - split; [reflexivity|].
    apply (H100 (replicate 100 "a")). reflexivity.
  - split; [reflexivity|]. split; [cbn; lia|].
    apply (H101 (titled 101) (replicate 101 "a") day100); [reflexivity|cbn; lia].
Defined.

(** ** Get, Delete and Update: one run *)

Lemma spTaskGet_run (idAccount idUser idTask : Z) (s : session) :
  spTaskGet idAccount idUser idTask s =
  if negb (account_exists idAccount (tables s))
  then (Raised (violation accountDoesntExist), after [EvRead Account] s)
  else if negb (user_exists idUser idAccount (tables s))
  then (Raised (violation userDoesntExist), after [EvRead Account; EvRead User] s)
  else if negb (existsb (own_task idTask idAccount idUser) (task (tables s)))
  then (Raised (violation taskDoesntExist), after checked s)
  else (Done (map (project task_columns)
                (filter (own_task idTask idAccount idUser) (task (tables s)))),
        after (checked ++ [EvRead Task]) s).
Proof.
  unfold spTaskGet.
  unfold bind at 1. reads. decide_on (account_exists idAccount (tables s)).
  enter. reads. decide_on (user_exists idUser idAccount (tables s)).
  enter. reads.
  decide_on (existsb (own_task idTask idAccount idUser) (task (tables s))).
  unfold ret at 1, SELECT_task. thrown.
Qed.

Lemma update_transaction_commits (SET : Z -> task_row -> option task_row)
    (WHERE : task_row -> bool) (idTask : Z) (s : session) (new : list task_row) :
  update_result (SET (clock s)) WHERE (task (tables s)) = inr new ->
  fst (update_transaction SET WHERE idTask s) = Done [[("idTask", VInt idTask)]]
  /\ tables (snd (update_transaction SET WHERE idTask s))
     = set_task new (tables s).
Proof.
  intros H.
  unfold update_transaction, TRY_CATCH, bind, BEGIN_TRAN, GETUTCDATE, UPDATE_task,
    SELECT_scalar, COMMIT_TRAN, ROLLBACK_TRAN, RETHROW, ret, log.
  cbn [tables ident trancount undo clock trace]. rewrite H.
  cbn. split; reflexivity.
Qed.

Lemma update_transaction_fails (SET : Z -> task_row -> option task_row)
    (WHERE : task_row -> bool) (idTask : Z) (s : session) (e : sql_error) :
  update_result (SET (clock s)) WHERE (task (tables s)) = inl e ->
  fst (update_transaction SET WHERE idTask s) = Raised e
  /\ (trancount s = O ->
      tables (snd (update_transaction SET WHERE idTask s)) = tables s).
Proof.
  intros H.
  unfold update_transaction, TRY_CATCH, bind, BEGIN_TRAN, GETUTCDATE, UPDATE_task,
    SELECT_scalar, COMMIT_TRAN, ROLLBACK_TRAN, RETHROW, ret, log.
  cbn [tables ident trancount undo clock trace]. rewrite H.
  cbn. split; [reflexivity|]. intros ->. reflexivity.
Qed.

Lemma update_result_rows (SET : task_row -> option task_row)
    (WHERE : task_row -> bool) (l new : list task_row) :
  update_result SET WHERE l = inr new -> new = updated_rows SET WHERE l.
Proof.
  unfold update_result.
  repeat match goal with
         | |- context [if ?c then _ else _] => destruct c
         end; intros H; inversion H; reflexivity.
Qed.

Lemma spTaskDelete_checks (idAccount idUser idTask : Z) (s : session) :
  spTaskDelete idAccount idUser idTask s =
  if negb (account_exists idAccount (tables s))
  then (Raised (violation accountDoesntExist), after [EvRead Account] s)
  else if negb (user_exists idUser idAccount (tables s))
  then (Raised (violation userDoesntExist), after [EvRead Account; EvRead User] s)
  else if negb (existsb (own_task idTask idAccount idUser) (task (tables s)))
  then (Raised (violation taskDoesntExist), after checked s)
  else update_transaction delete_set (own_task idTask idAccount idUser) idTask
         (after checked s).
Proof.
  unfold spTaskDelete.
  unfold bind at 1. reads. decide_on (account_exists idAccount (tables s)).
  enter. reads. decide_on (user_exists idUser idAccount (tables s)).
  enter. reads.
  decide_on (existsb (own_task idTask idAccount idUser) (task (tables s))).
  checks_done checked s.
Qed.

Lemma other_title_condition (idTask idAccount idUser : Z) (title : option string)
    (d : db) :
  title_present title = true ->
  existsb (fun tsk =>
      (tsk_idAccount tsk =? idAccount) && (tsk_idUser tsk =? idUser)
      && holds (EQS (Some (tsk_title tsk)) title)
      && negb (tsk_idTask tsk =? idTask)
      && negb (tsk_deleted tsk)) (task d)
  = negb (title_free_but idTask idAccount idUser title d).
Proof.
  destruct title as [t|]; simpl; [|discriminate].
  intros _. rewrite negb_involutive.
  induction (task d) as [|r l IH]; simpl; [reflexivity|].
  rewrite IH. unfold same_title.
  destruct (nv_eq (tsk_title r) t); reflexivity.
Qed.

Lemma spTaskUpdate_checks (idAccount idUser idTask : Z)
    (title description : option string) (priority dueDate status : option Z)
    (s : session) :
  spTaskUpdate idAccount idUser idTask title description priority dueDate
    status s =
  if negb (title_present title) then (Raised (violation titleRequired), s)
  else if negb (length_within 100 title)
  then (Raised (violation titleExceedsMaxLength), s)
  else if negb (length_within 500 description)
  then (Raised (violation descriptionExceedsMaxLength), s)
  else if negb (within 0 2 priority) then (Raised (violation invalidPriority), s)
  else if negb (within 0 1 status) then (Raised (violation invalidStatus), s)
  else if negb (not_in_past (CAST_AS_DATE (clock s)) dueDate)
  then (Raised (violation dueDateInPast), s)
  else if negb (account_exists idAccount (tables s))
  then (Raised (violation accountDoesntExist), after [EvRead Account] s)
  else if negb (user_exists idUser idAccount (tables s))
  then (Raised (violation userDoesntExist), after [EvRead Account; EvRead User] s)
  else if negb (existsb (own_task idTask idAccount idUser) (task (tables s)))
  then (Raised (violation taskDoesntExist), after checked s)
  else if negb (title_free_but idTask idAccount idUser title (tables s))
  then (Raised (violation titleAlreadyExists), after checked_twice s)
  else update_transaction (update_set title description priority dueDate status)
         (own_task idTask idAccount idUser) idTask (after checked_twice s).
Proof.
  unfold spTaskUpdate.
  unfold bind at 1. rewrite titleRequired_condition.
  destruct (title_present title) eqn:Hpresent; simpl (negb _); cbn [IF]; [|thrown].
  enter. rewrite length_condition. decide_on (length_within 100 title).
  enter. rewrite description_condition. decide_on (length_within 500 description).
  enter. rewrite between_condition. decide_on (within 0 2 priority).
  enter. rewrite between_condition. decide_on (within 0 1 status).
  enter. unfold GETUTCDATE at 1. unfold bind at 1. rewrite dueDate_condition.
  decide_on (not_in_past (CAST_AS_DATE (clock s)) dueDate).
  enter. reads. decide_on (account_exists idAccount (tables s)).
  enter. reads. decide_on (user_exists idUser idAccount (tables s)).
  enter. reads.
  decide_on (existsb (own_task idTask idAccount idUser) (task (tables s))).
  enter. unfold EXISTS at 1. cbn [log tables].
  rewrite (other_title_condition idTask idAccount idUser title (tables s) Hpresent).
  unfold bind at 1.
  decide_on (title_free_but idTask idAccount idUser title (tables s)).
  checks_done checked_twice s.
Qed.

(** ** Delete twice *)

Lemma deleted_rows_hidden (idTask idAccount idUser now : Z) (l : list task_row) :
  existsb (own_task idTask idAccount idUser)
    (updated_rows (delete_set now) (own_task idTask idAccount idUser) l)
  = false.
Proof.
  unfold updated_rows.
  induction l as [|r rest IH]; cbn [map existsb]; [reflexivity|].
  rewrite IH, orb_false_r.
  destruct (own_task idTask idAccount idUser r) eqn:E; [|exact E].
  unfold own_task; cbn. rewrite !andb_false_r. reflexivity.
Qed.

(** The tables after a Delete that succeeded. *)
Lemma spTaskDelete_done (idAccount idUser idTask : Z) (s s1 : session)
    (out : recordset) :
  spTaskDelete idAccount idUser idTask s = (Done out, s1) ->
  account_exists idAccount (tables s) = true
  /\ user_exists idUser idAccount (tables s) = true
  /\ tables s1
     = set_task (updated_rows (delete_set (clock s))
                   (own_task idTask idAccount idUser) (task (tables s)))
         (tables s).
Proof.
  rewrite spTaskDelete_checks.
  destruct (account_exists idAccount (tables s)); cbn [negb]; [|discriminate].
  destruct (user_exists idUser idAccount (tables s)); cbn [negb]; [|discriminate].
  destruct (existsb (own_task idTask idAccount idUser) (task (tables s)));
    cbn [negb]; [|discriminate].
  intros H.
  destruct (update_result (delete_set (clock (after checked s)))
              (own_task idTask idAccount idUser)
              (task (tables (after checked s)))) as [e|new] eqn:U.
  - apply (update_transaction_fails delete_set _ idTask) in U.
    rewrite H in U. destruct U as [U _]. discriminate U.
  - pose proof (update_result_rows _ _ _ _ U) as Hnew.
    apply (update_transaction_commits delete_set _ idTask) in U.
    rewrite H in U. destruct U as [_ U]. cbn [snd] in U.
    subst new. repeat split. exact U.
Qed.

(** C7.  After a Delete that succeeded, a second Delete of the same
    (idAccount, idUser, idTask), at any later time, fails with
    taskDoesntExist and leaves the store as it found it: only the trace of
    the session grows, by the three reads of the checks. *)
Theorem spTaskDelete_twice (idAccount idUser idTask : Z) (s s1 s2 : session)
    (out : recordset) :
  spTaskDelete idAccount idUser idTask s = (Done out, s1) ->
  tables s2 = tables s1 ->
  spTaskDelete idAccount idUser idTask s2
  = (Raised (violation taskDoesntExist), after checked s2).
Proof.
  intros Hfirst Hsame.
  apply spTaskDelete_done in Hfirst. destruct Hfirst as [Hacc [Husr Htab]].
  rewrite spTaskDelete_checks, Hsame, Htab.
  unfold account_exists, user_exists in *. cbn [account user task set_task].
  rewrite Hacc, Husr, deleted_rows_hidden. reflexivity.
Qed.

(** The theorem on the fixture: user 1 deletes task 3 twice. *)
Lemma spTaskDelete_twice_on_fixture :
  spTaskDelete 1 1 3 fixture
  = (Done [[("idTask", VInt 3)]], snd (spTaskDelete 1 1 3 fixture))
  /\ spTaskDelete 1 1 3 (snd (spTaskDelete 1 1 3 fixture))
     = (Raised (violation taskDoesntExist),
        after checked (snd (spTaskDelete 1 1 3 fixture))).
Proof.
  split; [reflexivity|].
  apply (spTaskDelete_twice 1 1 3 fixture (snd (spTaskDelete 1 1 3 fixture))
           (snd (spTaskDelete 1 1 3 fixture)) [[("idTask", VInt 3)]]);
    reflexivity.
Defined.

(** ** The task of another user *)

Lemma does_not_own_absent (idAccount idUser idTask : Z) (d : db) :
  does_not_own idUser idTask d ->
  existsb (own_task idTask idAccount idUser) (task d) = false.
Proof.
  unfold does_not_own. induction (task d) as [|r rest IH]; intros H; cbn;
    [reflexivity|].
  rewrite IH by (intros r' Hr'; apply H; right; exact Hr').
  rewrite orb_false_r. unfold own_task.
  destruct (tsk_idTask r =? idTask) eqn:E1; [|reflexivity].
  destruct (tsk_idUser r =? idUser) eqn:E2;
    [|rewrite andb_false_r; reflexivity].
  apply Z.eqb_eq in E1, E2. exfalso. apply (H r); [left; reflexivity|..]; assumption.
Qed.

(** C8.  When Get, Update or Delete is invoked with an idUser that is valid
    for the idAccount and that does not own the target task, the operation
    fails with taskDoesntExist and changes no table (for Update: when its
    field validation, which comes first, passes).  The error is the same
    whether the idTask belongs to another user or to no task at all, and
    the outcome of Update, whatever its fields, is the same in any two
    stores of that kind. *)
Theorem foreign_task_does_not_exist (idAccount idUser idTask : Z) (s : session) :
  account_exists idAccount (tables s) = true ->
  user_exists idUser idAccount (tables s) = true ->
  does_not_own idUser idTask (tables s) ->
  spTaskGet idAccount idUser idTask s
  = (Raised (violation taskDoesntExist), after checked s)
  /\ spTaskDelete idAccount idUser idTask s
     = (Raised (violation taskDoesntExist), after checked s)
  /\ (forall title description priority dueDate status,
         update_fields_valid title description priority dueDate status s = true ->
         spTaskUpdate idAccount idUser idTask title description priority
           dueDate status s
         = (Raised (violation taskDoesntExist), after checked s))
  /\ (forall title description priority dueDate status s',
         account_exists idAccount (tables s') = true ->
         user_exists idUser idAccount (tables s') = true ->
         does_not_own idUser idTask (tables s') ->
         clock s' = clock s ->
         fst (spTaskUpdate idAccount idUser idTask title description priority
                dueDate status s')
         = fst (spTaskUpdate idAccount idUser idTask title description
                  priority dueDate status s)).
Proof.
  intros Hacc Husr Hown.
  pose proof (does_not_own_absent idAccount idUser idTask _ Hown) as Habs.
  split; [|split; [|split]].
  - rewrite spTaskGet_run, Hacc, Husr, Habs. reflexivity.
  - rewrite spTaskDelete_checks, Hacc, Husr, Habs. reflexivity.
  - intros title description priority dueDate status Hvalid.
    unfold update_fields_valid in Hvalid.
    repeat (apply andb_prop in Hvalid; destruct Hvalid as [Hvalid ?H]).
    rewrite spTaskUpdate_checks.
    rewrite Hvalid, H, H0, H1, H2, H3, Hacc, Husr, Habs. reflexivity.
  - intros title description priority dueDate status s' Hacc' Husr' Hown' Hclock.
    pose proof (does_not_own_absent idAccount idUser idTask _ Hown') as Habs'.
    rewrite !spTaskUpdate_checks.
    rewrite Hclock, Hacc, Husr, Habs, Hacc', Husr', Habs'.
    repeat match goal with
           | |- context [if negb ?c then _ else _] => destruct c; cbn [negb]
           end; reflexivity.
Qed.

(** The theorem on the fixture: task 5 is a task of user 2, task 9 is no
    task at all, and user 1 gets the same error for both. *)
Lemma foreign_task_on_fixture :
  (account_exists 1 (tables fixture) = true
   /\ user_exists 1 1 (tables fixture) = true
   /\ spTaskGet 1 1 5 fixture
      = (Raised (violation taskDoesntExist), after checked fixture))
  /\ spTaskGet 1 1 9 fixture
     = (Raised (violation taskDoesntExist), after checked fixture).
Proof.
  assert (Hother : forall id, id = 5 \/ id = 9 -> does_not_own 1 id (tables fixture)).
  { intros id Hid r Hr Hrid. cbn in Hr.
    repeat (destruct Hr as [<-|Hr]; [cbn in *; lia|]). destruct Hr. }
  split.
  - split; [reflexivity|]. split; [reflexivity|].
    apply (foreign_task_does_not_exist 1 1 5 fixture);
      [reflexivity|reflexivity|apply Hother; left; reflexivity].
  - apply (foreign_task_does_not_exist 1 1 9 fixture);
      [reflexivity|reflexivity|apply Hother; right; reflexivity].
Defined.

(** ** Title uniqueness on Create *)

Lemma create_transaction_commits (idAccount idUser : Z)
    (title description : option string) (priority dueDate : option Z)
    (s : session) (r : task_row) :
  create_insert idAccount idUser title description priority dueDate s = inr r ->
  fst (create_transaction idAccount idUser title description priority dueDate s)
  = Done [[("idTask", VInt (ident s + 1))]]
  /\ tables (snd (create_transaction idAccount idUser title description priority
                    dueDate s))
     = set_task (task (tables s) ++ [r]) (tables s).
Proof.
  unfold create_transaction, TRY_CATCH, bind, BEGIN_TRAN, GETUTCDATE, INSERT_task,
    SCOPE_IDENTITY, SELECT_scalar, COMMIT_TRAN, ROLLBACK_TRAN, RETHROW, ret,
    create_insert.
  cbn [tables ident trancount undo clock trace].
  destruct title as [t|], description as [d|], priority as [p|]; try discriminate.
  destruct (insert_conflict (tables s) _) as [e|]; [discriminate|].
  intros H. inversion H; subst. cbn. split; reflexivity.
Qed.

Lemma existsb_false_forall {A : Type} (f : A -> bool) (l : list A) :
  (forall x, In x l -> f x = false) -> existsb f l = false.
Proof.
  induction l as [|x rest IH]; intros H; cbn; [reflexivity|].
  rewrite (H x) by (left; reflexivity).
  apply IH. intros y Hy. apply H. right. exact Hy.
Qed.

Lemma uq_clash_new (id idAccount idUser : Z) (t de : string) (p : Z)
    (dueDate : option Z) (st created modified : Z) (r : task_row) :
  uq_clash (mkTask id idAccount idUser t de p dueDate st created modified false) r
  = same_title idAccount idUser t r && negb (tsk_deleted r).
Proof.
  unfold uq_clash, same_title.
  cbn [tsk_deleted tsk_idAccount tsk_idUser tsk_title negb andb].
  rewrite (Z.eqb_sym idAccount), (Z.eqb_sym idUser), (nv_eq_sym t).
  destruct (tsk_deleted r), (tsk_idAccount r =? idAccount),
    (tsk_idUser r =? idUser), (nv_eq (tsk_title r) t); reflexivity.
Qed.

(** The row of a Create that passed its checks meets every constraint of
    the table, when the identity counter is not behind the rows. *)
Lemma insert_conflict_none (d : db) (id idAccount idUser : Z) (t de : string)
    (p : Z) (dueDate : option Z) (now : Z) :
  within 0 2 (Some p) = true ->
  account_exists idAccount d = true ->
  user_exists idUser idAccount d = true ->
  title_free idAccount idUser (Some t) d = true ->
  Forall (fun r => tsk_idTask r < id) (task d) ->
  insert_conflict d (mkTask id idAccount idUser t de p dueDate 0 now now false)
  = None.
Proof.
  intros Hp Hacc Husr Hfree Hid. unfold insert_conflict.
  unfold chkTask_Priority, chkTask_Status, fkTask_Account, fkTask_User,
    pkTask_free. cbn [tsk_priority tsk_status tsk_idAccount tsk_idUser tsk_idTask].
  cbn in Hp. rewrite Hp. cbn [andb negb Z.leb Z.compare].
  unfold account_exists in Hacc. rewrite Hacc.
  assert (Hu : existsb (fun usr => usr_idUser usr =? idUser) (user d) = true).
  { unfold user_exists in Husr. apply existsb_exists in Husr.
    destruct Husr as [usr [Hin Hu]]. apply existsb_exists. exists usr.
    apply andb_prop in Hu. destruct Hu as [Hu _]. split; assumption. }
  rewrite Hu. cbn [andb negb].
  assert (Hpk : existsb (fun r' => tsk_idTask r' =? id) (task d) = false).
  { apply existsb_false_forall. intros r Hr. rewrite Forall_forall in Hid.
    specialize (Hid r Hr). cbn in Hid. apply Z.eqb_neq. lia. }
  rewrite Hpk. cbn [negb].
  assert (Huq : existsb (uq_clash (mkTask id idAccount idUser t de p dueDate 0
                                     now now false)) (task d) = false).
  { unfold title_free in Hfree. apply negb_true_iff in Hfree.
    etransitivity; [|exact Hfree]. clear.
    induction (task d) as [|r rest IH]; cbn [existsb]; [reflexivity|].
    rewrite IH, uq_clash_new. reflexivity. }
  rewrite Huq. reflexivity.
Qed.

(** C5.  Title uniqueness on Create ignores the rows that are deleted.  For
    a Create that passes the checks before the uniqueness check (steps 1 to
    7): when its (idAccount, idUser, title) matches a task that is not
    deleted, it fails with titleAlreadyExists and changes no table; when
    every task that it matches is deleted, it succeeds; it returns the new
    idTask and the table has the new row. *)
Theorem create_title_uniqueness (idAccount idUser : Z) (title : string)
    (description : option string) (priority dueDate : option Z) (s : session) :
  first_violation
    (firstn 7 (create_checks idAccount idUser (Some title) description priority
                 dueDate s)) = None ->
  let run := spTaskCreate idAccount idUser (Some title) description priority
               dueDate s in
  ((exists r, In r (task (tables s))
              /\ same_title idAccount idUser title r = true
              /\ tsk_deleted r = false) ->
   fst run = Raised (violation titleAlreadyExists)
   /\ tables (snd run) = tables s)
  /\ ((forall r, In r (task (tables s)) ->
                 same_title idAccount idUser title r = true ->
                 tsk_deleted r = true) ->
      forall d p,
        description = Some d -> priority = Some p ->
        Forall (fun r => tsk_idTask r <= ident s) (task (tables s)) ->
        fst run = Done [[("idTask", VInt (ident s + 1))]]
        /\ task (tables (snd run))
           = task (tables s)
             ++ [mkTask (ident s + 1) idAccount idUser title d p dueDate 0
                   (clock s) (clock s) false]).
Proof.
  intros Hchecks. cbv zeta. rewrite spTaskCreate_checks.
  unfold create_checks in Hchecks. cbn [firstn first_violation] in Hchecks.
  destruct (title_present (Some title)); [|discriminate].
  destruct (length_within 100 (Some title)); [|discriminate].
  destruct (length_within 500 description); [|discriminate].
  destruct (within 0 2 priority) eqn:Hprio; [|discriminate].
  destruct (not_in_past (CAST_AS_DATE (clock s)) dueDate); [|discriminate].
  destruct (account_exists idAccount (tables s)) eqn:Hacc; [|discriminate].
  destruct (user_exists idUser idAccount (tables s)) eqn:Husr; [|discriminate].
  cbn [negb]. split.
  - intros [r [Hin [Hsame Hlive]]].
    assert (Hfree : title_free idAccount idUser (Some title) (tables s) = false).
    { unfold title_free. apply negb_false_iff. apply existsb_exists.
      exists r. split; [exact Hin|]. rewrite Hsame, Hlive. reflexivity. }
    rewrite Hfree. cbn [negb]. split; reflexivity.
  - intros Hdeleted d p -> -> Hident.
    assert (Hfree : title_free idAccount idUser (Some title) (tables s) = true).
    { unfold title_free. apply negb_true_iff. apply existsb_false_forall.
      intros r Hr. destruct (same_title idAccount idUser title r) eqn:E;
        [|reflexivity].
      rewrite (Hdeleted r Hr E). reflexivity. }
    rewrite Hfree. cbn [negb].
    assert (Hins : create_insert idAccount idUser (Some title) (Some d) (Some p)
                     dueDate (after checked s)
                   = inr (mkTask (ident s + 1) idAccount idUser title d p dueDate 0
                            (clock s) (clock s) false)).
    { unfold create_insert. cbn [tables ident clock after].
      rewrite insert_conflict_none; try assumption; [reflexivity|].
      eapply Forall_impl; [|exact Hident]. cbn. intros; lia. }
    apply create_transaction_commits in Hins. destruct Hins as [Hout Htab].
    split; [exact Hout|]. rewrite Htab. reflexivity.
Qed.

(** The theorem on the fixture: user 1 cannot create a second "Buy milk",
    and can once the first is deleted. *)
Lemma create_title_uniqueness_on_fixture :
  (first_violation
     (firstn 7 (create_checks 1 1 (Some "Buy milk") (Some "") (Some 1) None fixture))
   = None
   /\ fst (spTaskCreate 1 1 (Some "Buy milk") (Some "") (Some 1) None fixture)
      = Raised (violation titleAlreadyExists))
  /\ (first_violation
        (firstn 7 (create_checks 1 1 (Some "Buy milk") (Some "") (Some 1) None
                     fixture_without_3))
      = None
      /\ fst (spTaskCreate 1 1 (Some "Buy milk") (Some "") (Some 1) None
                fixture_without_3)
         = Done [[("idTask", VInt 6)]]).
Proof.
  split.
  - split; [reflexivity|].
    destruct (create_title_uniqueness 1 1 "Buy milk" (Some "") (Some 1) None
                fixture eq_refl) as [Hlive _].
    apply Hlive.
    exists (mkTask 3 1 1 "Buy milk" "" 1 (Some 110) 0 8640000003 8640000003 false).
    split; [cbn; tauto|]. split; reflexivity.
  - split; [reflexivity|].
    destruct (create_title_uniqueness 1 1 "Buy milk" (Some "") (Some 1) None
                fixture_without_3 eq_refl) as [_ Hdeleted].
    apply (Hdeleted) with (d := "") (p := 1); try reflexivity.
    + intros r Hr. vm_compute in Hr.
      repeat (destruct Hr as [<-|Hr]; [vm_compute; intros H; first [exact H|reflexivity]|]).
      destruct Hr.
    + vm_compute. repeat constructor; discriminate.
Defined.

(** ** Title uniqueness on Update *)

Lemma uq_clash_sym (a b : task_row) : uq_clash a b = uq_clash b a.
Proof.
  unfold uq_clash.
  rewrite (Z.eqb_sym (tsk_idAccount a)), (Z.eqb_sym (tsk_idUser a)),
    (nv_eq_sym (tsk_title a)).
  destruct (tsk_deleted a), (tsk_deleted b); reflexivity.
Qed.

(** Under the unique index, two rows that are not the same row never
    clash. *)
Lemma uq_no_clash (l : list task_row) (r r' : task_row) :
  uqTask_Account_User_Title l = true ->
  In r l -> In r' l -> r <> r' -> uq_clash r r' = false.
Proof.
  induction l as [|x rest IH]; cbn [uqTask_Account_User_Title In]; [tauto|].
  intros Huq Hr Hr' Hne.
  apply andb_prop in Huq. destruct Huq as [Hx Hrest].
  apply negb_true_iff in Hx.
  assert (Hall : forall y, In y rest -> uq_clash x y = false).
  { intros y Hy. destruct (uq_clash x y) eqn:E; [|reflexivity].
    rewrite <- Hx. symmetry. apply existsb_exists. exists y. split; assumption. }
  destruct Hr as [<-|Hr], Hr' as [<-|Hr'].
  - contradiction Hne; reflexivity.
  - apply Hall, Hr'.
  - rewrite uq_clash_sym. apply Hall, Hr.
  - apply IH; assumption.
Qed.

Lemma uq_clash_same_key (a a' b b' : task_row) :
  same_key a a' -> same_key b b' -> uq_clash a b = uq_clash a' b'.
Proof.
  unfold same_key, uq_clash.
  intros [-> [-> [-> ->]]] [-> [-> [-> ->]]]. reflexivity.
Qed.

Lemma uq_map_same_key (f : task_row -> task_row) (l : list task_row) :
  (forall r, In r l -> same_key (f r) r) ->
  uqTask_Account_User_Title (map f l) = uqTask_Account_User_Title l.
Proof.
  induction l as [|x rest IH]; intros Hkey; cbn [map uqTask_Account_User_Title];
    [reflexivity|].
  rewrite IH by (intros r Hr; apply Hkey; right; exact Hr).
  f_equal. f_equal.
  assert (Hx : same_key (f x) x) by (apply Hkey; left; reflexivity).
  assert (Hrest : forall r, In r rest -> same_key (f r) r)
    by (intros r Hr; apply Hkey; right; exact Hr).
  clear IH Hkey. induction rest as [|y rest IH]; cbn [map existsb]; [reflexivity|].
  rewrite IH by (intros r Hr; apply Hrest; right; exact Hr).
  rewrite (uq_clash_same_key (f x) x (f y) y); [reflexivity|exact Hx|].
  apply Hrest. left. reflexivity.
Qed.

Lemma forallb_updated (P : task_row -> bool) (SET : task_row -> option task_row)
    (l : list task_row) :
  (forall r, exists r', SET r = Some r' /\ P r' = true) ->
  forallb P (updated_rows SET (fun _ => true) l) = true.
Proof.
  intros H. unfold updated_rows.
  induction l as [|x rest IH]; cbn [map forallb]; [reflexivity|].
  rewrite IH, andb_true_r. destruct (H x) as [r' [-> Hr']]. exact Hr'.
Qed.

(** An Update that leaves the title of its rows as it is, with values in
    range, meets the constraints of the table. *)
Lemma update_own_title_result (WHERE : task_row -> bool) (t d : string)
    (p st now : Z) (dueDate : option Z) (l : list task_row) :
  (forall r, In r l -> WHERE r = true -> tsk_title r = t) ->
  uqTask_Account_User_Title l = true ->
  within 0 2 (Some p) = true ->
  within 0 1 (Some st) = true ->
  update_result (update_set (Some t) (Some d) (Some p) dueDate (Some st) now)
    WHERE l
  = inr (updated_rows (update_set (Some t) (Some d) (Some p) dueDate (Some st) now)
           WHERE l).
Proof.
  intros Htitle Huq Hp Hst. unfold update_result.
  assert (H1 : forallb (fun r => match update_set (Some t) (Some d) (Some p) dueDate
                                         (Some st) now r with
                                 | Some _ => true
                                 | None => false
                                 end) (filter WHERE l) = true).
  { apply forallb_forall. intros r _. reflexivity. }
  rewrite H1. cbn [negb].
  rewrite forallb_updated.
  2:{ intros r. eexists. split; [reflexivity|].
      unfold chkTask_Priority, chkTask_Status. cbn [tsk_priority tsk_status].
      cbn in Hp, Hst. rewrite Hp, Hst. reflexivity. }
  cbn [negb].
  assert (H3 : uqTask_Account_User_Title
                 (updated_rows (update_set (Some t) (Some d) (Some p) dueDate
                                  (Some st) now) WHERE l) = true).
  { unfold updated_rows. rewrite uq_map_same_key; [exact Huq|].
    intros r Hr. destruct (WHERE r) eqn:E.
    - cbn [update_set]. unfold same_key. cbn. rewrite (Htitle r Hr E).
      repeat split; reflexivity.
    - repeat split; reflexivity. }
  rewrite H3, andb_false_r. reflexivity.
Qed.

(** Under the unique index, the title of a task of the pair is the title
    of no other task of the pair that is not deleted. *)
Lemma own_title_free (idTask idAccount idUser : Z) (title : string) (d : db) :
  uqTask_Account_User_Title (task d) = true ->
  (exists r, In r (task d) /\ own_task idTask idAccount idUser r = true
             /\ tsk_title r = title) ->
  title_free_but idTask idAccount idUser (Some title) d = true.
Proof.
  intros Huq [r [Hr [Hown Htitle]]]. unfold title_free_but.
  apply negb_true_iff. apply existsb_false_forall. intros r' Hr'.
  destruct (same_title idAccount idUser title r'
            && negb (tsk_idTask r' =? idTask) && negb (tsk_deleted r')) eqn:E;
    [|reflexivity].
  exfalso.
  apply andb_prop in E. destruct E as [E Hlive'].
  apply andb_prop in E. destruct E as [Hsame Hother].
  unfold same_title in Hsame.
  apply andb_prop in Hsame. destruct Hsame as [Hsame Hnv].
  apply andb_prop in Hsame. destruct Hsame as [Hacc' Husr'].
  unfold own_task in Hown.
  apply andb_prop in Hown. destruct Hown as [Hown Hlive].
  apply andb_prop in Hown. destruct Hown as [Hown Husr].
  apply andb_prop in Hown. destruct Hown as [Hid Hacc].
  apply Z.eqb_eq in Hid, Hacc, Husr, Hacc', Husr'.
  apply negb_true_iff in Hother. apply Z.eqb_neq in Hother.
  assert (Hne : r <> r') by (intros ->; apply Hother; exact Hid).
  pose proof (uq_no_clash _ r r' Huq Hr Hr' Hne) as Hclash.
  unfold uq_clash in Hclash.
  rewrite Hlive, Hlive', Hacc, Hacc', Husr, Husr', !Z.eqb_refl, Htitle in Hclash.
  rewrite nv_eq_sym, Hnv in Hclash. discriminate Hclash.
Qed.

(** C6.  The title-uniqueness check of Update leaves the updated task
    itself out.  For an Update whose fields are valid, whose account and
    user exist and whose task exists under that user: when the new title is
    the title the task has, and the other values are given, the Update
    succeeds and replaces the fields of the task; when the new title equals
    the title of a different task of the same (idAccount, idUser) that is
    not deleted, the Update fails with titleAlreadyExists and changes no
    table.  The store is under its unique index. *)
Theorem update_title_uniqueness (idAccount idUser idTask : Z) (title : string)
    (description : option string) (priority dueDate status : option Z)
    (s : session) :
  update_fields_valid (Some title) description priority dueDate status s = true ->
  account_exists idAccount (tables s) = true ->
  user_exists idUser idAccount (tables s) = true ->
  existsb (own_task idTask idAccount idUser) (task (tables s)) = true ->
  let run := spTaskUpdate idAccount idUser idTask (Some title) description
               priority dueDate status s in
  ((forall r, In r (task (tables s)) ->
              own_task idTask idAccount idUser r = true -> tsk_title r = title) ->
   uqTask_Account_User_Title (task (tables s)) = true ->
   forall d p st,
     description = Some d -> priority = Some p -> status = Some st ->
     fst run = Done [[("idTask", VInt idTask)]]
     /\ task (tables (snd run))
        = updated_rows
            (update_set (Some title) (Some d) (Some p) dueDate (Some st) (clock s))
            (own_task idTask idAccount idUser) (task (tables s)))
  /\ ((exists r, In r (task (tables s))
                 /\ same_title idAccount idUser title r = true
                 /\ tsk_idTask r <> idTask
                 /\ tsk_deleted r = false) ->
      fst run = Raised (violation titleAlreadyExists)
      /\ tables (snd run) = tables s).
Proof.
  intros Hvalid Hacc Husr Hexists. cbv zeta.
  rewrite spTaskUpdate_checks.
  unfold update_fields_valid in Hvalid.
  apply andb_prop in Hvalid. destruct Hvalid as [Hvalid Hdue].
  apply andb_prop in Hvalid. destruct Hvalid as [Hvalid Hst].
  apply andb_prop in Hvalid. destruct Hvalid as [Hvalid Hp].
  apply andb_prop in Hvalid. destruct Hvalid as [Hvalid Hdesc].
  apply andb_prop in Hvalid. destruct Hvalid as [Hpresent Hlen].
  rewrite Hpresent, Hlen, Hdesc, Hp, Hst, Hdue, Hacc, Husr, Hexists. cbn [negb].
  split.
  - intros Hown Huq d p st -> -> ->.
    rewrite own_title_free; [cbn [negb]|exact Huq|].
    2:{ apply existsb_exists in Hexists. destruct Hexists as [r [Hr Hr']].
        exists r. repeat split; [exact Hr|exact Hr'|apply Hown; assumption]. }
    pose proof (update_own_title_result (own_task idTask idAccount idUser) title d
                  p st (clock s) dueDate (task (tables s)) Hown Huq Hp Hst) as Hres.
    apply (update_transaction_commits
             (update_set (Some title) (Some d) (Some p) dueDate (Some st))
             (own_task idTask idAccount idUser) idTask (after checked_twice s))
      in Hres.
    destruct Hres as [Hout Htab]. split; [exact Hout|].
    rewrite Htab. reflexivity.
  - intros [r [Hr [Hsame [Hother Hlive]]]].
    assert (Hfree : title_free_but idTask idAccount idUser (Some title) (tables s)
                    = false).
    { unfold title_free_but. apply negb_false_iff. apply existsb_exists.
      exists r. split; [exact Hr|]. rewrite Hsame, Hlive.
      apply Z.eqb_neq in Hother. rewrite Hother. reflexivity. }
    rewrite Hfree. cbn [negb]. split; reflexivity.
Qed.

(** The theorem on the fixture: user 1 updates task 3, "Buy milk", keeping
    its title, and cannot rename it to "Call home", the title of task 2. *)
Lemma update_title_uniqueness_on_fixture :
  (update_fields_valid (Some "Buy milk") (Some "two litres") (Some 2) None (Some 1)
     fixture = true
   /\ fst (spTaskUpdate 1 1 3 (Some "Buy milk") (Some "two litres") (Some 2)
             None (Some 1) fixture)
      = Done [[("idTask", VInt 3)]])
  /\ (update_fields_valid (Some "Call home") (Some "") (Some 1) None (Some 0)
        fixture = true
      /\ fst (spTaskUpdate 1 1 3 (Some "Call home") (Some "") (Some 1) None
                (Some 0) fixture)
         = Raised (violation titleAlreadyExists)).
Proof.
  split.
  - split; [reflexivity|].
    destruct (update_title_uniqueness 1 1 3 "Buy milk" (Some "two litres") (Some 2)
                None (Some 1) fixture eq_refl eq_refl eq_refl eq_refl)
      as [Hown _].
    apply (Hown) with (d := "two litres") (p := 2) (st := 1); try reflexivity.
    intros r Hr. vm_compute in Hr.
    repeat (destruct Hr as [<-|Hr];
            [vm_compute; intros H; first [discriminate H|reflexivity]|]).
    destruct Hr.
  - split; [reflexivity|].
    destruct (update_title_uniqueness 1 1 3 "Call home" (Some "") (Some 1)
                None (Some 0) fixture eq_refl eq_refl eq_refl eq_refl)
      as [_ Hother].
    apply Hother.
    exists (mkTask 2 1 1 "Call home" "" 1 None 0 8640000002 8640000002 false).
    split; [cbn; tauto|]. split; [reflexivity|]. split; [discriminate|reflexivity].
Defined.

(** ** The columns of the records *)

Lemma project_task_columns (r : task_row) :
  map fst (project task_columns r) = task_columns.
Proof. reflexivity. Qed.

(** The call of a procedure with arguments that fit or do not fit. *)
Lemma input_run {A : Type} (fits : bool) (execute : proc A) (s : session) :
  input fits execute s = if fits then execute s else (Raised err_conversion, s).
Proof. reflexivity. Qed.

(** C10.  Every record that Get returns, and every element of the sequence
    that List returns, has exactly the fields idTask, title, description,
    priority, dueDate, status, dateCreated and dateModified, in this order:
    idAccount, idUser and deleted are not among them, although the declared
    type TaskEntity lists idAccount and idUser.  A call that returns no
    record was rejected: with a rule violation, or because an argument does
    not fit the type of its parameter. *)
Theorem result_fields (idAccount idUser idTask : Z) (status priority : option Z)
    (s : session) :
  let fields := ["idTask"; "title"; "description"; "priority"; "dueDate";
                 "status"; "dateCreated"; "dateModified"] in
  match fst (taskGet (mkGetRequest idAccount idUser idTask) s) with
  | Done (Some rec) => map fst rec = fields
  | Done None => False
  | Raised e => number e = 51000 \/ e = err_conversion
  end
  /\ match fst (taskList (mkListRequest idAccount idUser status priority) s) with
     | Done out => Forall (fun rec => map fst rec = fields) out
     | Raised e => number e = 51000 \/ e = err_conversion
     end
  /\ (~ In "idAccount" fields /\ ~ In "idUser" fields /\ ~ In "deleted" fields)
  /\ (In "idAccount" TaskEntity /\ In "idUser" TaskEntity).
Proof.
  cbv zeta. split; [|split; [|split]].
  - unfold taskGet, bind. cbn [gr_idAccount gr_idUser gr_idTask]. rewrite input_run.
    destruct (task_fits _); [|right; reflexivity].
    rewrite spTaskGet_run.
    destruct (account_exists idAccount (tables s)); cbn [negb];
      [|left; reflexivity].
    destruct (user_exists idUser idAccount (tables s)); cbn [negb];
      [|left; reflexivity].
    destruct (existsb (own_task idTask idAccount idUser) (task (tables s))) eqn:E;
      cbn [negb]; [|left; reflexivity].
    apply existsb_exists in E. destruct E as [r [Hr Hown]].
    assert (Hin : In r (filter (own_task idTask idAccount idUser) (task (tables s))))
      by (apply filter_In; split; assumption).
    destruct (filter (own_task idTask idAccount idUser) (task (tables s)))
      as [|x rest]; [destruct Hin|].
    cbn [map nth_error ret fst]. apply project_task_columns.
  - unfold taskList. cbn [lr_idAccount lr_idUser lr_status lr_priority].
    rewrite input_run. destruct (list_fits _); [|right; reflexivity].
    rewrite spTaskList_run.
    repeat match goal with
           | |- context [if negb ?c then _ else _] => destruct c; cbn [negb]
           end; try (left; reflexivity).
    cbn [fst]. apply Forall_forall. intros rec Hrec.
    apply in_map_iff in Hrec. destruct Hrec as [r [<- _]].
    apply project_task_columns.
  - repeat split; intros H; cbn in H;
      repeat (destruct H as [H|H]; [discriminate H|]); exact H.
  - split; cbn; tauto.
Qed.

(** Get and List on the fixture. *)
Example taskGet_on_fixture :
  fst (taskGet (mkGetRequest 1 1 3) fixture)
  = Done (Some [("idTask", VInt 3); ("title", VStr "Buy milk");
                ("description", VStr ""); ("priority", VInt 1);
                ("dueDate", VDate 110); ("status", VInt 0);
                ("dateCreated", VDateTime 8640000003);
                ("dateModified", VDateTime 8640000003)]).
Proof. reflexivity. Qed.

Example taskList_on_fixture :
  match fst (taskList (mkListRequest 1 1 (Some 0) None) fixture) with
  | Done out => map (field "title") out
                = [VStr "Pay rent"; VStr "Call home"; VStr "Buy milk"]
  | Raised _ => False
  end.
Proof. reflexivity. Qed.

(** The round trip of the spec: Create(title="Buy milk", priority=2) and
    then Get of the new idTask. *)
Example create_then_get :
  let created := taskCreate (mkCreateRequest 1 1 "Buy milk" None (Some 2) None)
                   day100 in
  fst created = Done (Some [("idTask", VInt 1)])
  /\ match fst (taskGet (mkGetRequest 1 1 1) (snd created)) with
     | Done (Some rec) =>
         field "title" rec = VStr "Buy milk" /\ field "priority" rec = VInt 2
         /\ field "status" rec = VInt 0 /\ field "description" rec = VStr ""
     | _ => False
     end.
Proof. cbn. repeat split. Qed.

(** ** The invariant of the store *)

Lemma NVARCHAR_within (n : nat) (t : string) :
  (String.length t <= n)%nat -> NVARCHAR n t = t.
Proof.
  unfold NVARCHAR. revert n. induction t as [|c rest IH]; intros [|n] H; cbn in *;
    try reflexivity; try lia.
  rewrite IH by lia. reflexivity.
Qed.

(** On arguments within the declared lengths, a call is its body. *)
Lemma execute_spTaskCreate_within (idAccount idUser : Z)
    (title description : string) (priority dueDate : option Z) (s : session) :
  (String.length title <= 100)%nat ->
  (String.length description <= 500)%nat ->
  execute_spTaskCreate idAccount idUser (Some title) (Some description) priority
    dueDate s
  = spTaskCreate idAccount idUser (Some title) (Some description) priority
      dueDate s.
Proof.
  intros Ht Hd. unfold execute_spTaskCreate. cbn [option_map].
  rewrite (NVARCHAR_within 100 title Ht), (NVARCHAR_within 500 description Hd).
  reflexivity.
Qed.

Lemma uq_snoc (l : list task_row) (r : task_row) :
  uqTask_Account_User_Title (l ++ [r])
  = uqTask_Account_User_Title l && negb (existsb (uq_clash r) l).
Proof.
  induction l as [|x rest IH]; cbn [app uqTask_Account_User_Title existsb];
    [reflexivity|].
  rewrite IH, existsb_app. cbn [existsb]. rewrite orb_false_r.
  rewrite (uq_clash_sym r x).
  destruct (existsb (uq_clash x) rest), (uq_clash x r),
    (uqTask_Account_User_Title rest), (existsb (uq_clash r) rest); reflexivity.
Qed.

Lemma insert_conflict_no_clash (d : db) (r : task_row) :
  insert_conflict d r = None -> existsb (uq_clash r) (task d) = false.
Proof.
  unfold insert_conflict.
  repeat match goal with
         | |- context [if ?c then _ else _] => destruct c eqn:?
         end; try discriminate.
  reflexivity.
Qed.

Lemma updated_rows_none (SET : task_row -> option task_row)
    (WHERE : task_row -> bool) (l : list task_row) :
  existsb WHERE l = false -> updated_rows SET WHERE l = l.
Proof.
  unfold updated_rows. induction l as [|x rest IH]; cbn [existsb map];
    [reflexivity|].
  intros H. apply orb_false_elim in H. destruct H as [Hx Hrest].
  rewrite Hx, IH by exact Hrest. reflexivity.
Qed.

Lemma update_result_unique (SET : task_row -> option task_row)
    (WHERE : task_row -> bool) (l new : list task_row) :
  uqTask_Account_User_Title l = true ->
  update_result SET WHERE l = inr new ->
  uqTask_Account_User_Title new = true.
Proof.
  intros Huq. unfold update_result.
  destruct (negb (forallb _ (filter WHERE l))); [discriminate|].
  destruct (negb (forallb _ (updated_rows SET (fun _ => true) (filter WHERE l))));
    [discriminate|].
  destruct (existsb WHERE l) eqn:E; cbn [andb].
  - destruct (uqTask_Account_User_Title (updated_rows SET WHERE l)) eqn:U;
      cbn [negb]; [|discriminate].
    intros H. inversion H; subst. exact U.
  - intros H. inversion H; subst. rewrite updated_rows_none by exact E. exact Huq.
Qed.

Lemma updated_rows_ids (SET : task_row -> option task_row)
    (WHERE : task_row -> bool) (l : list task_row) :
  (forall r r', SET r = Some r' -> tsk_idTask r' = tsk_idTask r) ->
  map tsk_idTask (updated_rows SET WHERE l) = map tsk_idTask l.
Proof.
  intros Hid. unfold updated_rows. rewrite map_map. apply map_ext. intros r.
  destruct (WHERE r); [|reflexivity].
  destruct (SET r) as [r'|] eqn:E; [|reflexivity]. apply Hid, E.
Qed.

Lemma ids_bounded (n : Z) (l l' : list task_row) :
  map tsk_idTask l' = map tsk_idTask l ->
  Forall (fun r => tsk_idTask r <= n) l ->
  Forall (fun r => tsk_idTask r <= n) l'.
Proof.
  intros Hids H. rewrite Forall_forall in *. intros r Hr.
  assert (Hin : In (tsk_idTask r) (map tsk_idTask l'))
    by (apply in_map; exact Hr).
  rewrite Hids in Hin. apply in_map_iff in Hin.
  destruct Hin as [r0 [Heq Hr0]]. rewrite <- Heq. apply H, Hr0.
Qed.

Lemma update_transaction_session (SET : Z -> task_row -> option task_row)
    (WHERE : task_row -> bool) (idTask : Z) (s : session) :
  trancount s = O ->
  ident (snd (update_transaction SET WHERE idTask s)) = ident s
  /\ tables (snd (update_transaction SET WHERE idTask s))
     = match update_result (SET (clock s)) WHERE (task (tables s)) with
       | inl _ => tables s
       | inr new => set_task new (tables s)
       end.
Proof.
  intros Hopen.
  unfold update_transaction, TRY_CATCH, bind, BEGIN_TRAN, GETUTCDATE, UPDATE_task,
    SELECT_scalar, COMMIT_TRAN, ROLLBACK_TRAN, RETHROW, ret, log.
  cbn [tables ident trancount undo clock trace]. rewrite Hopen.
  destruct (update_result (SET (clock s)) WHERE (task (tables s))); cbn;
    split; reflexivity.
Qed.

(** The three procedures that write keep the invariant, committed or rolled
    back, when they are called with no transaction open. *)
Lemma spTaskCreate_consistent (idAccount idUser : Z)
    (title description : option string) (priority dueDate : option Z)
    (s : session) :
  trancount s = O -> consistent s ->
  consistent (snd (spTaskCreate idAccount idUser title description priority
                     dueDate s)).
Proof.
  intros Hopen [Huq Hids]. rewrite spTaskCreate_checks.
  repeat match goal with
         | |- context [if negb ?c then _ else _] => destruct c; cbn [negb]
         end; try (split; assumption).
  rewrite create_transaction_run by exact Hopen.
  rewrite create_insert_after.
  destruct (create_insert idAccount idUser title description priority dueDate s)
    as [e|r] eqn:E; unfold consistent, closed;
    cbn [snd tables ident after set_task task].
  - split; [exact Huq|].
    eapply Forall_impl; [|exact Hids]. cbn. intros; lia.
  - unfold create_insert in E.
    destruct title as [t|], description as [d|], priority as [p|];
      try discriminate.
    destruct (insert_conflict (tables s) _) as [e|] eqn:C; [discriminate|].
    inversion E; subst. split.
    + rewrite uq_snoc, Huq, (insert_conflict_no_clash _ _ C). reflexivity.
    + apply Forall_app. split.
      * eapply Forall_impl; [|exact Hids]. cbn. intros; lia.
      * constructor; [cbn; lia|constructor].
Qed.

Lemma update_transaction_consistent (SET : Z -> task_row -> option task_row)
    (WHERE : task_row -> bool) (idTask : Z) (evs : list event) (s : session) :
  (forall now r r', SET now r = Some r' -> tsk_idTask r' = tsk_idTask r) ->
  trancount s = O -> consistent s ->
  consistent (snd (update_transaction SET WHERE idTask (after evs s))).
Proof.
  intros Hid Hopen [Huq Hids].
  destruct (update_transaction_session SET WHERE idTask (after evs s) Hopen)
    as [Hident Htab].
  unfold consistent. rewrite Hident, Htab. cbn [after tables ident clock].
  destruct (update_result (SET (clock s)) WHERE (task (tables s))) as [e|new] eqn:U.
  - split; assumption.
  - cbn [set_task task]. split.
    + eapply update_result_unique; eassumption.
    + apply update_result_rows in U. subst new.
      eapply ids_bounded; [|exact Hids].
      apply updated_rows_ids. apply Hid.
Qed.

Lemma spTaskUpdate_consistent (idAccount idUser idTask : Z)
    (title description : option string) (priority dueDate status : option Z)
    (s : session) :
  trancount s = O -> consistent s ->
  consistent (snd (spTaskUpdate idAccount idUser idTask title description
                     priority dueDate status s)).
Proof.
  intros Hopen Hs. rewrite spTaskUpdate_checks.
  repeat match goal with
         | |- context [if negb ?c then _ else _] => destruct c; cbn [negb]
         end; try exact Hs.
  apply update_transaction_consistent; try assumption.
  intros now r r'. unfold update_set.
  destruct title, description, priority, status; try discriminate.
  intros H. inversion H; reflexivity.
Qed.

Lemma spTaskDelete_consistent (idAccount idUser idTask : Z) (s : session) :
  trancount s = O -> consistent s ->
  consistent (snd (spTaskDelete idAccount idUser idTask s)).
Proof.
  intros Hopen Hs. rewrite spTaskDelete_checks.
  repeat match goal with
         | |- context [if negb ?c then _ else _] => destruct c; cbn [negb]
         end; try exact Hs.
  apply update_transaction_consistent; try assumption.
  intros now r r' H. inversion H; reflexivity.
Qed.

Example fixture_consistent : consistent fixture.
Proof. split; [reflexivity|]. repeat constructor; discriminate. Qed.

(** * The procedures beyond the claims *)

(** ** Outcomes *)

Lemma update_result_number (SET : task_row -> option task_row)
    (WHERE : task_row -> bool) (l : list task_row) (e : sql_error) :
  update_result SET WHERE l = inl e -> number e <> 51000.
Proof.
  unfold update_result.
  repeat match goal with
         | |- context [if ?c then _ else _] => destruct c
         end; intros H; inversion H; subst; cbn; lia.
Qed.

(** One UPDATE in a transaction, called with none open: the session it
    leaves. *)
Lemma update_transaction_closed (SET : Z -> task_row -> option task_row)
    (WHERE : task_row -> bool) (idTask : Z) (s : session) :
  trancount s = O ->
  let run := update_transaction SET WHERE idTask s in
  trancount (snd run) = O
  /\ ident (snd run) = ident s
  /\ clock (snd run) = clock s
  /\ match update_result (SET (clock s)) WHERE (task (tables s)) with
     | inl e => fst run = Raised e /\ tables (snd run) = tables s
     | inr new =>
         fst run = Done [[("idTask", VInt idTask)]]
         /\ tables (snd run) = set_task new (tables s)
     end.
Proof.
  intros Hopen. cbv zeta.
  unfold update_transaction, TRY_CATCH, bind, BEGIN_TRAN, GETUTCDATE, UPDATE_task,
    SELECT_scalar, COMMIT_TRAN, ROLLBACK_TRAN, RETHROW, ret, log.
  cbn [tables ident trancount undo clock trace]. rewrite Hopen.
  destruct (update_result (SET (clock s)) WHERE (task (tables s))); cbn;
    repeat split; reflexivity.
Qed.

(** X1.  For every Update the procedure evaluates its ten checks in the
    order of the source: title present and non-blank, title length,
    description length, priority, status, dueDate, account, user, the task
    of the user, title uniqueness among the other tasks.  It raises exactly
    the tagged error of the first one that is violated and leaves the tables
    as they were; when none is violated it raises no rule violation. *)
Theorem spTaskUpdate_first_violation (idAccount idUser idTask : Z)
    (title description : option string) (priority dueDate status : option Z)
    (s : session) :
  let run := spTaskUpdate idAccount idUser idTask title description priority
               dueDate status s in
  match first_violation
          (update_checks idAccount idUser idTask title description priority
             dueDate status s)
  with
  | Some k => fst run = Raised (violation k) /\ tables (snd run) = tables s
  | None => no_violation (fst run)
  end.
Proof.
  cbv zeta. rewrite spTaskUpdate_checks.
  unfold update_checks, first_violation.
  repeat match goal with
         | |- context [if negb ?c then _ else _] =>
             destruct c; cbn [negb]; [|split; reflexivity]
         end.
  match goal with
  | |- no_violation (fst (update_transaction ?S ?W ?i ?s0)) =>
      destruct (update_result (S (clock s0)) W (task (tables s0))) as [e|new] eqn:U
  end.
  - pose proof (update_result_number _ _ _ _ U) as Hn.
    apply (update_transaction_fails _ _ idTask) in U. destruct U as [U _].
    rewrite U. exact Hn.
  - apply (update_transaction_commits _ _ idTask) in U. destruct U as [U _].
    rewrite U. exact I.
Qed.

(** X2.  Get and Delete check the account, the user and then the task of
    the user; List checks the account, the user, the status filter and then
    the priority filter.  Each raises the tagged error of the first check
    that is violated, with the tables as they were, and List and Get return
    their records when none is. *)
Theorem short_procedures_first_violation (idAccount idUser idTask : Z)
    (status priority : option Z) (s : session) :
  (let run := spTaskGet idAccount idUser idTask s in
   match first_violation (task_checks idAccount idUser idTask s) with
   | Some k => fst run = Raised (violation k) /\ tables (snd run) = tables s
   | None =>
       fst run
       = Done (map (project task_columns)
                 (filter (own_task idTask idAccount idUser) (task (tables s))))
   end)
  /\ (let run := spTaskDelete idAccount idUser idTask s in
      match first_violation (task_checks idAccount idUser idTask s) with
      | Some k => fst run = Raised (violation k) /\ tables (snd run) = tables s
      | None => no_violation (fst run)
      end)
  /\ (let run := spTaskList idAccount idUser status priority s in
      match first_violation (list_checks idAccount idUser status priority s) with
      | Some k => fst run = Raised (violation k) /\ tables (snd run) = tables s
      | None =>
          fst run
          = Done (map (project task_columns)
                    (ORDER_BY (fun a b => not_after (spTaskList_order a b))
                       (filter (spTaskList_where idAccount idUser status priority)
                          (task (tables s)))))
      end).
Proof.
  cbv zeta. rewrite spTaskGet_run, spTaskDelete_checks, spTaskList_run.
  unfold task_checks, list_checks, first_violation.
  split; [|split].
  - repeat match goal with
           | |- context [if negb ?c then _ else _] =>
               destruct c; cbn [negb]; [|split; reflexivity]
           end. reflexivity.
  - repeat match goal with
           | |- context [if negb ?c then _ else _] =>
               destruct c; cbn [negb]; [|split; reflexivity]
           end.
    match goal with
    | |- no_violation (fst (update_transaction ?S ?W ?i ?s0)) =>
        destruct (update_result (S (clock s0)) W (task (tables s0)))
          as [e|new] eqn:U
    end.
    + pose proof (update_result_number _ _ _ _ U) as Hn.
      apply (update_transaction_fails _ _ idTask) in U. destruct U as [U _].
      rewrite U. exact Hn.
    + apply (update_transaction_commits _ _ idTask) in U. destruct U as [U _].
      rewrite U. exact I.
  - repeat match goal with
           | |- context [if negb ?c then _ else _] =>
               destruct c; cbn [negb]; [|split; reflexivity]
           end. reflexivity.
Qed.

Lemma create_insert_row (idAccount idUser : Z)
    (title description : option string) (priority dueDate : option Z)
    (s : session) (r : task_row) :
  create_insert idAccount idUser title description priority dueDate s = inr r ->
  exists t d p,
    title = Some t /\ description = Some d /\ priority = Some p
    /\ r = mkTask (ident s + 1) idAccount idUser t d p dueDate 0
             (clock s) (clock s) false
    /\ insert_conflict (tables s) r = None.
Proof.
  unfold create_insert.
  destruct title as [t|], description as [d|], priority as [p|]; try discriminate.
  destruct (insert_conflict (tables s) _) as [e|] eqn:C; [discriminate|].
  intros H. inversion H; subst. exists t, d, p. repeat split. exact C.
Qed.

(** What a Create leaves, when it is called with no transaction open. *)
Lemma spTaskCreate_outcome (idAccount idUser : Z)
    (title description : option string) (priority dueDate : option Z)
    (s : session) :
  trancount s = O ->
  let run := spTaskCreate idAccount idUser title description priority dueDate s in
  trancount (snd run) = O
  /\ clock (snd run) = clock s
  /\ account (tables (snd run)) = account (tables s)
  /\ user (tables (snd run)) = user (tables s)
  /\ match fst run with
     | Raised e => task (tables (snd run)) = task (tables s)
     | Done out =>
         exists r,
           create_insert idAccount idUser title description priority dueDate s
           = inr r
           /\ first_violation
                (create_checks idAccount idUser title description priority
                   dueDate s) = None
           /\ out = [[("idTask", VInt (tsk_idTask r))]]
           /\ task (tables (snd run)) = task (tables s) ++ [r]
     end.
Proof.
  intros Hopen. cbv zeta. rewrite spTaskCreate_checks.
  unfold create_checks, first_violation.
  repeat match goal with
         | |- context [if negb ?c then _ else _] =>
             destruct c; cbn [negb]; [|repeat split; assumption]
         end.
  rewrite create_transaction_run by exact Hopen. rewrite create_insert_after.
  destruct (create_insert idAccount idUser title description priority dueDate s)
    as [e|r] eqn:E; cbn [fst snd closed tables trancount clock account user task
                          set_task after].
  - repeat split.
  - repeat split. exists r. repeat split.
    apply create_insert_row in E.
    destruct E as [t [d [p [_ [_ [_ [-> _]]]]]]]. reflexivity.
Qed.

(** What an Update and a Delete leave, called with no transaction open. *)
Lemma spTaskUpdate_outcome (idAccount idUser idTask : Z)
    (title description : option string) (priority dueDate status : option Z)
    (s : session) :
  trancount s = O ->
  let run := spTaskUpdate idAccount idUser idTask title description priority
               dueDate status s in
  trancount (snd run) = O
  /\ clock (snd run) = clock s
  /\ ident (snd run) = ident s
  /\ account (tables (snd run)) = account (tables s)
  /\ user (tables (snd run)) = user (tables s)
  /\ match fst run with
     | Raised e => task (tables (snd run)) = task (tables s)
     | Done out =>
         first_violation
           (update_checks idAccount idUser idTask title description priority
              dueDate status s) = None
         /\ out = [[("idTask", VInt idTask)]]
         /\ update_result
              (update_set title description priority dueDate status (clock s))
              (own_task idTask idAccount idUser) (task (tables s))
            = inr (task (tables (snd run)))
     end.
Proof.
  intros Hopen. cbv zeta. rewrite spTaskUpdate_checks.
  unfold update_checks, first_violation.
  repeat match goal with
         | |- context [if negb ?c then _ else _] =>
             destruct c; cbn [negb]; [|repeat split; assumption]
         end.
  match goal with
  | |- context [update_transaction ?S ?W ?i ?s0] =>
      pose proof (update_transaction_closed S W i s0 Hopen) as H
  end.
  cbv zeta in H. cbn [after tables clock ident] in H.
  destruct H as [Ht [Hi [Hc H]]].
  destruct (update_result _ _ (task (tables s))) as [e|new] eqn:U;
    destruct H as [Hout Htab]; rewrite Hout, Htab, Ht, Hi, Hc;
    cbn [set_task account user task]; repeat split.
Qed.

Lemma spTaskDelete_outcome (idAccount idUser idTask : Z) (s : session) :
  trancount s = O ->
  let run := spTaskDelete idAccount idUser idTask s in
  trancount (snd run) = O
  /\ clock (snd run) = clock s
  /\ ident (snd run) = ident s
  /\ account (tables (snd run)) = account (tables s)
  /\ user (tables (snd run)) = user (tables s)
  /\ match fst run with
     | Raised e => task (tables (snd run)) = task (tables s)
     | Done out =>
         first_violation (task_checks idAccount idUser idTask s) = None
         /\ out = [[("idTask", VInt idTask)]]
         /\ update_result (delete_set (clock s))
              (own_task idTask idAccount idUser) (task (tables s))
            = inr (task (tables (snd run)))
     end.
Proof.
  intros Hopen. cbv zeta. rewrite spTaskDelete_checks.
  unfold task_checks, first_violation.
  repeat match goal with
         | |- context [if negb ?c then _ else _] =>
             destruct c; cbn [negb]; [|repeat split; assumption]
         end.
  match goal with
  | |- context [update_transaction ?S ?W ?i ?s0] =>
      pose proof (update_transaction_closed S W i s0 Hopen) as H
  end.
  cbv zeta in H. cbn [after tables clock ident] in H.
  destruct H as [Ht [Hi [Hc H]]].
  destruct (update_result _ _ (task (tables s))) as [e|new] eqn:U;
    destruct H as [Hout Htab]; rewrite Hout, Htab, Ht, Hi, Hc;
    cbn [set_task account user task]; repeat split.
Qed.

Lemma db_same (d d' : db) :
  account d' = account d -> user d' = user d -> task d' = task d -> d' = d.
Proof. destruct d, d'; cbn. intros -> -> ->. reflexivity. Qed.

(** X3.  A Create, an Update or a Delete that raises an error, whichever it
    is, leaves every table as it was before the call, and a call leaves no
    transaction open, when none was open before. *)
Theorem write_failure_changes_nothing (s : session) :
  trancount s = O ->
  (forall idAccount idUser title description priority dueDate,
      let run := spTaskCreate idAccount idUser title description priority
                   dueDate s in
      trancount (snd run) = O
      /\ forall e, fst run = Raised e -> tables (snd run) = tables s)
  /\ (forall idAccount idUser idTask title description priority dueDate status,
         let run := spTaskUpdate idAccount idUser idTask title description
                      priority dueDate status s in
         trancount (snd run) = O
         /\ forall e, fst run = Raised e -> tables (snd run) = tables s)
  /\ (forall idAccount idUser idTask,
         let run := spTaskDelete idAccount idUser idTask s in
         trancount (snd run) = O
         /\ forall e, fst run = Raised e -> tables (snd run) = tables s).
Proof.
  intros Hopen. split; [|split].
  - intros idAccount idUser title description priority dueDate run. subst run.
    destruct (spTaskCreate_outcome idAccount idUser title description priority
                dueDate s Hopen) as [Ht [_ [Ha [Hu Hout]]]].
    split; [exact Ht|]. intros e He. rewrite He in Hout.
    apply db_same; assumption.
  - intros idAccount idUser idTask title description priority dueDate status run.
    subst run.
    destruct (spTaskUpdate_outcome idAccount idUser idTask title description
                priority dueDate status s Hopen) as [Ht [_ [_ [Ha [Hu Hout]]]]].
    split; [exact Ht|]. intros e He. rewrite He in Hout.
    apply db_same; assumption.
  - intros idAccount idUser idTask run. subst run.
    destruct (spTaskDelete_outcome idAccount idUser idTask s Hopen)
      as [Ht [_ [_ [Ha [Hu Hout]]]]].
    split; [exact Ht|]. intros e He. rewrite He in Hout.
    apply db_same; assumption.
Qed.

(** The theorem at an Update of the fixture that fails in the engine: a
    NULL status passes the checks and is refused by the UPDATE. *)
Lemma write_failure_on_fixture :
  trancount fixture = O
  /\ fst (spTaskUpdate 1 1 3 (Some "Buy milk") (Some "") (Some 1) None None fixture)
     = Raised err_null
  /\ tables (snd (spTaskUpdate 1 1 3 (Some "Buy milk") (Some "") (Some 1) None None
                    fixture))
     = tables fixture.
Proof.
  split; [reflexivity|]. split; [reflexivity|].
  destruct (write_failure_changes_nothing fixture eq_refl) as [_ [Hupdate _]].
  apply (Hupdate 1 1 3 (Some "Buy milk") (Some "") (Some 1) None None) with err_null.
  reflexivity.
Defined.

(** X4.  Get and List only read: whatever they return, the session they
    leave is the session they found with some reads added to its trace; no
    table is changed, no identity value consumed and no transaction
    begun. *)
Theorem reads_only_read (idAccount idUser idTask : Z) (status priority : option Z)
    (s : session) :
  (exists evs, snd (spTaskGet idAccount idUser idTask s) = after evs s
               /\ forallb is_read evs = true)
  /\ (exists evs, snd (spTaskList idAccount idUser status priority s) = after evs s
                  /\ forallb is_read evs = true).
Proof.
  rewrite spTaskGet_run, spTaskList_run. split;
    repeat match goal with
           | |- context [if negb ?c then _ else _] => destruct c; cbn [negb]
           end; eexists; split; reflexivity.
Qed.

(** ** The invariant of a session *)

Lemma row_valid_same_refs (d d' : db) (r : task_row) :
  account d' = account d -> user d' = user d -> row_valid d' r = row_valid d r.
Proof.
  intros Ha Hu. unfold row_valid, account_exists, user_exists.
  rewrite Ha, Hu. reflexivity.
Qed.

Lemma rows_valid_same_refs (d d' : db) (l : list task_row) :
  account d' = account d -> user d' = user d ->
  forallb (row_valid d') l = forallb (row_valid d) l.
Proof.
  intros Ha Hu. induction l as [|r rest IH]; cbn [forallb]; [reflexivity|].
  rewrite IH, (row_valid_same_refs d d' r Ha Hu). reflexivity.
Qed.

Lemma forallb_updated_rows (P : task_row -> bool)
    (SET : task_row -> option task_row) (WHERE : task_row -> bool)
    (l : list task_row) :
  forallb P l = true ->
  (forall r r', In r l -> WHERE r = true -> SET r = Some r' -> P r' = true) ->
  forallb P (updated_rows SET WHERE l) = true.
Proof.
  unfold updated_rows. induction l as [|x rest IH]; cbn [map forallb];
    [reflexivity|].
  intros Hall Hset. apply andb_prop in Hall. destruct Hall as [Hx Hrest].
  rewrite IH; [|exact Hrest|intros r r' Hr; apply Hset; right; exact Hr].
  rewrite andb_true_r. destruct (WHERE x) eqn:W; [|exact Hx].
  destruct (SET x) as [x'|] eqn:E; [|exact Hx].
  apply (Hset x x'); [left; reflexivity|exact W|exact E].
Qed.

Lemma first_violation_create_none (idAccount idUser : Z)
    (title description : option string) (priority dueDate : option Z)
    (s : session) :
  first_violation
    (create_checks idAccount idUser title description priority dueDate s) = None ->
  title_present title = true /\ length_within 100 title = true
  /\ length_within 500 description = true /\ within 0 2 priority = true
  /\ not_in_past (CAST_AS_DATE (clock s)) dueDate = true
  /\ account_exists idAccount (tables s) = true
  /\ user_exists idUser idAccount (tables s) = true
  /\ title_free idAccount idUser title (tables s) = true.
Proof.
  unfold create_checks, first_violation.
  repeat match goal with
         | |- context [if ?c then _ else _] => destruct c; [|discriminate]
         end.
  intros _. repeat split.
Qed.

Lemma first_violation_update_none (idAccount idUser idTask : Z)
    (title description : option string) (priority dueDate status : option Z)
    (s : session) :
  first_violation
    (update_checks idAccount idUser idTask title description priority dueDate
       status s) = None ->
  title_present title = true /\ length_within 100 title = true
  /\ length_within 500 description = true /\ within 0 2 priority = true
  /\ within 0 1 status = true
  /\ not_in_past (CAST_AS_DATE (clock s)) dueDate = true
  /\ account_exists idAccount (tables s) = true
  /\ user_exists idUser idAccount (tables s) = true
  /\ existsb (own_task idTask idAccount idUser) (task (tables s)) = true
  /\ title_free_but idTask idAccount idUser title (tables s) = true.
Proof.
  unfold update_checks, first_violation.
  repeat match goal with
         | |- context [if ?c then _ else _] => destruct c; [|discriminate]
         end.
  intros _. repeat split.
Qed.

Lemma own_task_owner (idTask idAccount idUser : Z) (r : task_row) :
  own_task idTask idAccount idUser r = true ->
  tsk_idTask r = idTask /\ tsk_idAccount r = idAccount /\ tsk_idUser r = idUser
  /\ tsk_deleted r = false.
Proof.
  unfold own_task. intros H.
  apply andb_prop in H. destruct H as [H Hlive].
  apply andb_prop in H. destruct H as [H Husr].
  apply andb_prop in H. destruct H as [Hid Hacc].
  apply Z.eqb_eq in Hid, Hacc, Husr. apply negb_true_iff in Hlive.
  repeat split; assumption.
Qed.

Lemma spTaskCreate_sound (idAccount idUser : Z)
    (title description : option string) (priority dueDate : option Z)
    (s : session) :
  sound s ->
  sound (snd (spTaskCreate idAccount idUser title description priority dueDate s)).
Proof.
  intros [Hopen [Hcons [Hpk Hrows]]].
  pose proof (spTaskCreate_consistent idAccount idUser title description priority
                dueDate s Hopen Hcons) as Hcons'.
  destruct (spTaskCreate_outcome idAccount idUser title description priority
              dueDate s Hopen) as [Ht [_ [Ha [Hu Hout]]]].
  split; [exact Ht|]. split; [exact Hcons'|].
  rewrite (rows_valid_same_refs _ _ _ Ha Hu).
  destruct (fst (spTaskCreate idAccount idUser title description priority dueDate s))
    as [out|e].
  - destruct Hout as [r [Hins [Hchecks [_ Htask]]]]. rewrite Htask.
    apply create_insert_row in Hins.
    destruct Hins as [t [d [p [-> [-> [-> [Hr _]]]]]]].
    apply first_violation_create_none in Hchecks.
    destruct Hchecks as [C1 [C2 [C3 [C4 [_ [C6 [C7 _]]]]]]].
    split.
    + rewrite map_app. cbn [map]. apply NoDup_app_remove_l with (l := []).
      cbn [app]. apply Permutation_NoDup with (l := tsk_idTask r :: map tsk_idTask (task (tables s))).
      * apply Permutation_cons_append.
      * constructor; [|exact Hpk].
        intros Hin. apply in_map_iff in Hin. destruct Hin as [r0 [Heq Hr0]].
        destruct Hcons as [_ Hids]. rewrite Forall_forall in Hids.
        specialize (Hids r0 Hr0). cbn in Hids. subst r. cbn in Heq. lia.
    + rewrite forallb_app, Hrows. cbn [forallb]. rewrite andb_true_r.
      subst r. unfold row_valid, chkTask_Priority, chkTask_Status.
      cbn [tsk_priority tsk_status tsk_idAccount tsk_idUser tsk_title
           tsk_description].
      cbn in C4. rewrite C4, C6, C7, C1, C2, C3. reflexivity.
  - rewrite Hout. split; assumption.
Qed.

Lemma update_transaction_rows_sound (d : db) (SET : task_row -> option task_row)
    (idTask idAccount idUser : Z) (l new : list task_row) :
  (forall r r', forallb (row_valid d) l = true -> In r l ->
                own_task idTask idAccount idUser r = true ->
                SET r = Some r' ->
                tsk_idTask r' = tsk_idTask r /\ row_valid d r' = true) ->
  NoDup (map tsk_idTask l) ->
  forallb (row_valid d) l = true ->
  update_result SET (own_task idTask idAccount idUser) l = inr new ->
  NoDup (map tsk_idTask new) /\ forallb (row_valid d) new = true.
Proof.
  intros Hset Hpk Hrows Hres. apply update_result_rows in Hres. subst new. split.
  - assert (Hids : map tsk_idTask
                     (updated_rows SET (own_task idTask idAccount idUser) l)
                   = map tsk_idTask l).
    { unfold updated_rows. rewrite map_map. apply map_ext_in. intros r Hr.
      destruct (own_task idTask idAccount idUser r) eqn:W; [|reflexivity].
      destruct (SET r) as [r'|] eqn:E; [|reflexivity].
      apply (Hset r r' Hrows Hr W E). }
    rewrite Hids. exact Hpk.
  - apply forallb_updated_rows; [exact Hrows|].
    intros r r' Hr W E. apply (Hset r r' Hrows Hr W E).
Qed.

Lemma spTaskUpdate_sound (idAccount idUser idTask : Z)
    (title description : option string) (priority dueDate status : option Z)
    (s : session) :
  sound s ->
  sound (snd (spTaskUpdate idAccount idUser idTask title description priority
                dueDate status s)).
Proof.
  intros [Hopen [Hcons [Hpk Hrows]]].
  pose proof (spTaskUpdate_consistent idAccount idUser idTask title description
                priority dueDate status s Hopen Hcons) as Hcons'.
  destruct (spTaskUpdate_outcome idAccount idUser idTask title description priority
              dueDate status s Hopen) as [Ht [_ [_ [Ha [Hu Hout]]]]].
  split; [exact Ht|]. split; [exact Hcons'|].
  rewrite (rows_valid_same_refs _ _ _ Ha Hu).
  destruct (fst (spTaskUpdate idAccount idUser idTask title description priority
                   dueDate status s)) as [out|e].
  - destruct Hout as [Hchecks [_ Hres]].
    apply first_violation_update_none in Hchecks.
    destruct Hchecks as [C1 [C2 [C3 [C4 [C5 _]]]]].
    eapply update_transaction_rows_sound; [|exact Hpk|exact Hrows|exact Hres].
    intros r r' Hall Hr W E. unfold update_set in E.
    destruct title as [t|], description as [d|], priority as [p|],
      status as [st|]; try discriminate.
    inversion E; subst r'. split; [reflexivity|].
    rewrite forallb_forall in Hall. specialize (Hall r Hr).
    unfold row_valid in *. unfold chkTask_Priority, chkTask_Status in *.
    cbn [tsk_priority tsk_status tsk_idAccount tsk_idUser tsk_title
         tsk_description].
    cbn in C4, C5. rewrite C4, C5, C1, C2, C3.
    repeat (apply andb_prop in Hall; destruct Hall as [Hall ?]).
    repeat (apply andb_true_intro; split); assumption || reflexivity.
  - rewrite Hout. split; assumption.
Qed.

Lemma spTaskDelete_sound (idAccount idUser idTask : Z) (s : session) :
  sound s -> sound (snd (spTaskDelete idAccount idUser idTask s)).
Proof.
  intros [Hopen [Hcons [Hpk Hrows]]].
  pose proof (spTaskDelete_consistent idAccount idUser idTask s Hopen Hcons)
    as Hcons'.
  destruct (spTaskDelete_outcome idAccount idUser idTask s Hopen)
    as [Ht [_ [_ [Ha [Hu Hout]]]]].
  split; [exact Ht|]. split; [exact Hcons'|].
  rewrite (rows_valid_same_refs _ _ _ Ha Hu).
  destruct (fst (spTaskDelete idAccount idUser idTask s)) as [out|e].
  - destruct Hout as [_ [_ Hres]].
    eapply update_transaction_rows_sound; [|exact Hpk|exact Hrows|exact Hres].
    intros r r' Hall Hr W E. inversion E; subst r'. split; [reflexivity|].
    rewrite forallb_forall in Hall. exact (Hall r Hr).
  - rewrite Hout. split; assumption.
Qed.

(** X5.  The five procedures keep the invariant of a session: after any
    call, successful or not, no transaction is open, the identifiers of the
    tasks are pairwise distinct and not beyond the identity counter, no two
    tasks of one (idAccount, idUser) that are not deleted have the same
    title, and every task has a priority in 0..2, a status in 0..1, an
    account and a user of that account, a title that is not blank and
    within 100 characters and a description within 500. *)
Theorem procedures_keep_sound (s : session) :
  sound s ->
  (forall idAccount idUser title description priority dueDate,
      sound (snd (spTaskCreate idAccount idUser title description priority
                    dueDate s)))
  /\ (forall idAccount idUser idTask title description priority dueDate status,
         sound (snd (spTaskUpdate idAccount idUser idTask title description
                       priority dueDate status s)))
  /\ (forall idAccount idUser idTask,
         sound (snd (spTaskDelete idAccount idUser idTask s)))
  /\ (forall idAccount idUser idTask,
         sound (snd (spTaskGet idAccount idUser idTask s)))
  /\ (forall idAccount idUser status priority,
         sound (snd (spTaskList idAccount idUser status priority s))).
Proof.
  intros Hs. split; [|split; [|split; [|split]]].
  - intros. apply spTaskCreate_sound, Hs.
  - intros idAccount idUser idTask title description priority dueDate status.
    apply spTaskUpdate_sound, Hs.
  - intros. apply spTaskDelete_sound, Hs.
  - intros idAccount idUser idTask. rewrite spTaskGet_run.
    repeat match goal with
           | |- context [if negb ?c then _ else _] => destruct c; cbn [negb]
           end; exact Hs.
  - intros idAccount idUser status priority. rewrite spTaskList_run.
    repeat match goal with
           | |- context [if negb ?c then _ else _] => destruct c; cbn [negb]
           end; exact Hs.
Qed.

(** The fixture is such a session; the theorem at a Create on it. *)
Lemma procedures_keep_sound_on_fixture :
  sound fixture
  /\ sound (snd (spTaskCreate 1 1 (Some "Read mail") (Some "") (Some 0) None
                   fixture)).
Proof.
  assert (Hfix : sound fixture).
  { split; [reflexivity|]. split; [split; [reflexivity|]|split; [|reflexivity]].
    - repeat constructor; discriminate.
    - cbn. repeat constructor; cbn; intuition discriminate. }
  split; [exact Hfix|].
  destruct (procedures_keep_sound fixture Hfix) as [Hcreate _].
  apply Hcreate.
Defined.

(** ** The engine's own errors *)

Lemma uq_clash_deleted_l (a b : task_row) :
  tsk_deleted a = true -> uq_clash a b = false.
Proof. unfold uq_clash. intros ->. reflexivity. Qed.

Lemma uq_first (x : task_row) (rest : list task_row) :
  uqTask_Account_User_Title (x :: rest) = true ->
  (forall y, In y rest -> uq_clash x y = false)
  /\ uqTask_Account_User_Title rest = true.
Proof.
  cbn [uqTask_Account_User_Title]. intros H.
  apply andb_prop in H. destruct H as [Hx Hrest]. split; [|exact Hrest].
  apply negb_true_iff in Hx. intros y Hy.
  destruct (uq_clash x y) eqn:E; [|reflexivity].
  rewrite <- Hx. symmetry. apply existsb_exists. exists y. split; assumption.
Qed.

Lemma uq_map (f : task_row -> task_row) (l : list task_row) :
  (forall x y, In x l -> In y l -> tsk_idTask x <> tsk_idTask y ->
               uq_clash x y = false -> uq_clash (f x) (f y) = false) ->
  NoDup (map tsk_idTask l) ->
  uqTask_Account_User_Title l = true ->
  uqTask_Account_User_Title (map f l) = true.
Proof.
  induction l as [|x rest IH]; intros Hf Hpk Huq; [reflexivity|].
  cbn [map uqTask_Account_User_Title].
  apply uq_first in Huq. destruct Huq as [Hx Hrest].
  cbn [map] in Hpk. apply NoDup_cons_iff in Hpk. destruct Hpk as [Hnew Hpk].
  rewrite IH; [|intros a b Ha Hb; apply Hf; right; assumption|exact Hpk|exact Hrest].
  rewrite andb_true_r. apply negb_true_iff. apply existsb_false_forall.
  intros z Hz. apply in_map_iff in Hz. destruct Hz as [y [<- Hy]].
  apply Hf; [left; reflexivity|right; exact Hy| |apply Hx, Hy].
  intros Heq. apply Hnew. rewrite Heq. apply in_map. exact Hy.
Qed.

Lemma title_free_but_row (idTask idAccount idUser : Z) (t : string) (d : db)
    (y : task_row) :
  title_free_but idTask idAccount idUser (Some t) d = true ->
  In y (task d) -> tsk_idTask y <> idTask ->
  same_title idAccount idUser t y && negb (tsk_deleted y) = false.
Proof.
  unfold title_free_but. intros H Hy Hid. apply negb_true_iff in H.
  destruct (same_title idAccount idUser t y && negb (tsk_deleted y)) eqn:E;
    [|reflexivity].
  rewrite <- H. symmetry. apply existsb_exists. exists y. split; [exact Hy|].
  apply andb_prop in E. destruct E as [E1 E2].
  apply Z.eqb_neq in Hid. rewrite E1, E2, Hid. reflexivity.
Qed.

(** With the primary key and the unique index in place, an Update that
    passed its checks is carried out. *)
Lemma update_result_carried (idTask idAccount idUser : Z) (t d : string)
    (p st now : Z) (dueDate : option Z) (db0 : db) :
  within 0 2 (Some p) = true ->
  within 0 1 (Some st) = true ->
  title_free_but idTask idAccount idUser (Some t) db0 = true ->
  NoDup (map tsk_idTask (task db0)) ->
  uqTask_Account_User_Title (task db0) = true ->
  update_result (update_set (Some t) (Some d) (Some p) dueDate (Some st) now)
    (own_task idTask idAccount idUser) (task db0)
  = inr (updated_rows
           (update_set (Some t) (Some d) (Some p) dueDate (Some st) now)
           (own_task idTask idAccount idUser) (task db0)).
Proof.
  intros Hp Hst Hfree Hpk Huq. unfold update_result.
  assert (H1 : forallb (fun r => match update_set (Some t) (Some d) (Some p) dueDate
                                         (Some st) now r with
                                 | Some _ => true
                                 | None => false
                                 end)
                 (filter (own_task idTask idAccount idUser) (task db0)) = true).
  { apply forallb_forall. intros r _. reflexivity. }
  rewrite H1. cbn [negb].
  rewrite forallb_updated.
  2:{ intros r. eexists. split; [reflexivity|].
      unfold chkTask_Priority, chkTask_Status. cbn [tsk_priority tsk_status].
      cbn in Hp, Hst. rewrite Hp, Hst. reflexivity. }
  cbn [negb].
  assert (H3 : uqTask_Account_User_Title
                 (updated_rows
                    (update_set (Some t) (Some d) (Some p) dueDate (Some st) now)
                    (own_task idTask idAccount idUser) (task db0)) = true).
  { unfold updated_rows. apply uq_map; [|exact Hpk|exact Huq].
    intros x y Hx Hy Hne Hclash. cbn [update_set].
    destruct (own_task idTask idAccount idUser x) eqn:Wx,
             (own_task idTask idAccount idUser y) eqn:Wy.
    - apply own_task_owner in Wx, Wy.
      destruct Wx as [Wx _], Wy as [Wy _]. congruence.
    - apply own_task_owner in Wx. destruct Wx as [Ix [Ax [Ux Dx]]].
      rewrite Ax, Ux, Dx, uq_clash_new.
      apply (title_free_but_row idTask idAccount idUser t db0 y Hfree Hy).
      congruence.
    - apply own_task_owner in Wy. destruct Wy as [Iy [Ay [Uy Dy]]].
      rewrite uq_clash_sym, Ay, Uy, Dy, uq_clash_new.
      apply (title_free_but_row idTask idAccount idUser t db0 x Hfree Hx).
      congruence.
    - exact Hclash. }
  rewrite H3, andb_false_r. reflexivity.
Qed.

Lemma row_valid_checks (d : db) (r : task_row) :
  row_valid d r = true -> chkTask_Priority r && chkTask_Status r = true.
Proof.
  unfold row_valid. intros H.
  do 5 (apply andb_prop in H; destruct H as [H _]). exact H.
Qed.

(** And so is the UPDATE of a Delete, when the rows are valid. *)
Lemma delete_result_carried (idTask idAccount idUser now : Z) (db0 : db) :
  forallb (row_valid db0) (task db0) = true ->
  NoDup (map tsk_idTask (task db0)) ->
  uqTask_Account_User_Title (task db0) = true ->
  update_result (delete_set now) (own_task idTask idAccount idUser) (task db0)
  = inr (updated_rows (delete_set now) (own_task idTask idAccount idUser)
           (task db0)).
Proof.
  intros Hrows Hpk Huq. unfold update_result.
  assert (H1 : forallb (fun r => match delete_set now r with
                                 | Some _ => true
                                 | None => false
                                 end)
                 (filter (own_task idTask idAccount idUser) (task db0)) = true).
  { apply forallb_forall. intros r _. reflexivity. }
  rewrite H1. cbn [negb].
  assert (H2 : forallb (fun r => chkTask_Priority r && chkTask_Status r)
                 (updated_rows (delete_set now) (fun _ => true)
                    (filter (own_task idTask idAccount idUser) (task db0)))
               = true).
  { unfold updated_rows. apply forallb_forall. intros r' Hr'.
    apply in_map_iff in Hr'. destruct Hr' as [r [<- Hr]].
    apply filter_In in Hr. destruct Hr as [Hr _].
    rewrite forallb_forall in Hrows. specialize (Hrows r Hr).
    apply row_valid_checks in Hrows. exact Hrows. }
  rewrite H2. cbn [negb].
  assert (H3 : uqTask_Account_User_Title
                 (updated_rows (delete_set now)
                    (own_task idTask idAccount idUser) (task db0)) = true).
  { unfold updated_rows. apply uq_map; [|exact Hpk|exact Huq].
    intros x y _ _ _ Hclash.
    destruct (own_task idTask idAccount idUser x) eqn:Wx.
    - apply uq_clash_deleted_l. reflexivity.
    - destruct (own_task idTask idAccount idUser y) eqn:Wy; [|exact Hclash].
      rewrite uq_clash_sym. apply uq_clash_deleted_l. reflexivity. }
  rewrite H3, andb_false_r. reflexivity.
Qed.

(** ** The facade on a sound session *)

Lemma first_record_run (m : proc recordset) (s : session) :
  (result <- m ;; ret (nth_error result 0)) s
  = (match fst (m s) with
     | Done result => Done (nth_error result 0)
     | Raised e => Raised e
     end, snd (m s)).
Proof. unfold bind, ret. destruct (m s) as [[result|e] s']; reflexivity. Qed.

Lemma spTaskCreate_answered (idAccount idUser : Z) (t d : string) (p : Z)
    (dueDate : option Z) (s : session) :
  sound s ->
  answered (fst (spTaskCreate idAccount idUser (Some t) (Some d) (Some p) dueDate s)).
Proof.
  intros [Hopen [[Huq Hids] _]]. rewrite spTaskCreate_checks.
  repeat match goal with
         | |- context [if negb ?c then _ else _] =>
             destruct c eqn:?; cbn [negb]; [|eexists; reflexivity]
         end.
  rewrite create_transaction_run by exact Hopen. rewrite create_insert_after.
  unfold create_insert. rewrite insert_conflict_none; try assumption; [exact I|].
  eapply Forall_impl; [|exact Hids]. cbn. intros; lia.
Qed.

Lemma spTaskUpdate_answered (idAccount idUser idTask : Z) (t d : string) (p st : Z)
    (dueDate : option Z) (s : session) :
  sound s ->
  answered (fst (spTaskUpdate idAccount idUser idTask (Some t) (Some d) (Some p)
                   dueDate (Some st) s)).
Proof.
  intros [Hopen [[Huq Hids] [Hpk _]]]. rewrite spTaskUpdate_checks.
  repeat match goal with
         | |- context [if negb ?c then _ else _] =>
             destruct c eqn:?; cbn [negb]; [|eexists; reflexivity]
         end.
  match goal with
  | |- context [update_transaction ?S ?W ?i ?s0] =>
      destruct (update_transaction_commits S W i s0
                  (updated_rows (S (clock s0)) W (task (tables s0)))) as [-> _];
      [|exact I]
  end.
  cbn [after tables clock]. apply update_result_carried; assumption.
Qed.

Lemma spTaskDelete_answered (idAccount idUser idTask : Z) (s : session) :
  sound s -> answered (fst (spTaskDelete idAccount idUser idTask s)).
Proof.
  intros [Hopen [[Huq Hids] [Hpk Hrows]]]. rewrite spTaskDelete_checks.
  repeat match goal with
         | |- context [if negb ?c then _ else _] =>
             destruct c eqn:?; cbn [negb]; [|eexists; reflexivity]
         end.
  match goal with
  | |- context [update_transaction ?S ?W ?i ?s0] =>
      destruct (update_transaction_commits S W i s0
                  (updated_rows (S (clock s0)) W (task (tables s0)))) as [-> _];
      [|exact I]
  end.
  cbn [after tables clock]. apply delete_result_carried; assumption.
Qed.

Lemma spTaskGet_answered (idAccount idUser idTask : Z) (s : session) :
  answered (fst (spTaskGet idAccount idUser idTask s)).
Proof.
  rewrite spTaskGet_run.
  repeat match goal with
         | |- context [if negb ?c then _ else _] =>
             destruct c; cbn [negb]; [|eexists; reflexivity]
         end. exact I.
Qed.

Lemma spTaskList_answered (idAccount idUser : Z) (status priority : option Z)
    (s : session) :
  answered (fst (spTaskList idAccount idUser status priority s)).
Proof.
  rewrite spTaskList_run.
  repeat match goal with
         | |- context [if negb ?c then _ else _] =>
             destruct c; cbn [negb]; [|eexists; reflexivity]
         end. exact I.
Qed.

Lemma answered_first_record (o : outcome recordset) :
  answered o ->
  answered (match o with
            | Done result => Done (nth_error result 0)
            | Raised e => Raised e
            end).
Proof. destruct o; intros H; exact H. Qed.

Lemma first_record_settled (fits : bool) (execute : proc recordset)
    (s : session) :
  answered (fst (execute s)) ->
  sound (snd (execute s)) ->
  sound s ->
  settled fits (result <- input fits execute ;; ret (nth_error result 0)) s.
Proof.
  intros Ha Hs' Hs. unfold settled. rewrite first_record_run, input_run.
  destruct fits; cbn [fst snd].
  - split; [apply answered_first_record, Ha|exact Hs'].
  - split; [reflexivity|exact Hs].
Qed.

Lemma facade_on_sound (s : session) :
  sound s ->
  (forall params, settled (create_fits params) (taskCreate params) s)
  /\ (forall params, settled (update_fits params) (taskUpdate params) s)
  /\ (forall params, settled (task_fits params) (taskDelete params) s)
  /\ (forall params, settled (task_fits params) (taskGet params) s)
  /\ (forall params, settled (list_fits params) (taskList params) s).
Proof.
  intros Hs. split; [|split; [|split; [|split]]]; intros params.
  - unfold taskCreate, execute_spTaskCreate. cbn [option_map].
    apply first_record_settled; [| |exact Hs].
    + apply spTaskCreate_answered, Hs.
    + apply spTaskCreate_sound, Hs.
  - unfold taskUpdate, execute_spTaskUpdate. cbn [option_map].
    apply first_record_settled; [| |exact Hs].
    + apply spTaskUpdate_answered, Hs.
    + apply spTaskUpdate_sound, Hs.
  - unfold taskDelete. apply first_record_settled; [| |exact Hs].
    + apply spTaskDelete_answered, Hs.
    + apply spTaskDelete_sound, Hs.
  - unfold taskGet. apply first_record_settled; [| |exact Hs].
    + apply spTaskGet_answered.
    + rewrite spTaskGet_run.
      repeat match goal with
             | |- context [if negb ?c then _ else _] => destruct c; cbn [negb]
             end; exact Hs.
  - unfold taskList, settled. rewrite input_run.
    destruct (list_fits params); cbn [fst snd]; [|split; [reflexivity|exact Hs]].
    split.
    + apply spTaskList_answered.
    + rewrite spTaskList_run.
      repeat match goal with
             | |- context [if negb ?c then _ else _] => destruct c; cbn [negb]
             end; exact Hs.
Qed.


Lemma fixture_sound : sound fixture.
Proof.
  split; [reflexivity|]. split; [split; [reflexivity|]|split; [|reflexivity]].
  - repeat constructor; discriminate.
  - cbn. repeat constructor; cbn; intuition discriminate.
Qed.


(** ** Whose rows a call touches *)

Lemma filter_updated_rows (Q : task_row -> bool)
    (SET : task_row -> option task_row) (WHERE : task_row -> bool)
    (l : list task_row) :
  (forall r, WHERE r = true -> Q r = false) ->
  (forall r r', WHERE r = true -> SET r = Some r' -> Q r' = false) ->
  filter Q (updated_rows SET WHERE l) = filter Q l.
Proof.
  intros Hw Hset. unfold updated_rows.
  induction l as [|x rest IH]; cbn [map filter]; [reflexivity|].
  rewrite IH. destruct (WHERE x) eqn:W; [|reflexivity].
  rewrite (Hw x W). destruct (SET x) as [x'|] eqn:E.
  - rewrite (Hset x x' W E). reflexivity.
  - rewrite (Hw x W). reflexivity.
Qed.

Lemma own_task_owned (idTask idAccount idUser : Z) (r : task_row) :
  own_task idTask idAccount idUser r = true -> owned_by idAccount idUser r = true.
Proof.
  intros H. apply own_task_owner in H. destruct H as [_ [Ha [Hu _]]].
  unfold owned_by. rewrite Ha, Hu, !Z.eqb_refl. reflexivity.
Qed.

(** A write of the pair (idAccount, idUser) keeps every selection of rows
    that holds no row of the pair. *)
Lemma spTaskCreate_keeps (Q : task_row -> bool) (idAccount idUser : Z)
    (title description : option string) (priority dueDate : option Z)
    (s : session) :
  trancount s = O ->
  (forall r, owned_by idAccount idUser r = true -> Q r = false) ->
  filter Q (task (tables (snd (spTaskCreate idAccount idUser title description
                                 priority dueDate s))))
  = filter Q (task (tables s)).
Proof.
  intros Hopen HQ.
  destruct (spTaskCreate_outcome idAccount idUser title description priority
              dueDate s Hopen) as [_ [_ [_ [_ Hout]]]].
  destruct (fst (spTaskCreate idAccount idUser title description priority dueDate s))
    as [out|e]; [|rewrite Hout; reflexivity].
  destruct Hout as [r [Hins [_ [_ ->]]]].
  apply create_insert_row in Hins. destruct Hins as [t [d [p [_ [_ [_ [-> _]]]]]]].
  rewrite filter_app. cbn [filter]. rewrite HQ; [apply app_nil_r|].
  unfold owned_by. cbn. rewrite !Z.eqb_refl. reflexivity.
Qed.

Lemma spTaskUpdate_keeps (Q : task_row -> bool) (idAccount idUser idTask : Z)
    (title description : option string) (priority dueDate status : option Z)
    (s : session) :
  trancount s = O ->
  (forall r, owned_by idAccount idUser r = true -> Q r = false) ->
  filter Q (task (tables (snd (spTaskUpdate idAccount idUser idTask title
                                 description priority dueDate status s))))
  = filter Q (task (tables s)).
Proof.
  intros Hopen HQ.
  destruct (spTaskUpdate_outcome idAccount idUser idTask title description priority
              dueDate status s Hopen) as [_ [_ [_ [_ [_ Hout]]]]].
  destruct (fst (spTaskUpdate idAccount idUser idTask title description priority
                   dueDate status s)) as [out|e]; [|rewrite Hout; reflexivity].
  destruct Hout as [_ [_ Hres]]. apply update_result_rows in Hres. rewrite Hres.
  apply filter_updated_rows.
  - intros r W. apply HQ. eapply own_task_owned, W.
  - intros r r' W E. apply HQ. apply own_task_owned in W.
    unfold update_set in E.
    destruct title, description, priority, status; try discriminate.
    inversion E; subst r'. exact W.
Qed.

Lemma spTaskDelete_keeps (Q : task_row -> bool) (idAccount idUser idTask : Z)
    (s : session) :
  trancount s = O ->
  (forall r, owned_by idAccount idUser r = true -> Q r = false) ->
  filter Q (task (tables (snd (spTaskDelete idAccount idUser idTask s))))
  = filter Q (task (tables s)).
Proof.
  intros Hopen HQ.
  destruct (spTaskDelete_outcome idAccount idUser idTask s Hopen)
    as [_ [_ [_ [_ [_ Hout]]]]].
  destruct (fst (spTaskDelete idAccount idUser idTask s)) as [out|e];
    [|rewrite Hout; reflexivity].
  destruct Hout as [_ [_ Hres]]. apply update_result_rows in Hres. rewrite Hres.
  apply filter_updated_rows.
  - intros r W. apply HQ. eapply own_task_owned, W.
  - intros r r' W E. apply HQ. apply own_task_owned in W.
    inversion E; subst r'. exact W.
Qed.

(** X8.  A Create, an Update or a Delete of the pair (idAccount, idUser)
    touches no row of another pair: the rows that are not of the pair are
    after the call what they were before it, in the same order. *)
Theorem writes_touch_own_rows_only (idAccount idUser : Z) (s : session) :
  trancount s = O ->
  let others := filter (fun r => negb (owned_by idAccount idUser r)) in
  (forall title description priority dueDate,
      others (task (tables (snd (spTaskCreate idAccount idUser title description
                                   priority dueDate s))))
      = others (task (tables s)))
  /\ (forall idTask title description priority dueDate status,
         others (task (tables (snd (spTaskUpdate idAccount idUser idTask title
                                      description priority dueDate status s))))
         = others (task (tables s)))
  /\ (forall idTask,
         others (task (tables (snd (spTaskDelete idAccount idUser idTask s))))
         = others (task (tables s))).
Proof.
  intros Hopen others. subst others.
  assert (HQ : forall r, owned_by idAccount idUser r = true ->
                         negb (owned_by idAccount idUser r) = false)
    by (intros r ->; reflexivity).
  split; [|split].
  - intros title description priority dueDate.
    apply spTaskCreate_keeps; assumption.
  - intros idTask title description priority dueDate status.
    apply spTaskUpdate_keeps; assumption.
  - intros idTask. apply spTaskDelete_keeps; assumption.
Qed.

(** The theorem on the fixture: user 1 deletes task 3, and the task of
    user 2 is what it was. *)
Lemma writes_touch_own_rows_only_on_fixture :
  trancount fixture = O
  /\ filter (fun r => negb (owned_by 1 1 r))
       (task (tables (snd (spTaskDelete 1 1 3 fixture))))
     = [mkTask 5 1 2 "Buy milk" "" 1 (Some 110) 0 8640000005 8640000005 false].
Proof.
  split; [reflexivity|].
  destruct (writes_touch_own_rows_only 1 1 fixture eq_refl) as [_ [_ Hdelete]].
  rewrite (Hdelete 3). reflexivity.
Defined.

Lemma existsb_filter_implied {A : Type} (P O : A -> bool) (l : list A) :
  (forall x, P x = true -> O x = true) ->
  existsb P (filter O l) = existsb P l.
Proof.
  intros H. induction l as [|x rest IH]; cbn [filter existsb]; [reflexivity|].
  destruct (O x) eqn:E; cbn [existsb]; rewrite IH; [reflexivity|].
  destruct (P x) eqn:Px; [|reflexivity].
  rewrite (H x Px) in E. discriminate E.
Qed.

Lemma filter_filter_implied {A : Type} (P O : A -> bool) (l : list A) :
  (forall x, P x = true -> O x = true) ->
  filter P (filter O l) = filter P l.
Proof.
  intros H. induction l as [|x rest IH]; cbn [filter]; [reflexivity|].
  destruct (O x) eqn:E; cbn [filter]; rewrite IH; [reflexivity|].
  destruct (P x) eqn:Px; [|reflexivity].
  rewrite (H x Px) in E. discriminate E.
Qed.

Lemma spTaskList_where_owned (idAccount idUser : Z) (status priority : option Z)
    (r : task_row) :
  spTaskList_where idAccount idUser status priority r = true ->
  owned_by idAccount idUser r = true.
Proof.
  unfold spTaskList_where, owned_by. intros H.
  do 3 (apply andb_prop in H; destruct H as [H _]). exact H.
Qed.

(** What Get and List return depends on the accounts, the users and the
    rows of the pair alone. *)
Lemma reads_depend_on_own_rows (idAccount idUser : Z) (s s' : session) :
  account (tables s') = account (tables s) ->
  user (tables s') = user (tables s) ->
  filter (owned_by idAccount idUser) (task (tables s'))
  = filter (owned_by idAccount idUser) (task (tables s)) ->
  (forall idTask,
      fst (spTaskGet idAccount idUser idTask s')
      = fst (spTaskGet idAccount idUser idTask s))
  /\ (forall status priority,
         fst (spTaskList idAccount idUser status priority s')
         = fst (spTaskList idAccount idUser status priority s)).
Proof.
  intros Ha Hu Hrows. split.
  - intros idTask. rewrite !spTaskGet_run.
    unfold account_exists, user_exists. rewrite Ha, Hu.
    rewrite <- (existsb_filter_implied (own_task idTask idAccount idUser)
                  (owned_by idAccount idUser) (task (tables s')))
      by apply own_task_owned.
    rewrite <- (existsb_filter_implied (own_task idTask idAccount idUser)
                  (owned_by idAccount idUser) (task (tables s)))
      by apply own_task_owned.
    rewrite <- (filter_filter_implied (own_task idTask idAccount idUser)
                  (owned_by idAccount idUser) (task (tables s')))
      by apply own_task_owned.
    rewrite <- (filter_filter_implied (own_task idTask idAccount idUser)
                  (owned_by idAccount idUser) (task (tables s)))
      by apply own_task_owned.
    rewrite Hrows.
    repeat match goal with
           | |- context [if negb ?c then _ else _] => destruct c; cbn [negb]
           end; reflexivity.
  - intros status priority. rewrite !spTaskList_run.
    unfold account_exists, user_exists. rewrite Ha, Hu.
    rewrite <- (filter_filter_implied
                  (spTaskList_where idAccount idUser status priority)
                  (owned_by idAccount idUser) (task (tables s')))
      by apply spTaskList_where_owned.
    rewrite <- (filter_filter_implied
                  (spTaskList_where idAccount idUser status priority)
                  (owned_by idAccount idUser) (task (tables s)))
      by apply spTaskList_where_owned.
    rewrite Hrows.
    repeat match goal with
           | |- context [if negb ?c then _ else _] => destruct c; cbn [negb]
           end; reflexivity.
Qed.

Lemma other_pair (a u a' u' : Z) (r : task_row) :
  (a', u') <> (a, u) -> owned_by a' u' r = true -> owned_by a u r = false.
Proof.
  unfold owned_by. intros Hne H.
  apply andb_prop in H. destruct H as [Ha Hu]. apply Z.eqb_eq in Ha, Hu.
  destruct (tsk_idAccount r =? a) eqn:Ea; [|reflexivity].
  destruct (tsk_idUser r =? u) eqn:Eu; [|reflexivity].
  apply Z.eqb_eq in Ea, Eu. exfalso. apply Hne. congruence.
Qed.

(** X9.  What Get and List return to the pair (idAccount, idUser) is
    changed by no Create, Update or Delete of another pair: the same call
    gives the same records or the same error before and after it. *)
Theorem reads_ignore_other_pairs (idAccount idUser writer_idAccount writer_idUser : Z)
    (s : session) :
  trancount s = O ->
  (writer_idAccount, writer_idUser) <> (idAccount, idUser) ->
  forall s',
    (exists title description priority dueDate,
        s' = snd (spTaskCreate writer_idAccount writer_idUser title description
                    priority dueDate s))
    \/ (exists idTask title description priority dueDate status,
           s' = snd (spTaskUpdate writer_idAccount writer_idUser idTask title
                       description priority dueDate status s))
    \/ (exists idTask, s' = snd (spTaskDelete writer_idAccount writer_idUser idTask s)) ->
    (forall idTask,
        fst (spTaskGet idAccount idUser idTask s')
        = fst (spTaskGet idAccount idUser idTask s))
    /\ (forall status priority,
           fst (spTaskList idAccount idUser status priority s')
           = fst (spTaskList idAccount idUser status priority s)).
Proof.
  intros Hopen Hne s' Hwrite.
  assert (HQ : forall r, owned_by writer_idAccount writer_idUser r = true ->
                         owned_by idAccount idUser r = false)
    by (intros r; apply other_pair; exact Hne).
  destruct Hwrite as [[title [description [priority [dueDate ->]]]]
                     |[[idTask [title [description [priority [dueDate [status ->]]]]]]
                      |[idTask ->]]].
  - destruct (spTaskCreate_outcome writer_idAccount writer_idUser title description
                priority dueDate s Hopen) as [_ [_ [Ha [Hu _]]]].
    apply reads_depend_on_own_rows; [exact Ha|exact Hu|].
    apply spTaskCreate_keeps; assumption.
  - destruct (spTaskUpdate_outcome writer_idAccount writer_idUser idTask title
                description priority dueDate status s Hopen)
      as [_ [_ [_ [Ha [Hu _]]]]].
    apply reads_depend_on_own_rows; [exact Ha|exact Hu|].
    apply spTaskUpdate_keeps; assumption.
  - destruct (spTaskDelete_outcome writer_idAccount writer_idUser idTask s Hopen)
      as [_ [_ [_ [Ha [Hu _]]]]].
    apply reads_depend_on_own_rows; [exact Ha|exact Hu|].
    apply spTaskDelete_keeps; assumption.
Qed.

(** The theorem on the fixture: user 2 deletes task 5, and the list of
    user 1 is what it was. *)
Lemma reads_ignore_other_pairs_on_fixture :
  trancount fixture = O
  /\ (1, 2) <> (1, 1)
  /\ fst (spTaskList 1 1 None None (snd (spTaskDelete 1 2 5 fixture)))
     = fst (spTaskList 1 1 None None fixture).
Proof.
  split; [reflexivity|]. split; [discriminate|].
  apply (reads_ignore_other_pairs 1 1 1 2 fixture eq_refl);
    [discriminate|]. right. right. exists 5. reflexivity.
Defined.

(** ** Rows are kept *)

Lemma keeps_rows_refl (s s' : session) :
  task (tables s') = task (tables s) -> keeps_rows s s'.
Proof.
  intros H. unfold keeps_rows. rewrite H. split.
  - exists []. symmetry. apply app_nil_r.
  - intros i r Hi _. exact Hi.
Qed.

Lemma keeps_rows_updated (SET : task_row -> option task_row)
    (idTask idAccount idUser : Z) (s s' : session) :
  (forall r r', SET r = Some r' -> identity r' = identity r) ->
  task (tables s')
  = updated_rows SET (own_task idTask idAccount idUser) (task (tables s)) ->
  keeps_rows s s'.
Proof.
  intros Hset H. unfold keeps_rows. rewrite H. unfold updated_rows. split.
  - exists []. rewrite app_nil_r, map_map. apply map_ext. intros r.
    destruct (own_task idTask idAccount idUser r); [|reflexivity].
    destruct (SET r) as [r'|] eqn:E; [|reflexivity]. apply (Hset r r' E).
  - intros i r Hi Hdel. rewrite nth_error_map, Hi. cbn [option_map].
    destruct (own_task idTask idAccount idUser r) eqn:W; [|reflexivity].
    apply own_task_owner in W. destruct W as [_ [_ [_ W]]]. congruence.
Qed.

(** X10.  No Create, Update or Delete removes a row or changes the idTask,
    the idAccount, the idUser or the dateCreated of a row, and none changes
    a row that is deleted: a deleted task stays deleted, with the values it
    had when it was deleted. *)
Theorem writes_keep_rows (s : session) :
  trancount s = O ->
  (forall idAccount idUser title description priority dueDate,
      keeps_rows s (snd (spTaskCreate idAccount idUser title description priority
                           dueDate s)))
  /\ (forall idAccount idUser idTask title description priority dueDate status,
         keeps_rows s (snd (spTaskUpdate idAccount idUser idTask title description
                              priority dueDate status s)))
  /\ (forall idAccount idUser idTask,
         keeps_rows s (snd (spTaskDelete idAccount idUser idTask s))).
Proof.
  intros Hopen. split; [|split].
  - intros idAccount idUser title description priority dueDate.
    destruct (spTaskCreate_outcome idAccount idUser title description priority
                dueDate s Hopen) as [_ [_ [_ [_ Hout]]]].
    destruct (fst (spTaskCreate idAccount idUser title description priority
                     dueDate s)) as [out|e]; [|apply keeps_rows_refl, Hout].
    destruct Hout as [r [_ [_ [_ Hrows]]]]. unfold keeps_rows. rewrite Hrows. split.
    + exists [identity r]. apply map_app.
    + intros i x Hi _. rewrite nth_error_app1; [exact Hi|].
      apply nth_error_Some. congruence.
  - intros idAccount idUser idTask title description priority dueDate status.
    destruct (spTaskUpdate_outcome idAccount idUser idTask title description
                priority dueDate status s Hopen) as [_ [_ [_ [_ [_ Hout]]]]].
    destruct (fst (spTaskUpdate idAccount idUser idTask title description priority
                     dueDate status s)) as [out|e]; [|apply keeps_rows_refl, Hout].
    destruct Hout as [_ [_ Hres]]. apply update_result_rows in Hres.
    apply (keeps_rows_updated _ idTask idAccount idUser s _ ) in Hres; [exact Hres|].
    intros r r' E. unfold update_set in E.
    destruct title, description, priority, status; try discriminate.
    inversion E. reflexivity.
  - intros idAccount idUser idTask.
    destruct (spTaskDelete_outcome idAccount idUser idTask s Hopen)
      as [_ [_ [_ [_ [_ Hout]]]]].
    destruct (fst (spTaskDelete idAccount idUser idTask s)) as [out|e];
      [|apply keeps_rows_refl, Hout].
    destruct Hout as [_ [_ Hres]]. apply update_result_rows in Hres.
    apply (keeps_rows_updated _ idTask idAccount idUser s _ ) in Hres; [exact Hres|].
    intros r r' E. inversion E. reflexivity.
Qed.

(** The theorem on the fixture without task 3: an Update of task 3 leaves
    the deleted row at its place. *)
Lemma writes_keep_rows_on_fixture :
  trancount fixture_without_3 = O
  /\ nth_error
       (task (tables (snd (spTaskUpdate 1 1 3 (Some "Buy bread") (Some "") (Some 1)
                             None (Some 0) fixture_without_3)))) 2
     = nth_error (task (tables fixture_without_3)) 2.
Proof.
  split; [reflexivity|].
  destruct (writes_keep_rows fixture_without_3 eq_refl) as [_ [Hupdate _]].
  destruct (Hupdate 1 1 3 (Some "Buy bread") (Some "") (Some 1) None (Some 0))
    as [_ Hkept].
  apply (Hkept 2%nat
           (mkTask 3 1 1 "Buy milk" "" 1 (Some 110) 0 8640000003 8640000006 true));
    reflexivity.
Defined.

(** ** Round trips through the facade *)

Lemma filter_own_fresh (idAccount idUser n : Z) (l : list task_row) :
  Forall (fun r => tsk_idTask r <= n) l ->
  filter (own_task (n + 1) idAccount idUser) l = [].
Proof.
  induction 1 as [|x rest Hx _ IH]; cbn [filter]; [reflexivity|].
  rewrite IH. unfold own_task.
  replace (tsk_idTask x =? n + 1) with false; [reflexivity|].
  symmetry. apply Z.eqb_neq. lia.
Qed.

Lemma existsb_filter {A : Type} (P : A -> bool) (l : list A) :
  existsb P l = true -> exists x rest, filter P l = x :: rest /\ P x = true.
Proof.
  induction l as [|y l IH]; cbn [existsb filter]; [discriminate|].
  destruct (P y) eqn:E.
  - intros _. exists y, (filter P l). split; [reflexivity|exact E].
  - cbn [orb]. exact IH.
Qed.

Lemma filter_own_updated (SET : task_row -> option task_row)
    (WHERE : task_row -> bool) (l : list task_row) :
  (forall r r', WHERE r = true -> SET r = Some r' -> WHERE r' = true) ->
  filter WHERE (updated_rows SET WHERE l)
  = map (fun r => match SET r with Some r' => r' | None => r end) (filter WHERE l).
Proof.
  intros H. unfold updated_rows.
  induction l as [|x rest IH]; cbn [map filter]; [reflexivity|].
  rewrite IH. destruct (WHERE x) eqn:W; [|rewrite W; reflexivity].
  destruct (SET x) as [x'|] eqn:E.
  - rewrite (H x x' W E). cbn [map]. rewrite E. reflexivity.
  - rewrite W. cbn [map]. rewrite E. reflexivity.
Qed.

(** Of the milliseconds of a day, the last one alone rounds to the next
    day. *)
Lemma last_millisecond (ms : Z) :
  0 <= ms < ms_per_day ->
  (25920000 <=? threeHundredths ms) = (ms =? 86399999).
Proof.
  unfold ms_per_day, threeHundredths. intros Hms.
  apply Bool.eq_true_iff_eq. rewrite Z.leb_le, Z.eqb_eq. split.
  - intros H. pose proof (Z.mul_div_le (3 * ms + 5) 10 eq_refl). lia.
  - intros ->. discriminate.
Qed.

Lemma DATETIME_day_rounds (t : Z) :
  DATETIME_day t
  = if t mod ms_per_day =? 86399999 then t / ms_per_day + 1 else t / ms_per_day.
Proof.
  unfold DATETIME_day. rewrite last_millisecond; [reflexivity|].
  apply Z.mod_pos_bound. reflexivity.
Qed.

(** X11.  A task that the facade created is the task that Get returns for
    the returned idTask: the first 100 characters of the title, the first
    500 of the description or the empty string, the priority or 1, the day
    of the dueDate or NULL, status 0, and both dates the time of the
    Create.  The day of a dueDate is its UTC day, but for a dueDate in the
    last millisecond of a day, 23:59:59.999, which is stored as the next
    day.  The new idTask is taken to fit INTEGER. *)
Theorem taskCreate_then_taskGet (params : TaskCreateRequest) (s s1 s2 : session)
    (created : option record) :
  sound s ->
  INTEGER (ident s + 1) = true ->
  taskCreate params s = (Done created, s1) ->
  tables s2 = tables s1 ->
  created = Some [("idTask", VInt (ident s + 1))]
  /\ fst (taskGet (mkGetRequest (cr_idAccount params) (cr_idUser params)
                     (ident s + 1)) s2)
     = Done (Some
         [ ("idTask", VInt (ident s + 1));
           ("title", VStr (NVARCHAR 100 (cr_title params)));
           ("description", VStr (NVARCHAR 500 (or_empty (cr_description params))));
           ("priority", VInt (match cr_priority params with
                              | Some p => p
                              | None => 1
                              end));
           ("dueDate", match cr_dueDate params with
                       | Some t =>
                           VDate (if t mod ms_per_day =? 86399999
                                  then t / ms_per_day + 1
                                  else t / ms_per_day)
                       | None => VNull
                       end);
           ("status", VInt 0);
           ("dateCreated", VDateTime (clock s));
           ("dateModified", VDateTime (clock s)) ]).
Proof.
  intros [Hopen [[_ Hids] _]] Hident Hcreate Hsame.
  unfold taskCreate in Hcreate. rewrite first_record_run, input_run in Hcreate.
  destruct (create_fits params) eqn:Hfits; [|discriminate Hcreate].
  unfold execute_spTaskCreate in Hcreate. cbn [option_map] in Hcreate.
  match type of Hcreate with
  | context [spTaskCreate ?a ?u ?t ?d ?p ?due s] =>
      destruct (spTaskCreate_outcome a u t d p due s Hopen)
        as [_ [_ [Hacc [Husr Hout]]]];
      destruct (fst (spTaskCreate a u t d p due s)) as [out|e] eqn:Hrun;
        [|discriminate Hcreate]
  end.
  injection Hcreate as Hcreated Hs1.
  destruct Hout as [r [Hins [Hchecks [Hrecord Hrows]]]].
  apply create_insert_row in Hins.
  destruct Hins as [t [d [p [Ht [Hd [Hp [Hr _]]]]]]].
  injection Ht as <-. injection Hd as <-. injection Hp as <-.
  apply first_violation_create_none in Hchecks.
  destruct Hchecks as [_ [_ [_ [_ [_ [Ha [Hu _]]]]]]].
  split.
  - rewrite <- Hcreated, Hrecord, Hr. reflexivity.
  - unfold taskGet. rewrite first_record_run, input_run.
    assert (Hget : task_fits (mkGetRequest (cr_idAccount params) (cr_idUser params)
                                (ident s + 1)) = true).
    { unfold create_fits in Hfits. unfold task_fits. cbn [gr_idAccount gr_idUser
        gr_idTask].
      do 2 (apply andb_prop in Hfits; destruct Hfits as [Hfits _]).
      rewrite Hfits, Hident. reflexivity. }
    rewrite Hget. cbn [gr_idAccount gr_idUser gr_idTask].
    rewrite spTaskGet_run, Hsame, <- Hs1.
    unfold account_exists, user_exists in *. rewrite Hacc, Husr, Ha, Hu, Hrows.
    cbn [negb]. rewrite existsb_app, filter_app, (filter_own_fresh _ _ _ _ Hids).
    assert (Hnew : own_task (ident s + 1) (cr_idAccount params) (cr_idUser params) r
                   = true).
    { rewrite Hr. unfold own_task. cbn. rewrite !Z.eqb_refl. reflexivity. }
    cbn [existsb filter]. rewrite Hnew, orb_true_r. cbn [negb fst app map nth_error].
    rewrite Hr. destruct (cr_dueDate params) as [t|]; [|reflexivity].
    cbn [input_date option_map]. rewrite DATETIME_day_rounds. reflexivity.
Qed.

(** The round trip on the fixture: Create(title = Buy bread, priority = 2)
    with a dueDate in the last millisecond of day 100, then Get: the
    dueDate is day 101. *)
Lemma taskCreate_then_taskGet_on_fixture :
  sound fixture
  /\ INTEGER (ident fixture + 1) = true
  /\ fst (taskGet (mkGetRequest 1 1 6)
            (snd (taskCreate
                    (mkCreateRequest 1 1 "Buy bread" None (Some 2)
                       (Some 8726399999)) fixture)))
     = Done (Some [ ("idTask", VInt 6); ("title", VStr "Buy bread");
                    ("description", VStr ""); ("priority", VInt 2);
                    ("dueDate", VDate 101); ("status", VInt 0);
                    ("dateCreated", VDateTime 8640000006);
                    ("dateModified", VDateTime 8640000006) ]).
Proof.
  split; [exact fixture_sound|]. split; [reflexivity|].
  apply (taskCreate_then_taskGet
           (mkCreateRequest 1 1 "Buy bread" None (Some 2) (Some 8726399999)) fixture
           (snd (taskCreate
                   (mkCreateRequest 1 1 "Buy bread" None (Some 2) (Some 8726399999))
                   fixture))
           (snd (taskCreate
                   (mkCreateRequest 1 1 "Buy bread" None (Some 2) (Some 8726399999))
                   fixture))
           (Some [("idTask", VInt 6)]) fixture_sound);
    reflexivity.
Defined.

(** X12.  After an Update through the facade, Get returns the task with the
    title, description, priority, dueDate and status of the request (the
    title and the description cut to 100 and 500 characters), the
    dateCreated that Get returned before the Update, and the time of the
    Update as dateModified.  The day of a dueDate is its UTC day, but for a
    dueDate in the last millisecond of a day, 23:59:59.999, which is stored
    as the next day. *)
Theorem taskUpdate_then_taskGet (params : TaskUpdateRequest) (s s1 s2 : session)
    (updated : option record) :
  trancount s = O ->
  taskUpdate params s = (Done updated, s1) ->
  tables s2 = tables s1 ->
  let get := taskGet (mkGetRequest (ur_idAccount params) (ur_idUser params)
                        (ur_idTask params)) in
  updated = Some [("idTask", VInt (ur_idTask params))]
  /\ exists old,
       fst (get s) = Done (Some old)
       /\ fst (get s2)
          = Done (Some
              [ ("idTask", VInt (ur_idTask params));
                ("title", VStr (NVARCHAR 100 (ur_title params)));
                ("description",
                 VStr (NVARCHAR 500 (or_empty (ur_description params))));
                ("priority", VInt (ur_priority params));
                ("dueDate", match ur_dueDate params with
                            | Some t =>
                                VDate (if t mod ms_per_day =? 86399999
                                       then t / ms_per_day + 1
                                       else t / ms_per_day)
                            | None => VNull
                            end);
                ("status", VInt (ur_status params));
                ("dateCreated", field "dateCreated" old);
                ("dateModified", VDateTime (clock s)) ]).
Proof.
  intros Hopen Hupdate Hsame get. subst get.
  unfold taskUpdate in Hupdate. rewrite first_record_run, input_run in Hupdate.
  destruct (update_fits params) eqn:Hfits; [|discriminate Hupdate].
  assert (Hget : task_fits (mkGetRequest (ur_idAccount params) (ur_idUser params)
                              (ur_idTask params)) = true).
  { unfold update_fits in Hfits. unfold task_fits.
    do 3 (apply andb_prop in Hfits; destruct Hfits as [Hfits _]). exact Hfits. }
  unfold execute_spTaskUpdate in Hupdate. cbn [option_map] in Hupdate.
  match type of Hupdate with
  | context [spTaskUpdate ?a ?u ?i ?t ?d ?p ?due ?st s] =>
      destruct (spTaskUpdate_outcome a u i t d p due st s Hopen)
        as [_ [_ [_ [Hacc [Husr Hout]]]]];
      destruct (fst (spTaskUpdate a u i t d p due st s)) as [out|e] eqn:Hrun;
        [|discriminate Hupdate]
  end.
  injection Hupdate as Hupdated Hs1.
  destruct Hout as [Hchecks [Hrecord Hres]].
  apply update_result_rows in Hres.
  apply first_violation_update_none in Hchecks.
  destruct Hchecks as [_ [_ [_ [_ [_ [_ [Ha [Hu [Hown _]]]]]]]]].
  split; [rewrite <- Hupdated, Hrecord; reflexivity|].
  destruct (existsb_filter _ _ Hown) as [r0 [rest [Hfilter Hr0]]].
  exists (project task_columns r0).
  unfold taskGet. rewrite !first_record_run, !input_run, Hget.
  cbn [gr_idAccount gr_idUser gr_idTask].
  rewrite !spTaskGet_run, Hsame, <- Hs1.
  unfold account_exists, user_exists in *. rewrite Hacc, Husr, Ha, Hu, Hres.
  cbn [negb]. rewrite Hown. cbn [negb fst].
  assert (Hkeep : forall r r',
             own_task (ur_idTask params) (ur_idAccount params) (ur_idUser params) r
             = true ->
             update_set (Some (NVARCHAR 100 (ur_title params)))
               (Some (NVARCHAR 500 (or_empty (ur_description params))))
               (Some (ur_priority params)) (input_date (ur_dueDate params))
               (Some (ur_status params)) (clock s) r = Some r' ->
             own_task (ur_idTask params) (ur_idAccount params) (ur_idUser params) r'
             = true).
  { intros r r' W E. inversion E. exact W. }
  rewrite <- (existsb_filter_implied
                (own_task (ur_idTask params) (ur_idAccount params)
                   (ur_idUser params))
                (own_task (ur_idTask params) (ur_idAccount params)
                   (ur_idUser params))
                (updated_rows _ _ _)) by (intros x Hx; exact Hx).
  rewrite (filter_own_updated _ _ _ Hkeep), Hfilter.
  pose proof (Hkeep r0 _ Hr0 eq_refl) as Hr1.
  cbn [map existsb update_set]. rewrite Hr1.
  cbn [orb negb fst map nth_error]. split; [reflexivity|].
  apply own_task_owner in Hr0. destruct Hr0 as [Hid _].
  destruct (ur_dueDate params) as [t|]; cbn [input_date option_map];
    rewrite <- ?DATETIME_day_rounds; cbn; rewrite Hid; reflexivity.
Qed.

(** The round trip on the fixture: task 3 becomes Buy bread, completed. *)
Lemma taskUpdate_then_taskGet_on_fixture :
  trancount fixture = O
  /\ fst (taskGet (mkGetRequest 1 1 3)
            (snd (taskUpdate (mkUpdateRequest 1 1 3 "Buy bread" None 2 None 1)
                    (at_time 8640000099 fixture))))
     = Done (Some [ ("idTask", VInt 3); ("title", VStr "Buy bread");
                    ("description", VStr ""); ("priority", VInt 2);
                    ("dueDate", VNull); ("status", VInt 1);
                    ("dateCreated", VDateTime 8640000003);
                    ("dateModified", VDateTime 8640000099) ]).
Proof.
  split; [reflexivity|].
  destruct (taskUpdate_then_taskGet
              (mkUpdateRequest 1 1 3 "Buy bread" None 2 None 1)
              (at_time 8640000099 fixture)
              (snd (taskUpdate (mkUpdateRequest 1 1 3 "Buy bread" None 2 None 1)
                      (at_time 8640000099 fixture)))
              (snd (taskUpdate (mkUpdateRequest 1 1 3 "Buy bread" None 2 None 1)
                      (at_time 8640000099 fixture)))
              (Some [("idTask", VInt 3)])
              eq_refl eq_refl eq_refl) as [_ [old [Hold Hnew]]].
  cbv in Hold. injection Hold as <-. exact Hnew.
Defined.

Lemma field_idTask (r : task_row) :
  field "idTask" (project task_columns r) = VInt (tsk_idTask r).
Proof. reflexivity. Qed.

(** X13.  After a Delete through the facade, Get of the task fails with
    taskDoesntExist and no List of the pair returns it, whatever the
    filters; the table has as many rows as before, and the row of the task
    is among them, marked as deleted at the time of the Delete. *)
Theorem taskDelete_then_read (params : TaskGetRequest) (s s1 s2 : session)
    (deleted : option record) :
  trancount s = O ->
  taskDelete params s = (Done deleted, s1) ->
  tables s2 = tables s1 ->
  deleted = Some [("idTask", VInt (gr_idTask params))]
  /\ fst (taskGet params s2) = Raised (violation taskDoesntExist)
  /\ (forall status priority records,
         fst (taskList (mkListRequest (gr_idAccount params) (gr_idUser params)
                          status priority) s2) = Done records ->
         Forall (fun r => field "idTask" r <> VInt (gr_idTask params)) records)
  /\ List.length (task (tables s2)) = List.length (task (tables s))
  /\ exists r, In r (task (tables s2))
               /\ tsk_idTask r = gr_idTask params
               /\ tsk_deleted r = true
               /\ tsk_dateModified r = clock s.
Proof.
  intros Hopen Hdelete Hsame.
  unfold taskDelete in Hdelete. rewrite first_record_run, input_run in Hdelete.
  destruct (task_fits params) eqn:Hfits; [|discriminate Hdelete].
  destruct (spTaskDelete_outcome (gr_idAccount params) (gr_idUser params)
              (gr_idTask params) s Hopen) as [_ [_ [_ [Hacc [Husr Hout]]]]].
  destruct (fst (spTaskDelete (gr_idAccount params) (gr_idUser params)
                   (gr_idTask params) s)) as [out|e] eqn:Hrun;
    [|discriminate Hdelete].
  injection Hdelete as Hdeleted Hs1.
  destruct Hout as [Hchecks [Hrecord Hres]].
  apply update_result_rows in Hres.
  unfold task_checks, first_violation in Hchecks. cbn [find] in Hchecks.
  destruct (account_exists (gr_idAccount params) (tables s)) eqn:Ha;
    cbn [negb fst] in Hchecks; [|discriminate Hchecks].
  destruct (user_exists (gr_idUser params) (gr_idAccount params) (tables s)) eqn:Hu;
    cbn [negb fst] in Hchecks; [|discriminate Hchecks].
  destruct (existsb (own_task (gr_idTask params) (gr_idAccount params)
                       (gr_idUser params)) (task (tables s))) eqn:Hown;
    cbn [negb fst] in Hchecks; [|discriminate Hchecks].
  assert (Hhidden : existsb (own_task (gr_idTask params) (gr_idAccount params)
                               (gr_idUser params)) (task (tables s2)) = false).
  { rewrite Hsame, <- Hs1, Hres. apply deleted_rows_hidden. }
  assert (Ha2 : account_exists (gr_idAccount params) (tables s2) = true).
  { unfold account_exists in *. rewrite Hsame, <- Hs1, Hacc. exact Ha. }
  assert (Hu2 : user_exists (gr_idUser params) (gr_idAccount params) (tables s2)
                = true).
  { unfold user_exists in *. rewrite Hsame, <- Hs1, Husr. exact Hu. }
  split; [rewrite <- Hdeleted, Hrecord; reflexivity|]. split; [|split; [|split]].
  - unfold taskGet.
    rewrite first_record_run, input_run, Hfits, spTaskGet_run, Ha2, Hu2, Hhidden.
    reflexivity.
  - intros status priority records. unfold taskList.
    cbn [lr_idAccount lr_idUser lr_status lr_priority]. rewrite input_run.
    destruct (list_fits _); cbn [fst]; [|discriminate].
    rewrite spTaskList_run, Ha2, Hu2. cbn [negb].
    destruct (within 0 1 status); cbn [negb fst]; [|discriminate].
    destruct (within 0 2 priority); cbn [negb fst]; [|discriminate].
    intros H. injection H as <-.
    apply Forall_forall. intros rec Hin. apply in_map_iff in Hin.
    destruct Hin as [x [<- Hx]]. rewrite field_idTask. intros Heq.
    injection Heq as Hid.
    apply (Permutation_in _ (Permutation_sym (ORDER_BY_perm _ _))) in Hx.
    apply filter_In in Hx. destruct Hx as [Hx Hwhere].
    unfold spTaskList_where in Hwhere.
    do 2 (apply andb_prop in Hwhere; destruct Hwhere as [Hwhere _]).
    apply andb_prop in Hwhere. destruct Hwhere as [Hpair Hlive].
    apply andb_prop in Hpair. destruct Hpair as [Hp1 Hp2].
    assert (Hfound : existsb (own_task (gr_idTask params) (gr_idAccount params)
                                (gr_idUser params)) (task (tables s2)) = true).
    { apply existsb_exists. exists x. split; [exact Hx|].
      unfold own_task. rewrite Hid, Z.eqb_refl, Hp1, Hp2, Hlive. reflexivity. }
    congruence.
  - rewrite Hsame, <- Hs1, Hres. unfold updated_rows. apply length_map.
  - apply existsb_exists in Hown. destruct Hown as [r0 [Hin Hr0]].
    exists (mkTask (tsk_idTask r0) (tsk_idAccount r0) (tsk_idUser r0)
              (tsk_title r0) (tsk_description r0) (tsk_priority r0)
              (tsk_dueDate r0) (tsk_status r0) (tsk_dateCreated r0) (clock s) true).
    split; [|split; [|split; reflexivity]].
    + rewrite Hsame, <- Hs1, Hres. unfold updated_rows. apply in_map_iff.
      exists r0. split; [|exact Hin]. rewrite Hr0. reflexivity.
    + apply own_task_owner in Hr0. cbn. apply Hr0.
Qed.

(** The theorem on the fixture: task 3 after its Delete. *)
Lemma taskDelete_then_read_on_fixture :
  trancount fixture = O
  /\ fst (taskGet (mkGetRequest 1 1 3) fixture_without_3)
     = Raised (violation taskDoesntExist)
  /\ List.length (task (tables fixture_without_3)) = 5%nat.
Proof.
  split; [reflexivity|].
  destruct (taskDelete_then_read (mkGetRequest 1 1 3) fixture fixture_without_3
              fixture_without_3 (Some [("idTask", VInt 3)])
              eq_refl eq_refl eq_refl)
    as [_ [Hget [_ [Hlength _]]]].
  split; [exact Hget|exact Hlength].
Defined.

(** ** The rule violations that reach a client *)

Lemma kind_name_inj (k k' : error_kind) : kind_name k = kind_name k' -> k = k'.
Proof. destruct k, k'; intros H; try reflexivity; discriminate H. Qed.

Lemma violation_inj (k k' : error_kind) : violation k = violation k' -> k = k'.
Proof. intros H. injection H as H. apply kind_name_inj, H. Qed.

Lemma Raised_violation_inj {A : Type} (k k' : error_kind) :
  @Raised A (violation k) = Raised (violation k') -> k = k'.
Proof. intros H. apply violation_inj. congruence. Qed.

Lemma catch_block_kind (st st' : Z) (error : js_error) (k : error_kind) :
  catch_block st error = Responded (mkResponse st' (Failure (kind_name k) None [])) ->
  error = RequestError (violation k).
Proof.
  destruct error as [issues|e]; cbn [catch_block]; [discriminate|].
  destruct (number e =? 51000) eqn:E; [|discriminate].
  intros H. injection H as _ H. apply Z.eqb_eq in E.
  destruct e as [n m]. cbn in *. subst. reflexivity.
Qed.

Lemma respond_kind {A : Type} (call : proc A) (ok st st' : Z) (wrap : A -> data)
    (s s' : session) (k : error_kind) :
  respond call ok wrap (catch_block st) s
  = (Responded (mkResponse st' (Failure (kind_name k) None [])), s') ->
  fst (call s) = Raised (violation k).
Proof.
  unfold respond. destruct (call s) as [[a|e] s1]; intros H; [discriminate H|].
  apply (f_equal fst) in H. cbn [fst] in H.
  apply (catch_block_kind st st' (RequestError e) k) in H.
  injection H as ->. reflexivity.
Qed.

Ltac violated :=
  repeat match goal with
         | |- context [if negb ?c then _ else _] =>
             destruct c; cbn [negb];
             [|let H := fresh in
               intros H; cbn [fst] in H; apply Raised_violation_inj in H;
               rewrite <- H; reflexivity]
         end.

(** When a procedure raises the tagged error of a kind, the check of that
    kind is the first one that is violated. *)
Lemma spTaskCreate_kind (idAccount idUser : Z)
    (title description : option string) (priority dueDate : option Z)
    (s : session) (k : error_kind) :
  fst (spTaskCreate idAccount idUser title description priority dueDate s)
  = Raised (violation k) ->
  first_violation
    (create_checks idAccount idUser title description priority dueDate s) = Some k.
Proof.
  rewrite spTaskCreate_checks. unfold create_checks, first_violation. violated.
  destruct (create_transaction _ _ _ _ _ _ _) as [[out|e] s'] eqn:E; cbn [fst];
    intros H; [discriminate H|].
  injection H as ->. apply create_transaction_raises in E.
  exfalso. apply E. reflexivity.
Qed.

Lemma update_transaction_kind (SET : Z -> task_row -> option task_row)
    (WHERE : task_row -> bool) (idTask : Z) (s : session) (k : error_kind) :
  fst (update_transaction SET WHERE idTask s) <> Raised (violation k).
Proof.
  destruct (update_result (SET (clock s)) WHERE (task (tables s))) as [e|new] eqn:U.
  - pose proof (update_result_number _ _ _ _ U) as Hn.
    apply (update_transaction_fails _ _ idTask) in U. destruct U as [U _].
    rewrite U. intros H. injection H as ->. apply Hn. reflexivity.
  - apply (update_transaction_commits _ _ idTask) in U. destruct U as [U _].
    rewrite U. discriminate.
Qed.

Lemma spTaskUpdate_kind (idAccount idUser idTask : Z)
    (title description : option string) (priority dueDate status : option Z)
    (s : session) (k : error_kind) :
  fst (spTaskUpdate idAccount idUser idTask title description priority dueDate
         status s) = Raised (violation k) ->
  first_violation
    (update_checks idAccount idUser idTask title description priority dueDate
       status s) = Some k.
Proof.
  rewrite spTaskUpdate_checks. unfold update_checks, first_violation. violated.
  intros H. apply update_transaction_kind in H. destruct H.
Qed.

Lemma spTaskDelete_kind (idAccount idUser idTask : Z) (s : session)
    (k : error_kind) :
  fst (spTaskDelete idAccount idUser idTask s) = Raised (violation k) ->
  first_violation (task_checks idAccount idUser idTask s) = Some k.
Proof.
  rewrite spTaskDelete_checks. unfold task_checks, first_violation. violated.
  intros H. apply update_transaction_kind in H. destruct H.
Qed.

Lemma spTaskGet_kind (idAccount idUser idTask : Z) (s : session) (k : error_kind) :
  fst (spTaskGet idAccount idUser idTask s) = Raised (violation k) ->
  first_violation (task_checks idAccount idUser idTask s) = Some k.
Proof.
  rewrite spTaskGet_run. unfold task_checks, first_violation. violated.
  discriminate.
Qed.

Lemma spTaskList_kind (idAccount idUser : Z) (status priority : option Z)
    (s : session) (k : error_kind) :
  fst (spTaskList idAccount idUser status priority s) = Raised (violation k) ->
  first_violation (list_checks idAccount idUser status priority s) = Some k.
Proof.
  rewrite spTaskList_run. unfold list_checks, first_violation. violated.
  discriminate.
Qed.

Lemma first_record_raised (m : proc recordset) (s : session) (e : sql_error) :
  fst ((result <- m ;; ret (nth_error result 0)) s) = Raised e ->
  fst (m s) = Raised e.
Proof.
  rewrite first_record_run. cbn [fst].
  destruct (fst (m s)); [discriminate|]. intros H. injection H as ->. reflexivity.
Qed.

Lemma input_kind {A : Type} (fits : bool) (execute : proc A) (s : session)
    (k : error_kind) :
  fst (input fits execute s) = Raised (violation k) ->
  fst (execute s) = Raised (violation k).
Proof.
  rewrite input_run. destruct fits; [intros H; exact H|].
  cbn [fst]. intros H. discriminate H.
Qed.

Lemma length_within_NVARCHAR (n : nat) (t : string) :
  length_within (Z.of_nat n) (Some (NVARCHAR n t)) = true.
Proof. cbn [length_within]. apply Z.leb_le, LEN_NVARCHAR. Qed.

(** What the schemas leave of the numbers. *)
Lemma createBodySchema_priority (datetime : string -> option Z) (body : jobject)
    (validated : CreateBody) :
  createBodySchema datetime body = inr validated ->
  within 0 2 (Some (match to_option (cb_priority validated) with
                    | Some p => p
                    | None => 1
                    end)) = true.
Proof.
  unfold createBodySchema.
  destruct (zFK (prop "idAccount" body)); [|discriminate].
  destruct (zFK (prop "idUser" body)); [|discriminate].
  destruct (zString _ (prop "title" body)); [|discriminate].
  destruct (optional (zNullableString _) (prop "description" body)); [|discriminate].
  destruct (optional (required (zIntRange 0 2)) (prop "priority" body))
    as [p|] eqn:P; [|discriminate].
  destruct (optional (zNullableDateString datetime) (prop "dueDate" body));
    [|discriminate].
  intros H. injection H as <-. cbn [cb_priority].
  unfold optional, required, zIntRange in P.
  destruct (prop "priority" body) as [| |x|n|]; try discriminate P.
  - injection P as <-. reflexivity.
  - destruct ((0 <=? n) && (n <=? 2)) eqn:R; [|discriminate P].
    injection P as <-. exact R.
Qed.

Lemma updateBodySchema_numbers (datetime : string -> option Z) (body : jobject)
    (validated : UpdateBody) :
  updateBodySchema datetime body = inr validated ->
  within 0 2 (Some (ub_priority validated)) = true
  /\ within 0 1 (Some (ub_status validated)) = true.
Proof.
  unfold updateBodySchema.
  destruct (zFK (prop "idAccount" body)); [|discriminate].
  destruct (zFK (prop "idUser" body)); [|discriminate].
  destruct (zString _ (prop "title" body)); [|discriminate].
  destruct (optional (zNullableString _) (prop "description" body)); [|discriminate].
  destruct (zIntRange 0 2 (prop "priority" body)) as [p|] eqn:P; [|discriminate].
  destruct (optional (zNullableDateString datetime) (prop "dueDate" body));
    [|discriminate].
  destruct (zIntRange 0 1 (prop "status" body)) as [st|] eqn:S; [|discriminate].
  intros H. injection H as <-. cbn [ub_priority ub_status within].
  unfold zIntRange in P, S.
  destruct (prop "priority" body) as [| |x|n|]; try discriminate P.
  destruct (prop "status" body) as [| |x'|n'|]; try discriminate S.
  destruct ((0 <=? n) && (n <=? 2)) eqn:R; [|discriminate P].
  destruct ((0 <=? n') && (n' <=? 1)) eqn:R'; [|discriminate S].
  injection P as <-. injection S as <-. split; assumption.
Qed.

Lemma zCoerceRangeOptional_within (Number : string -> option Z) (lo hi : Z)
    (v : option string) (x : option Z) :
  zCoerceRangeOptional Number lo hi v = Some x -> within lo hi x = true.
Proof.
  unfold zCoerceRangeOptional. destruct v as [t|].
  - destruct (Number t) as [z|]; [|discriminate].
    destruct ((lo <=? z) && (z <=? hi)) eqn:R; [|discriminate].
    intros H. injection H as <-. exact R.
  - intros H. injection H as <-. reflexivity.
Qed.

Lemma listQuerySchema_numbers (Number : string -> option Z) (query : qobject)
    (validated : TaskListRequest) :
  listQuerySchema Number query = inr validated ->
  within 0 1 (lr_status validated) = true
  /\ within 0 2 (lr_priority validated) = true.
Proof.
  unfold listQuerySchema.
  destruct (zCoercePositive Number (qprop "idAccount" query)); [|discriminate].
  destruct (zCoercePositive Number (qprop "idUser" query)); [|discriminate].
  destruct (zCoerceRangeOptional Number 0 1 (qprop "status" query)) as [st|] eqn:S;
    [|discriminate].
  destruct (zCoerceRangeOptional Number 0 2 (qprop "priority" query)) as [p|] eqn:P;
    [|discriminate].
  intros H. injection H as <-. cbn [lr_status lr_priority].
  split; eapply zCoerceRangeOptional_within; eassumption.
Qed.

Ltac one_of_kinds H :=
  unfold create_checks, update_checks, task_checks, list_checks, first_violation in H;
  repeat match type of H with
         | context [if ?c then _ else _] => destruct c
         end;
  try discriminate H; injection H as <-; cbn [In]; tauto.

(** X14.  The rule violations that a route can answer with: the schemas of
    the controller and the lengths of the parameters leave to POST
    titleRequired (a title of blanks), dueDateInPast, accountDoesntExist,
    userDoesntExist and titleAlreadyExists, to PUT these and
    taskDoesntExist, to the list accountDoesntExist and userDoesntExist, and
    to GET and DELETE of a task these two and taskDoesntExist.  No route
    answers with titleExceedsMaxLength, descriptionExceedsMaxLength,
    invalidPriority or invalidStatus. *)
Theorem kinds_by_route (Number datetime : string -> option Z) (s : session)
    (k : error_kind) (st : Z) :
  (forall body,
      surfaces (postHandler datetime body) s k st ->
      In k [titleRequired; dueDateInPast; accountDoesntExist; userDoesntExist;
            titleAlreadyExists])
  /\ (forall id body,
         surfaces (putHandler Number datetime id body) s k st ->
         In k [titleRequired; dueDateInPast; accountDoesntExist; userDoesntExist;
               taskDoesntExist; titleAlreadyExists])
  /\ (forall query,
         surfaces (getListHandler Number query) s k st ->
         In k [accountDoesntExist; userDoesntExist])
  /\ (forall id query,
         surfaces (getHandler Number id query) s k st ->
         In k [accountDoesntExist; userDoesntExist; taskDoesntExist])
  /\ (forall id query,
         surfaces (deleteHandler Number id query) s k st ->
         In k [accountDoesntExist; userDoesntExist; taskDoesntExist]).
Proof.
  split; [|split; [|split; [|split]]].
  - intros body [s' H]. unfold postHandler in H.
    destruct (createBodySchema datetime body) as [issues|validated] eqn:V;
      [discriminate H|].
    apply respond_kind in H. unfold taskCreate in H.
    apply first_record_raised in H. apply input_kind in H.
    unfold execute_spTaskCreate in H.
    cbn [option_map] in H. apply spTaskCreate_kind in H.
    pose proof (createBodySchema_priority _ _ _ V) as Hp. cbn [cr_priority] in H.
    unfold create_checks in H.
    rewrite (length_within_NVARCHAR 100), (length_within_NVARCHAR 500), Hp in H.
    one_of_kinds H.
  - intros id body [s' H]. unfold putHandler in H.
    destruct (idParamsSchema Number id) as [issues|idTask]; [discriminate H|].
    destruct (updateBodySchema datetime body) as [issues|validated] eqn:V;
      [discriminate H|].
    apply respond_kind in H. unfold taskUpdate in H.
    apply first_record_raised in H. apply input_kind in H.
    unfold execute_spTaskUpdate in H.
    cbn [option_map] in H. apply spTaskUpdate_kind in H.
    destruct (updateBodySchema_numbers _ _ _ V) as [Hp Hst].
    cbn [ur_priority ur_status] in H. unfold update_checks in H.
    rewrite (length_within_NVARCHAR 100), (length_within_NVARCHAR 500), Hp, Hst in H.
    one_of_kinds H.
  - intros query [s' H]. unfold getListHandler in H.
    destruct (listQuerySchema Number query) as [issues|validated] eqn:V;
      [discriminate H|].
    apply respond_kind in H. unfold taskList in H. apply input_kind in H.
    apply spTaskList_kind in H.
    destruct (listQuerySchema_numbers _ _ _ V) as [Hst Hp].
    unfold list_checks in H. rewrite Hst, Hp in H. one_of_kinds H.
  - intros id query [s' H]. unfold getHandler in H.
    destruct (idParamsSchema Number id) as [issues|idTask]; [discriminate H|].
    destruct (ownerQuerySchema Number query) as [issues|[idAccount idUser]];
      [discriminate H|].
    apply respond_kind in H. unfold taskGet in H.
    apply first_record_raised in H. apply input_kind in H.
    apply spTaskGet_kind in H. one_of_kinds H.
  - intros id query [s' H]. unfold deleteHandler in H.
    destruct (idParamsSchema Number id) as [issues|idTask]; [discriminate H|].
    destruct (ownerQuerySchema Number query) as [issues|[idAccount idUser]];
      [discriminate H|].
    apply respond_kind in H. unfold taskDelete in H.
    apply first_record_raised in H. apply input_kind in H.
    apply spTaskDelete_kind in H. one_of_kinds H.
Qed.

(** A title of one blank passes the schema of POST and is answered with
    titleRequired. *)
Lemma kinds_by_route_blank_title :
  surfaces (postHandler no_datetime
              [("idAccount", JInt 1); ("idUser", JInt 1); ("title", JString " ")])
    fixture titleRequired 400
  /\ In titleRequired [titleRequired; dueDateInPast; accountDoesntExist;
                       userDoesntExist; titleAlreadyExists].
Proof.
  assert (H : surfaces (postHandler no_datetime
                          [("idAccount", JInt 1); ("idUser", JInt 1);
                           ("title", JString " ")])
                fixture titleRequired 400)
    by (eexists; reflexivity).
  split; [exact H|].
  destruct (kinds_by_route decimal no_datetime fixture titleRequired 400)
    as [Hpost _].
  exact (Hpost _ H).
Defined.

(** ** Optional properties of a body *)

Lemma prop_other (name k : string) (v : json) (rest : jobject) :
  k <> name -> prop name ((k, v) :: rest) = prop name rest.
Proof. intros H. cbn [prop]. apply String.eqb_neq in H. rewrite H. reflexivity. Qed.

Lemma prop_first (name : string) (v : json) (rest : jobject) :
  prop name ((name, v) :: rest) = v.
Proof. cbn [prop]. rewrite String.eqb_refl. reflexivity. Qed.

Ltac other_props :=
  rewrite ?prop_first; rewrite ?prop_other by discriminate.

Ltac same_parse :=
  repeat match goal with
         | |- context [match ?x with Some _ => _ | None => _ end] => destruct x
         end; try reflexivity.

(** X15.  In the body of a POST or a PUT, a description that is null or the
    empty string is a description that is absent, and a dueDate that is
    null is a dueDate that is absent: the handler gives the same answer and
    leaves the same session. *)
Theorem absent_null_empty (Number datetime : string -> option Z) (id : string)
    (rest : jobject) (s : session) :
  (prop "description" rest = JUndefined ->
   forall d, d = JNull \/ d = JString "" ->
     postHandler datetime (("description", d) :: rest) s
     = postHandler datetime rest s
     /\ putHandler Number datetime id (("description", d) :: rest) s
        = putHandler Number datetime id rest s)
  /\ (prop "dueDate" rest = JUndefined ->
      postHandler datetime (("dueDate", JNull) :: rest) s
      = postHandler datetime rest s
      /\ putHandler Number datetime id (("dueDate", JNull) :: rest) s
         = putHandler Number datetime id rest s).
Proof.
  split.
  - intros Habsent d [-> | ->]; split;
      unfold postHandler, putHandler, createBodySchema, updateBodySchema;
      other_props; rewrite Habsent;
      cbn [optional zNullableString String.length Nat.leb]; same_parse.
  - intros Habsent; split;
      unfold postHandler, putHandler, createBodySchema, updateBodySchema;
      other_props; rewrite Habsent;
      cbn [optional zNullableDateString]; same_parse.
Qed.

(** The theorem on a POST to the fixture. *)
Lemma absent_null_empty_on_fixture :
  let rest := [("idAccount", JInt 1); ("idUser", JInt 1);
               ("title", JString "Buy bread")] in
  prop "description" rest = JUndefined
  /\ postHandler no_datetime (("description", JString "") :: rest) fixture
     = postHandler no_datetime rest fixture.
Proof.
  cbv zeta. split; [reflexivity|].
  destruct (absent_null_empty decimal no_datetime "6"
              [("idAccount", JInt 1); ("idUser", JInt 1);
               ("title", JString "Buy bread")] fixture) as [Hdescription _].
  destruct (Hdescription eq_refl (JString "") (or_intror eq_refl)) as [Hpost _].
  exact Hpost.
Defined.

(** ** The day of a dueDate *)

Lemma not_in_past_midnight (now t : Z) :
  not_in_past (CAST_AS_DATE now) (input_date (Some t))
  = (ms_per_day * (now / ms_per_day) - 1 <=? t).
Proof.
  cbn [input_date option_map not_in_past]. rewrite DATETIME_day_rounds.
  unfold CAST_AS_DATE.
  pose proof (Z.div_mod t ms_per_day) as Ht.
  pose proof (Z.mod_pos_bound t ms_per_day eq_refl) as Hr.
  unfold ms_per_day in *.
  apply Bool.eq_true_iff_eq. rewrite !Z.leb_le.
  destruct (Z.eqb_spec (t mod 86400000) 86399999); lia.
Qed.

(** X16.  A Create or an Update through the facade, with arguments that fit
    the types of the parameters, is rejected when its dueDate is earlier
    than the last millisecond before the midnight (UTC) that began the day
    of the call: with dueDateInPast, unless the title is blank or the
    priority or the status is out of range.  With a dueDate in that last
    millisecond, which is stored as the day of the call, or later, also one
    that is earlier than the time of the call, dueDateInPast is not
    raised. *)
Theorem dueDate_from_midnight (s : session) (t : Z) :
  let midnight := ms_per_day * (clock s / ms_per_day) in
  (forall params,
      cr_dueDate params = Some t ->
      create_fits params = true ->
      (t < midnight - 1 ->
       exists k, fst (taskCreate params s) = Raised (violation k)
                 /\ In k [titleRequired; invalidPriority; dueDateInPast])
      /\ (midnight - 1 <= t ->
          fst (taskCreate params s) <> Raised (violation dueDateInPast)))
  /\ (forall params,
         ur_dueDate params = Some t ->
         update_fits params = true ->
         (t < midnight - 1 ->
          exists k, fst (taskUpdate params s) = Raised (violation k)
                    /\ In k [titleRequired; invalidPriority; invalidStatus;
                             dueDateInPast])
         /\ (midnight - 1 <= t ->
             fst (taskUpdate params s) <> Raised (violation dueDateInPast))).
Proof.
  cbv zeta. split.
  - intros params Hdue Hfits. unfold taskCreate, execute_spTaskCreate.
    rewrite first_record_run, input_run, Hfits. cbn [fst option_map]. rewrite Hdue.
    split.
    + intros Hpast. rewrite spTaskCreate_checks.
      rewrite (length_within_NVARCHAR 100), (length_within_NVARCHAR 500).
      rewrite not_in_past_midnight.
      replace (_ <=? t) with false by (symmetry; apply Z.leb_gt; exact Hpast).
      cbn [negb]. destruct (title_present _); cbn [negb fst];
        [|eexists; split; [reflexivity|cbn [In]; tauto]].
      destruct (within 0 2 _); cbn [negb fst];
        eexists; (split; [reflexivity|cbn [In]; tauto]).
    + intros Hday H.
      destruct (fst (spTaskCreate _ _ _ _ _ _ s)) as [out|e] eqn:Hrun;
        [discriminate H|].
      injection H as ->. apply spTaskCreate_kind in Hrun.
      unfold create_checks, first_violation in Hrun.
      rewrite not_in_past_midnight in Hrun.
      replace (_ <=? t) with true in Hrun by (symmetry; apply Z.leb_le; exact Hday).
      repeat match type of Hrun with
             | context [if ?c then _ else _] => destruct c
             end; discriminate Hrun.
  - intros params Hdue Hfits. unfold taskUpdate, execute_spTaskUpdate.
    rewrite first_record_run, input_run, Hfits. cbn [fst option_map]. rewrite Hdue.
    split.
    + intros Hpast. rewrite spTaskUpdate_checks.
      rewrite (length_within_NVARCHAR 100), (length_within_NVARCHAR 500).
      rewrite not_in_past_midnight.
      replace (_ <=? t) with false by (symmetry; apply Z.leb_gt; exact Hpast).
      cbn [negb]. destruct (title_present _); cbn [negb fst];
        [|eexists; split; [reflexivity|cbn [In]; tauto]].
      destruct (within 0 2 _); cbn [negb fst];
        [|eexists; split; [reflexivity|cbn [In]; tauto]].
      destruct (within 0 1 _); cbn [negb fst];
        eexists; (split; [reflexivity|cbn [In]; tauto]).
    + intros Hday H.
      destruct (fst (spTaskUpdate _ _ _ _ _ _ _ _ s)) as [out|e] eqn:Hrun;
        [discriminate H|].
      injection H as ->. apply spTaskUpdate_kind in Hrun.
      unfold update_checks, first_violation in Hrun.
      rewrite not_in_past_midnight in Hrun.
      replace (_ <=? t) with true in Hrun by (symmetry; apply Z.leb_le; exact Hday).
      repeat match type of Hrun with
             | context [if ?c then _ else _] => destruct c
             end; discriminate Hrun.
Qed.

(** The fixture is at 6 ms of day 100.  A dueDate in the last millisecond
    of day 99 is stored as day 100 and accepted; one millisecond earlier it
    is day 99, and refused. *)
Lemma dueDate_from_midnight_on_fixture :
  create_fits (mkCreateRequest 1 1 "Buy bread" None None (Some 8639999999)) = true
  /\ fst (taskCreate (mkCreateRequest 1 1 "Buy bread" None None (Some 8639999999))
            fixture)
     <> Raised (violation dueDateInPast)
  /\ exists k,
       fst (taskCreate (mkCreateRequest 1 1 "Buy bread" None None (Some 8639999998))
              fixture)
       = Raised (violation k)
       /\ In k [titleRequired; invalidPriority; dueDateInPast].
Proof.
  split; [reflexivity|]. split.
  - destruct (dueDate_from_midnight fixture 8639999999) as [Hcreate _].
    destruct (Hcreate (mkCreateRequest 1 1 "Buy bread" None None (Some 8639999999))
                eq_refl eq_refl) as [_ Hday].
    apply Hday. cbn. lia.
  - destruct (dueDate_from_midnight fixture 8639999998) as [Hcreate _].
    destruct (Hcreate (mkCreateRequest 1 1 "Buy bread" None None (Some 8639999998))
                eq_refl eq_refl) as [Hpast _].
    apply Hpast. cbn. lia.
Defined.

Example dueDate_in_the_last_millisecond :
  fst (taskCreate (mkCreateRequest 1 1 "Buy bread" None None (Some 8639999999))
         fixture)
  = Done (Some [("idTask", VInt 6)])
  /\ fst (taskCreate (mkCreateRequest 1 1 "Buy bread" None None (Some 8639999998))
            fixture)
     = Raised (violation dueDateInPast).
Proof. split; reflexivity. Qed.

(** ** The forms of the client and the schema of POST *)

Section ClientProofs.

Variable white_space : ascii -> bool.

Lemma trimStart_length (s : string) :
  (String.length (trimStart white_space s) <= String.length s)%nat.
Proof.
  induction s as [|c rest IH]; cbn [trimStart String.length]; [lia|].
  destruct (white_space c); cbn [String.length]; lia.
Qed.

Lemma trimEnd_length (s : string) :
  (String.length (trimEnd white_space s) <= String.length s)%nat.
Proof.
  induction s as [|c rest IH]; cbn [trimEnd String.length]; [lia|].
  destruct (trimEnd white_space rest) as [|c' kept].
  - destruct (white_space c); cbn [String.length]; lia.
  - cbn [String.length] in *. lia.
Qed.

Lemma trimStart_first (s : string) (c : ascii) (rest : string) :
  trimStart white_space s = String c rest -> white_space c = false.
Proof.
  induction s as [|x s IH]; cbn [trimStart]; [discriminate|].
  destruct (white_space x) eqn:E; [exact IH|].
  intros H. injection H as <- _. exact E.
Qed.

Lemma trimEnd_first (s : string) (c : ascii) (rest : string) :
  trimEnd white_space s = String c rest -> exists rest', s = String c rest'.
Proof.
  destruct s as [|x s]; cbn [trimEnd]; [discriminate|].
  destruct (trimEnd white_space s) as [|c' kept].
  - destruct (white_space x); [discriminate|].
    intros H. injection H as <- _. exists s. reflexivity.
  - intros H. injection H as <- _. exists s. reflexivity.
Qed.

(** What [trim] gives is empty, or begins with a character that is no
    white space. *)
Lemma trim_first (s : string) (c : ascii) (rest : string) :
  trim white_space s = String c rest -> white_space c = false.
Proof.
  unfold trim. intros H. apply trimEnd_first in H. destruct H as [rest' H].
  apply trimStart_first in H. exact H.
Qed.

Lemma trim_length (s : string) :
  (String.length (trim white_space s) <= String.length s)%nat.
Proof.
  unfold trim. pose proof (trimEnd_length (trimStart white_space s)).
  pose proof (trimStart_length s). lia.
Qed.

Hypothesis space_is_white : forall c, blank c = true -> white_space c = true.

(** A title that QuickTaskForm submits passes the checks of the title. *)
Lemma handleSubmit_title (form : QuickTaskForm) (t : string) :
  snd (handleSubmit white_space form) = Some t ->
  (1 <= String.length t <= 100)%nat /\ title_present (Some t) = true.
Proof.
  unfold handleSubmit.
  destruct (String.eqb (trim white_space (qf_title form)) "") eqn:Hempty;
    [discriminate|].
  destruct (Nat.ltb 100 (String.length (qf_title form))) eqn:Hlong; [discriminate|].
  cbn [snd]. intros H. injection H as <-.
  apply Nat.ltb_ge in Hlong. pose proof (trim_length (qf_title form)) as Hle.
  destruct (trim white_space (qf_title form)) as [|c rest] eqn:T;
    [discriminate Hempty|].
  split; [cbn [String.length] in *; lia|].
  apply trim_first in T. cbn [title_present all_blank].
  destruct (blank c) eqn:B; [|reflexivity].
  apply space_is_white in B. congruence.
Qed.

End ClientProofs.

(** X17.  A title that QuickTaskForm submits is accepted as far as the title
    goes: the body that the page posts for it passes the schema of POST, and
    on a sound session the handler answers 201 with the new idTask, or 400
    with accountDoesntExist, userDoesntExist or titleAlreadyExists; never a
    validation error, titleRequired or a length error. *)
Theorem quick_title_is_accepted (white_space : ascii -> bool)
    (datetime : string -> option Z) (form : QuickTaskForm) (t : string)
    (s : session) :
  (forall c, blank c = true -> white_space c = true) ->
  snd (handleSubmit white_space form) = Some t ->
  sound s ->
  createBodySchema datetime (handleQuickSubmit t)
  = inr (mkCreateBody 1 1 t MUndefined (MValue 1) MUndefined)
  /\ (fst (postHandler datetime (handleQuickSubmit t) s)
      = Responded (mkResponse 201
                     (Success (One (Some [("idTask", VInt (ident s + 1))]))))
      \/ exists k,
           In k [accountDoesntExist; userDoesntExist; titleAlreadyExists]
           /\ fst (postHandler datetime (handleQuickSubmit t) s)
              = Responded (mkResponse 400 (Failure (kind_name k) None []))).
Proof.
  intros Hwhite Hsubmit Hsound.
  destruct (handleSubmit_title white_space Hwhite form t Hsubmit) as [Hlen Hpresent].
  assert (Hschema : createBodySchema datetime (handleQuickSubmit t)
                    = inr (mkCreateBody 1 1 t MUndefined (MValue 1) MUndefined)).
  { unfold createBodySchema, handleQuickSubmit.
    change (prop "title" _) with (JString t).
    rewrite (zString_accepts 99 t Hlen). reflexivity. }
  split; [exact Hschema|].
  unfold postHandler. rewrite Hschema.
  cbn [cb_idAccount cb_idUser cb_title cb_description cb_priority cb_dueDate
         to_option to_Date].
  unfold respond.
  destruct (facade_on_sound s Hsound) as [Hcreate _].
  destruct (Hcreate (mkCreateRequest 1 1 t None (Some 1) None)) as [Hanswered _].
  change (create_fits (mkCreateRequest 1 1 t None (Some 1) None)) with true
    in Hanswered.
  destruct (taskCreate (mkCreateRequest 1 1 t None (Some 1) None) s)
    as [[created|e] s1] eqn:Hrun; cbn [fst] in *.
  - left. unfold taskCreate in Hrun. rewrite first_record_run, input_run in Hrun.
    change (create_fits (mkCreateRequest 1 1 t None (Some 1) None)) with true
      in Hrun.
    unfold execute_spTaskCreate in Hrun.
    cbn [option_map cr_idAccount cr_idUser cr_title cr_description cr_priority
           cr_dueDate input_date or_empty] in Hrun.
    destruct Hsound as [Hopen _].
    match type of Hrun with
    | context [spTaskCreate ?a ?u ?ti ?d ?p ?due s] =>
        destruct (spTaskCreate_outcome a u ti d p due s Hopen)
          as [_ [_ [_ [_ Hout]]]];
        destruct (fst (spTaskCreate a u ti d p due s)) as [out|e];
          [|discriminate Hrun]
    end.
    destruct Hout as [r [Hins [_ [Hrecord _]]]].
    apply create_insert_row in Hins.
    destruct Hins as [t0 [d0 [p0 [_ [_ [_ [Hr _]]]]]]].
    injection Hrun as <- _. rewrite Hrecord, Hr. reflexivity.
  - right. destruct Hanswered as [k ->]. exists k.
    assert (Hraised : fst (taskCreate (mkCreateRequest 1 1 t None (Some 1) None) s)
                      = Raised (violation k)) by (rewrite Hrun; reflexivity).
    unfold taskCreate in Hraised. apply first_record_raised in Hraised.
    apply input_kind in Hraised. unfold execute_spTaskCreate in Hraised.
    cbn [option_map cr_idAccount cr_idUser cr_title cr_description cr_priority
           cr_dueDate input_date or_empty] in Hraised.
    apply spTaskCreate_kind in Hraised. unfold create_checks in Hraised.
    rewrite (length_within_NVARCHAR 100), (length_within_NVARCHAR 500) in Hraised.
    rewrite (NVARCHAR_within 100 t) in Hraised by lia. rewrite Hpresent in Hraised.
    split; [|reflexivity].
    cbn [within not_in_past first_violation] in Hraised.
    change ((0 <=? 1) && (1 <=? 2)) with true in Hraised.
    cbn [first_violation] in Hraised.
    repeat match type of Hraised with
           | context [if ?c then _ else _] => destruct c
           end;
      try discriminate Hraised; injection Hraised as <-; cbn [In]; tauto.
Qed.

(** The theorem on the fixture: the form holds the title Buy bread between
    blanks. *)
Lemma quick_title_is_accepted_on_fixture :
  (forall c, blank c = true -> latin1_white_space c = true)
  /\ snd (handleSubmit latin1_white_space (mkQuickTaskForm "  Buy bread " ""))
     = Some "Buy bread"
  /\ sound fixture
  /\ createBodySchema no_datetime (handleQuickSubmit "Buy bread")
     = inr (mkCreateBody 1 1 "Buy bread" MUndefined (MValue 1) MUndefined).
Proof.
  assert (Hwhite : forall c, blank c = true -> latin1_white_space c = true).
  { intros c H. unfold blank in H. apply Ascii.eqb_eq in H. subst c. reflexivity. }
  split; [exact Hwhite|]. split; [reflexivity|]. split; [exact fixture_sound|].
  apply (quick_title_is_accepted latin1_white_space no_datetime
           (mkQuickTaskForm "  Buy bread " "") "Buy bread" fixture Hwhite eq_refl
           fixture_sound).
Defined.

(** X18.  What TaskForm submits passes the schema of POST but for its
    dueDate: the title, the description and the priority that taskFormSchema
    accepts are accepted by createBodySchema, an empty description or
    dueDate is sent as absent, and the only issue that the schema of POST
    can raise is on a dueDate that [z.string().datetime()] refuses. *)
Theorem form_passes_schema (not_before_today : string -> bool)
    (datetime : string -> option Z) (values : jobject) (data : TaskFormData) :
  taskFormSchema not_before_today values = inr data ->
  match createBodySchema datetime (handleFormSubmit data) with
  | inr validated =>
      cb_idAccount validated = 1 /\ cb_idUser validated = 1
      /\ cb_title validated = tf_title data
      /\ or_empty (to_option (cb_description validated))
         = or_empty (tf_description data)
      /\ cb_priority validated = MValue (tf_priority data)
      /\ (cb_dueDate validated = MUndefined
          \/ exists date, tf_dueDate data = Some date
                          /\ cb_dueDate validated = MValue date
                          /\ datetime date <> None)
  | inl issues =>
      issues = ["dueDate"]
      /\ exists date, tf_dueDate data = Some date /\ date <> ""
                      /\ datetime date = None
  end.
Proof.
  unfold taskFormSchema.
  destruct (zString (Some 100%nat) (prop "title" values)) as [t|] eqn:T;
    [|discriminate].
  destruct (match prop "description" values with
            | JUndefined => Some None
            | JString d => if Nat.leb (String.length d) 500 then Some (Some d) else None
            | _ => None
            end) as [d|] eqn:D; [|discriminate].
  destruct (match prop "priority" values with
            | JUndefined => Some 1
            | v => zIntRange 0 2 v
            end) as [p|] eqn:P; [|discriminate].
  destruct (match prop "dueDate" values with
            | JUndefined => Some None
            | JString date =>
                if String.eqb date "" || not_before_today date
                then Some (Some date) else None
            | _ => None
            end) as [due|] eqn:Due; [|discriminate].
  intros H. injection H as <-.
  assert (Ht : zString (Some 100%nat) (JString t) = Some t).
  { destruct (prop "title" values) as [| |x|z|]; try discriminate T.
    cbn [zString] in T |- *.
    destruct (Nat.leb 1 (String.length x) && Nat.leb (String.length x) 100) eqn:E;
      [|discriminate T].
    injection T as <-. rewrite E. reflexivity. }
  assert (Hp : (0 <=? p) && (p <=? 2) = true).
  { destruct (prop "priority" values) as [| |x|z|]; try discriminate P.
    - injection P as <-. reflexivity.
    - cbn [zIntRange] in P.
      destruct ((0 <=? z) && (z <=? 2)) eqn:E; [|discriminate P].
      injection P as <-. exact E. }
  assert (Hd : forall x, d = Some x -> Nat.leb (String.length x) 500 = true).
  { intros x ->. destruct (prop "description" values) as [| |y|z|];
      try discriminate D.
    destruct (Nat.leb (String.length y) 500) eqn:E; [|discriminate D].
    injection D as <-. exact E. }
  unfold createBodySchema, handleFormSubmit.
  cbn [prop String.eqb Ascii.eqb Bool.eqb tf_title tf_description tf_priority
         tf_dueDate].
  rewrite Ht. cbn [zFK optional Z.ltb Z.compare].
  assert (Hpriority : required (zIntRange 0 2) (JInt p) = Some (MValue p))
    by (unfold required, zIntRange; rewrite Hp; reflexivity).
  rewrite Hpriority.
  assert (Hdescription :
            exists v, optional (zNullableString (Some 500%nat)) (or_undefined d)
                      = Some v
                      /\ or_empty (to_option v) = or_empty d).
  { destruct d as [x|]; [|exists MUndefined; split; reflexivity].
    cbn [or_undefined or_empty]. destruct (String.eqb x "") eqn:E.
    - exists MUndefined. split; reflexivity.
    - exists (MValue x). cbn [optional zNullableString].
      rewrite (Hd x eq_refl). cbn [to_option or_empty]. rewrite E.
      split; reflexivity. }
  destruct Hdescription as [v [-> Hv]].
  destruct due as [date|]; cbn [or_undefined].
  - destruct (String.eqb date "") eqn:E.
    + cbn [optional]. repeat split; try assumption. left. reflexivity.
    + cbn [optional zNullableDateString].
      destruct (datetime date) as [time|] eqn:Hdate.
      * repeat split; try assumption. right. exists date.
        repeat split. rewrite Hdate. discriminate.
      * split; [reflexivity|]. exists date. repeat split; [|exact Hdate].
        intros ->. discriminate E.
  - cbn [optional]. repeat split; try assumption. left. reflexivity.
Qed.

(** The theorem on a form with a title, an empty description and no
    dueDate. *)
Lemma form_passes_schema_on_a_form :
  taskFormSchema (fun _ => true)
    [("title", JString "Buy bread"); ("description", JString "");
     ("priority", JInt 2); ("dueDate", JString "")]
  = inr (mkTaskFormData "Buy bread" (Some "") 2 (Some ""))
  /\ match createBodySchema no_datetime
            (handleFormSubmit (mkTaskFormData "Buy bread" (Some "") 2 (Some "")))
     with
     | inr validated =>
         cb_title validated = "Buy bread" /\ cb_priority validated = MValue 2
     | inl _ => False
     end.
Proof.
  split; [reflexivity|].
  pose proof (form_passes_schema (fun _ => true) no_datetime
                [("title", JString "Buy bread"); ("description", JString "");
                 ("priority", JInt 2); ("dueDate", JString "")]
                (mkTaskFormData "Buy bread" (Some "") 2 (Some "")) eq_refl) as H.
  vm_compute in H. destruct H as [_ [_ [Htitle [_ [Hpriority _]]]]].
  split; [exact Htitle|exact Hpriority].
Defined.

(** ** The connection pool *)

Section DatabaseProofs.
Import Database.

Lemma set_connected_length (p : nat) (flag : bool) (l : list bool) :
  List.length (set_connected p flag l) = List.length l.
Proof.
  revert p. induction l as [|x rest IH]; intros [|q]; cbn; try reflexivity.
  rewrite IH. reflexivity.
Qed.

Lemma nth_set_connected (p q : nat) (flag : bool) (l : list bool) :
  nth q (set_connected p flag l) false
  = if Nat.eqb q p && Nat.ltb p (List.length l) then flag else nth q l false.
Proof.
  revert p q. induction l as [|x rest IH]; intros p q.
  - destruct p, q; cbn; rewrite ?andb_false_r; reflexivity.
  - destruct p as [|p], q as [|q]; cbn [set_connected nth]; try reflexivity.
    rewrite IH. reflexivity.
Qed.

Lemma nth_new (q : nat) (l : list bool) :
  nth q (l ++ [false]) false = nth q l false.
Proof.
  destruct (Nat.lt_ge_cases q (List.length l)) as [H|H].
  - apply app_nth1. exact H.
  - rewrite (nth_overflow l) by exact H.
    rewrite app_nth2 by exact H.
    destruct (q - List.length l)%nat as [|[|n]]; reflexivity.
Qed.

Lemma getPool_cases (rejected : option string) (i : instance) :
  (exists p, pool i = Some p /\ connected p i = true
             /\ getPool rejected i = (inr p, i))
  \/ ((forall p, pool i = Some p -> connected p i = false)
      /\ getPool rejected i
         = getPool_resume (List.length (pools i)) rejected
             (mkInstance (pool i) (pools i ++ [false]) (console i))).
Proof.
  unfold getPool, getPool_enter. destruct (pool i) as [p|] eqn:P.
  - destruct (connected p i) eqn:C.
    + left. exists p. repeat split. exact C.
    + right. split; [|reflexivity]. intros p' H. injection H as <-. exact C.
  - right. split; [|reflexivity]. intros p' H. discriminate H.
Qed.

Lemma connected_resumed (q : nat) (i : instance) :
  connected q
    (snd (getPool_resume (List.length (pools i)) None
            (mkInstance (pool i) (pools i ++ [false]) (console i))))
  = Nat.eqb q (List.length (pools i)) || connected q i.
Proof.
  unfold connected. cbn [getPool_resume snd pools].
  rewrite nth_set_connected, length_app. cbn [List.length].
  replace (Nat.ltb (List.length (pools i)) (List.length (pools i) + 1)) with true
    by (symmetry; apply Nat.ltb_lt; lia).
  rewrite andb_true_r, nth_new.
  destruct (Nat.eqb q (List.length (pools i))); reflexivity.
Qed.

Lemma one_pool_none (i : instance) (q : nat) :
  one_pool i -> (forall p, pool i = Some p -> connected p i = false) ->
  connected q i = false.
Proof.
  intros Hone Hnone. destruct (connected q i) eqn:C; [|reflexivity].
  pose proof (Hnone q (Hone q C)). congruence.
Qed.

(** X19.  Calls of getPool and closePool that do not overlap keep at most
    one pool connected, the one that the module holds: getPool connects only
    when the module holds no connected pool, a call after one that succeeded
    returns the same pool and changes nothing, a connection that fails
    leaves the variable as it was and passes its error on, and after
    closePool no pool is connected. *)
Theorem pool_is_shared (i : instance) :
  one_pool i ->
  (forall rejected, one_pool (snd (getPool rejected i)))
  /\ (forall rejected p i1,
         getPool rejected i = (inr p, i1) ->
         connected p i1 = true
         /\ forall rejected', getPool rejected' i1 = (inr p, i1))
  /\ (forall rejected error i1,
         getPool rejected i = (inl error, i1) ->
         rejected = Some error /\ pool i1 = pool i /\ pools i1 = pools i ++ [false])
  /\ one_pool (closePool i)
  /\ (forall p, connected p (closePool i) = false).
Proof.
  intros Hone. split; [|split; [|split; [|split]]].
  - intros rejected.
    destruct (getPool_cases rejected i) as [[p [_ [_ ->]]]|[Hnone ->]];
      [exact Hone|].
    destruct rejected as [error|].
    + intros q. unfold connected. cbn [getPool_resume snd pools pool].
      rewrite nth_new. apply Hone.
    + intros q. rewrite connected_resumed.
      rewrite (one_pool_none i q Hone Hnone), orb_false_r.
      intros H. apply Nat.eqb_eq in H. subst q. reflexivity.
  - intros rejected p i1 Hrun.
    assert (Hheld : pool i1 = Some p /\ connected p i1 = true).
    { destruct (getPool_cases rejected i) as [[p' [Hp [Hc Hsame]]]|[Hnone Hnew]].
      - rewrite Hsame in Hrun. injection Hrun as <- <-. split; assumption.
      - rewrite Hnew in Hrun. destruct rejected as [error|]; [discriminate Hrun|].
        cbn [getPool_resume pool pools console] in Hrun.
        injection Hrun as <- <-. split; [reflexivity|].
        unfold connected. cbn [pools].
        rewrite nth_set_connected, length_app. cbn [List.length].
        rewrite Nat.eqb_refl.
        replace (Nat.ltb _ _) with true by (symmetry; apply Nat.ltb_lt; lia).
        reflexivity. }
    destruct Hheld as [Hp Hc]. split; [exact Hc|].
    intros rejected'. unfold getPool, getPool_enter. rewrite Hp, Hc. reflexivity.
  - intros rejected error i1 Hrun.
    destruct (getPool_cases rejected i) as [[p' [_ [_ Hsame]]]|[_ Hnew]].
    + rewrite Hsame in Hrun. discriminate Hrun.
    + rewrite Hnew in Hrun. destruct rejected as [error'|]; [|discriminate Hrun].
      cbn [getPool_resume] in Hrun. injection Hrun as <- <-.
      repeat split.
  - unfold closePool. destruct (pool i) as [p|] eqn:P; [|exact Hone].
    intros q. unfold connected. cbn [pools pool]. rewrite nth_set_connected.
    destruct (Nat.eqb q p && Nat.ltb p (List.length (pools i))) eqn:E;
      [discriminate|].
    intros H. pose proof (Hone q H) as Hq. rewrite P in Hq. injection Hq as ->.
    rewrite Nat.eqb_refl in E. cbn [andb] in E. apply Nat.ltb_ge in E.
    unfold connected in H. rewrite nth_overflow in H by exact E. discriminate H.
  - intros q. unfold closePool. destruct (pool i) as [p|] eqn:P.
    + unfold connected. cbn [pools]. rewrite nth_set_connected.
      destruct (Nat.eqb q p && Nat.ltb p (List.length (pools i))) eqn:E;
        [reflexivity|].
      destruct (nth q (pools i) false) eqn:C; [|reflexivity].
      pose proof (Hone q C) as Hq. rewrite P in Hq. injection Hq as ->.
      rewrite Nat.eqb_refl in E. cbn [andb] in E. apply Nat.ltb_ge in E.
      rewrite nth_overflow in C by exact E. discriminate C.
    + destruct (connected q i) eqn:C; [|reflexivity].
      pose proof (Hone q C) as Hq. rewrite P in Hq. discriminate Hq.
Qed.

(** The theorem on a process that starts: the first call connects pool 0,
    the second call returns it. *)
Lemma pool_is_shared_at_start :
  one_pool (mkInstance None [] [])
  /\ getPool None (snd (getPool None (mkInstance None [] [])))
     = (inr O, snd (getPool None (mkInstance None [] []))).
Proof.
  assert (Hone : one_pool (mkInstance None [] [])).
  { intros [|p] H; discriminate H. }
  split; [exact Hone|].
  destruct (pool_is_shared (mkInstance None [] []) Hone) as [_ [Hsame _]].
  destruct (Hsame None O (snd (getPool None (mkInstance None [] []))) eq_refl)
    as [_ Hagain].
  exact (Hagain None).
Defined.

Lemma nth_connected_two (l : list bool) (p q x : nat) :
  (p < List.length l)%nat -> (q < List.length l)%nat ->
  nth x (set_connected p true (set_connected q true l)) false
  = Nat.eqb x p || Nat.eqb x q || nth x l false.
Proof.
  intros Hp Hq. rewrite !nth_set_connected, set_connected_length.
  apply Nat.ltb_lt in Hp, Hq. rewrite Hp, Hq, !andb_true_r.
  destruct (Nat.eqb x p), (Nat.eqb x q); reflexivity.
Qed.

Lemma nth_closed (l : list bool) (p x : nat) :
  (p < List.length l)%nat ->
  nth x (set_connected p false l) false = negb (Nat.eqb x p) && nth x l false.
Proof.
  intros Hp. rewrite nth_set_connected. apply Nat.ltb_lt in Hp.
  rewrite Hp, andb_true_r. destruct (Nat.eqb x p); reflexivity.
Qed.

(** X20.  Two calls of getPool that overlap, made while the module holds no
    connected pool, connect two pools.  The module holds the pool whose
    connection was made last, whichever call it belongs to; the other pool
    stays connected and is held by nothing, and closePool closes the pool
    that is held only. *)
Theorem overlapping_calls_connect_twice (i : instance)
    (second_connects_first : bool) :
  one_pool i ->
  (forall p, pool i = Some p -> connected p i = false) ->
  let n := List.length (pools i) in
  let held := if second_connects_first then n else S n in
  let other := if second_connects_first then S n else n in
  exists i2,
    getPool_twice second_connects_first i = (Awaits n, Awaits (S n), i2)
    /\ connected n i2 = true /\ connected (S n) i2 = true
    /\ pool i2 = Some held
    /\ ~ one_pool i2
    /\ connected other (closePool i2) = true
    /\ connected held (closePool i2) = false
    /\ pool (closePool i2) = None.
Proof.
  intros Hone Hnone n held other. subst n held other.
  assert (Henter : getPool_enter i
                   = (Awaits (List.length (pools i)),
                      mkInstance (pool i) (pools i ++ [false]) (console i))).
  { unfold getPool_enter. destruct (pool i) as [p|] eqn:P; [|reflexivity].
    rewrite (Hnone p eq_refl). reflexivity. }
  assert (Hagain : getPool_enter
                     (mkInstance (pool i) (pools i ++ [false]) (console i))
                   = (Awaits (S (List.length (pools i))),
                      mkInstance (pool i) ((pools i ++ [false]) ++ [false])
                        (console i))).
  { unfold getPool_enter. cbn [pool pools console].
    rewrite length_app. cbn [List.length]. rewrite Nat.add_1_r.
    destruct (pool i) as [p|] eqn:P; [|reflexivity].
    unfold connected. cbn [pools]. rewrite nth_new.
    fold (connected p i). rewrite (Hnone p eq_refl). reflexivity. }
  assert (Hn : (List.length (pools i)
                < List.length ((pools i ++ [false]) ++ [false]))%nat)
    by (rewrite !length_app; cbn [List.length]; lia).
  assert (HSn : (S (List.length (pools i))
                 < List.length ((pools i ++ [false]) ++ [false]))%nat)
    by (rewrite !length_app; cbn [List.length]; lia).
  assert (Hne : Nat.eqb (List.length (pools i)) (S (List.length (pools i))) = false)
    by (apply Nat.eqb_neq; lia).
  assert (Hne' : Nat.eqb (S (List.length (pools i))) (List.length (pools i)) = false)
    by (apply Nat.eqb_neq; lia).
  unfold getPool_twice. rewrite Henter, Hagain.
  destruct second_connects_first;
    cbn [getPool_resume snd pool pools console];
    eexists; (split; [reflexivity|]);
    unfold connected, closePool; cbn [pools pool];
    rewrite ?nth_closed by (rewrite !set_connected_length; assumption);
    rewrite !nth_connected_two by assumption;
    rewrite ?Nat.eqb_refl, ?Hne, ?Hne'; cbn [orb negb andb];
    (split; [reflexivity|]); (split; [reflexivity|]); (split; [reflexivity|]);
    (split; [|split; [reflexivity|split; reflexivity]]).
  - intros H. specialize (H (S (List.length (pools i)))).
    unfold connected in H. cbn [pools pool] in H.
    rewrite nth_connected_two in H by assumption.
    rewrite Nat.eqb_refl, orb_true_r in H. cbn [orb] in H.
    specialize (H eq_refl). injection H as H. lia.
  - intros H. specialize (H (List.length (pools i))).
    unfold connected in H. cbn [pools pool] in H.
    rewrite nth_connected_two in H by assumption.
    rewrite Nat.eqb_refl, orb_true_r in H. cbn [orb] in H.
    specialize (H eq_refl). injection H as H. lia.
Qed.

(** The theorem on a process that starts, in both orders. *)
Lemma overlapping_calls_at_start :
  one_pool (mkInstance None [] [])
  /\ (exists i2,
         getPool_twice false (mkInstance None [] []) = (Awaits 0, Awaits 1, i2)
         /\ pool i2 = Some 1%nat
         /\ connected 0 (closePool i2) = true)
  /\ (exists i2,
         getPool_twice true (mkInstance None [] []) = (Awaits 0, Awaits 1, i2)
         /\ pool i2 = Some 0%nat
         /\ connected 1 (closePool i2) = true).
Proof.
  assert (Hone : one_pool (mkInstance None [] [])).
  { intros [|p] H; discriminate H. }
  split; [exact Hone|]. split.
  - destruct (overlapping_calls_connect_twice (mkInstance None [] []) false Hone)
      as [i2 [Hrun [_ [_ [Hpool [_ [Hleft _]]]]]]]; [intros p H; discriminate H|].
    exists i2. split; [exact Hrun|]. split; [exact Hpool|exact Hleft].
  - destruct (overlapping_calls_connect_twice (mkInstance None [] []) true Hone)
      as [i2 [Hrun [_ [_ [Hpool [_ [Hleft _]]]]]]]; [intros p H; discriminate H|].
    exists i2. split; [exact Hrun|]. split; [exact Hpool|exact Hleft].
Defined.

End DatabaseProofs.

(** ** The handlers on a sound session *)

Lemma at_time_sound (t : Z) (s : session) : sound s -> sound (at_time t s).
Proof. intros H. exact H. Qed.

(** The reply to a call that the facade settled. *)
Lemma respond_settled {A : Type} (fits : bool) (call : proc A) (ok st : Z)
    (wrap : A -> data) (s : session) :
  (ok = 200 \/ ok = 201) -> (st = 400 \/ st = 404) ->
  settled fits call s ->
  (if fits
   then responded (fst (respond call ok wrap (catch_block st) s)) = true
   else fst (respond call ok wrap (catch_block st) s)
        = Next (RequestError err_conversion))
  /\ sound (snd (respond call ok wrap (catch_block st) s)).
Proof.
  intros Hok Hst [Hrun Hs]. unfold respond. destruct fits.
  - destruct (call s) as [[a|e] s']; cbn [fst snd] in *; split; try exact Hs.
    + destruct Hok as [-> | ->]; reflexivity.
    + destruct Hrun as [k ->]. destruct Hst as [-> | ->]; reflexivity.
  - rewrite Hrun in *. cbn [fst snd] in *. split; [reflexivity|exact Hs].
Qed.

Lemma zFK_fits (v : json) (z : Z) :
  zFK v = Some z -> number_fits v = INTEGER z.
Proof.
  destruct v as [| |x|n|]; cbn [zFK]; try discriminate.
  destruct (0 <? n); [|discriminate]. intros H. injection H as <-. reflexivity.
Qed.

Lemma zCoercePositive_fits (Number : string -> option Z) (v : option string)
    (z : Z) :
  zCoercePositive Number v = Some z -> string_fits Number v = INTEGER z.
Proof.
  unfold zCoercePositive, string_fits. destruct v as [text|]; [|discriminate].
  destruct (Number text) as [n|]; [|discriminate].
  destruct (0 <? n); [|discriminate]. intros H. injection H as <-. reflexivity.
Qed.

Lemma within_TINYINT (hi : Z) (x : Z) :
  hi <= 255 -> within 0 hi (Some x) = true -> TINYINT x = true.
Proof.
  unfold within, TINYINT. intros Hhi H.
  apply andb_prop in H. destruct H as [H0 H1].
  apply Z.leb_le in H0, H1. apply andb_true_intro.
  split; apply Z.leb_le; lia.
Qed.

Lemma within_if_given_TINYINT (hi : Z) (x : option Z) :
  hi <= 255 -> within 0 hi x = true -> if_given TINYINT x = true.
Proof.
  destruct x as [z|]; [|reflexivity]. cbn [if_given]. apply within_TINYINT.
Qed.

Lemma to_Date_fits (datetime : string -> option Z) (v : json) (due : maybe string) :
  optional (zNullableDateString datetime) v = Some due ->
  date_fits datetime v = true ->
  if_given DATETIME (to_Date datetime due) = true.
Proof.
  destruct v as [| |d|n|]; cbn [optional zNullableDateString]; try discriminate.
  - intros H _. injection H as <-. reflexivity.
  - intros H _. injection H as <-. reflexivity.
  - destruct (datetime d) as [t|] eqn:D; [|discriminate].
    intros H Hfits. injection H as <-. cbn [to_Date date_fits] in *.
    destruct (String.eqb d ""); [reflexivity|]. exact Hfits.
Qed.

Lemma createBodySchema_fits (Number datetime : string -> option Z) (body : jobject)
    (validated : CreateBody) :
  createBodySchema datetime body = inr validated ->
  within_types Number datetime (POST_task body) = true ->
  create_fits
    (mkCreateRequest (cb_idAccount validated) (cb_idUser validated)
       (cb_title validated) (to_option (cb_description validated))
       (to_option (cb_priority validated))
       (to_Date datetime (cb_dueDate validated))) = true.
Proof.
  intros H W. pose proof (createBodySchema_priority _ _ _ H) as Hp.
  apply (within_TINYINT 2) in Hp; [|lia].
  unfold createBodySchema in H.
  destruct (zFK (prop "idAccount" body)) as [a|] eqn:A; [|discriminate].
  destruct (zFK (prop "idUser" body)) as [u|] eqn:U; [|discriminate].
  destruct (zString _ (prop "title" body)); [|discriminate].
  destruct (optional (zNullableString _) (prop "description" body)); [|discriminate].
  destruct (optional (required (zIntRange 0 2)) (prop "priority" body));
    [|discriminate].
  destruct (optional (zNullableDateString datetime) (prop "dueDate" body))
    as [due|] eqn:Due; [|discriminate].
  injection H as <-. cbn [cb_idAccount cb_idUser cb_priority cb_dueDate] in *.
  cbn [within_types] in W.
  apply andb_prop in W. destruct W as [W Wd].
  apply andb_prop in W. destruct W as [Wa Wu].
  rewrite (zFK_fits _ _ A) in Wa. rewrite (zFK_fits _ _ U) in Wu.
  unfold create_fits. cbn [cr_idAccount cr_idUser cr_priority cr_dueDate].
  rewrite Wa, Wu, Hp, (to_Date_fits _ _ _ Due Wd). reflexivity.
Qed.

Lemma updateBodySchema_fits (Number datetime : string -> option Z) (id : string)
    (idTask : Z) (body : jobject) (validated : UpdateBody) :
  idParamsSchema Number id = inr idTask ->
  updateBodySchema datetime body = inr validated ->
  within_types Number datetime (PUT_task id body) = true ->
  update_fits
    (mkUpdateRequest (ub_idAccount validated) (ub_idUser validated) idTask
       (ub_title validated) (to_option (ub_description validated))
       (ub_priority validated) (to_Date datetime (ub_dueDate validated))
       (ub_status validated)) = true.
Proof.
  intros Hid H W. destruct (updateBodySchema_numbers _ _ _ H) as [Hp Hst].
  apply (within_TINYINT 2) in Hp; [|lia]. apply (within_TINYINT 1) in Hst; [|lia].
  unfold idParamsSchema in Hid.
  destruct (zCoercePositive Number (Some id)) as [i|] eqn:I; [|discriminate].
  injection Hid as <-.
  unfold updateBodySchema in H.
  destruct (zFK (prop "idAccount" body)) as [a|] eqn:A; [|discriminate].
  destruct (zFK (prop "idUser" body)) as [u|] eqn:U; [|discriminate].
  destruct (zString _ (prop "title" body)); [|discriminate].
  destruct (optional (zNullableString _) (prop "description" body)); [|discriminate].
  destruct (zIntRange 0 2 (prop "priority" body)); [|discriminate].
  destruct (optional (zNullableDateString datetime) (prop "dueDate" body))
    as [due|] eqn:Due; [|discriminate].
  destruct (zIntRange 0 1 (prop "status" body)); [|discriminate].
  injection H as <-.
  cbn [ub_idAccount ub_idUser ub_priority ub_dueDate ub_status] in *.
  cbn [within_types] in W.
  apply andb_prop in W. destruct W as [W Wd].
  apply andb_prop in W. destruct W as [W Wu].
  apply andb_prop in W. destruct W as [Wi Wa].
  rewrite (zFK_fits _ _ A) in Wa. rewrite (zFK_fits _ _ U) in Wu.
  rewrite (zCoercePositive_fits _ _ _ I) in Wi.
  unfold update_fits.
  cbn [ur_idAccount ur_idUser ur_idTask ur_priority ur_dueDate ur_status].
  rewrite Wa, Wu, Wi, Hp, Hst, (to_Date_fits _ _ _ Due Wd). reflexivity.
Qed.

Lemma listQuerySchema_fits (Number : string -> option Z) (query : qobject)
    (validated : TaskListRequest) :
  listQuerySchema Number query = inr validated ->
  string_fits Number (qprop "idAccount" query)
  && string_fits Number (qprop "idUser" query) = true ->
  list_fits validated = true.
Proof.
  intros H W. destruct (listQuerySchema_numbers _ _ _ H) as [Hst Hp].
  apply (within_if_given_TINYINT 1) in Hst; [|lia].
  apply (within_if_given_TINYINT 2) in Hp; [|lia].
  unfold listQuerySchema in H.
  destruct (zCoercePositive Number (qprop "idAccount" query)) as [a|] eqn:A;
    [|discriminate].
  destruct (zCoercePositive Number (qprop "idUser" query)) as [u|] eqn:U;
    [|discriminate].
  destruct (zCoerceRangeOptional Number 0 1 (qprop "status" query)); [|discriminate].
  destruct (zCoerceRangeOptional Number 0 2 (qprop "priority" query));
    [|discriminate].
  injection H as <-. cbn [lr_status lr_priority] in *.
  apply andb_prop in W. destruct W as [Wa Wu].
  rewrite (zCoercePositive_fits _ _ _ A) in Wa.
  rewrite (zCoercePositive_fits _ _ _ U) in Wu.
  unfold list_fits. cbn [lr_idAccount lr_idUser lr_status lr_priority].
  rewrite Wa, Wu, Hst, Hp. reflexivity.
Qed.

Lemma task_route_fits (Number : string -> option Z) (id : string) (query : qobject)
    (idTask idAccount idUser : Z) :
  idParamsSchema Number id = inr idTask ->
  ownerQuerySchema Number query = inr (idAccount, idUser) ->
  string_fits Number (Some id)
  && string_fits Number (qprop "idAccount" query)
  && string_fits Number (qprop "idUser" query) = true ->
  task_fits (mkGetRequest idAccount idUser idTask) = true.
Proof.
  intros Hid H W. unfold idParamsSchema in Hid.
  destruct (zCoercePositive Number (Some id)) as [i|] eqn:I; [|discriminate].
  injection Hid as <-.
  unfold ownerQuerySchema in H.
  destruct (zCoercePositive Number (qprop "idAccount" query)) as [a|] eqn:A;
    [|destruct (zCoercePositive Number (qprop "idUser" query)); discriminate].
  destruct (zCoercePositive Number (qprop "idUser" query)) as [u|] eqn:U;
    [|discriminate].
  injection H as <- <-.
  apply andb_prop in W. destruct W as [W Wu].
  apply andb_prop in W. destruct W as [Wi Wa].
  rewrite (zCoercePositive_fits _ _ _ A) in Wa.
  rewrite (zCoercePositive_fits _ _ _ U) in Wu.
  rewrite (zCoercePositive_fits _ _ _ I) in Wi.
  unfold task_fits. cbn [gr_idAccount gr_idUser gr_idTask].
  rewrite Wa, Wu, Wi. reflexivity.
Qed.

(** What a reply is, when the facade settled the call: the handler's own,
    or the error of a conversion passed on; and the handler's own when the
    arguments fit. *)
Lemma reply_settled (fits within : bool) (rp : reply) (s : session) :
  (if fits then responded rp = true else rp = Next (RequestError err_conversion))
  /\ sound s ->
  (within = true -> fits = true) ->
  (responded rp = true \/ rp = Next (RequestError err_conversion))
  /\ (within = true -> responded rp = true)
  /\ sound s.
Proof.
  intros [Hrp Hs] Hfits. destruct fits.
  - split; [left; exact Hrp|]. split; [intros _; exact Hrp|exact Hs].
  - split; [right; exact Hrp|]. split; [|exact Hs].
    intros W. specialize (Hfits W). discriminate Hfits.
Qed.

Lemma reply_refused (within : bool) (st : Z) (issues : list string) (s : session) :
  sound s ->
  (responded (catch_block st (ZodError issues)) = true
   \/ catch_block st (ZodError issues) = Next (RequestError err_conversion))
  /\ (within = true -> responded (catch_block st (ZodError issues)) = true)
  /\ sound s.
Proof.
  intros Hs. split; [left; reflexivity|]. split; [reflexivity|exact Hs].
Qed.

(** One request on a sound session. *)
Lemma router_on_sound (Number datetime : string -> option Z) (r : request)
    (s : session) :
  sound s ->
  (responded (fst (router Number datetime r s)) = true
   \/ fst (router Number datetime r s) = Next (RequestError err_conversion))
  /\ (within_types Number datetime r = true ->
      responded (fst (router Number datetime r s)) = true)
  /\ sound (snd (router Number datetime r s)).
Proof.
  intros Hs. pose proof (facade_on_sound s Hs) as [Hc [Hu [Hd [Hg Hl]]]].
  destruct r as [body|query|id query|id body|id query]; cbn [router].
  - unfold postHandler.
    destruct (createBodySchema datetime body) as [issues|v] eqn:V; cbn [fst snd];
      [apply reply_refused, Hs|].
    eapply reply_settled.
    + apply respond_settled; [right; reflexivity|left; reflexivity|apply Hc].
    + apply (createBodySchema_fits Number), V.
  - unfold getListHandler.
    destruct (listQuerySchema Number query) as [issues|v] eqn:V; cbn [fst snd];
      [apply reply_refused, Hs|].
    eapply reply_settled.
    + apply respond_settled; [left; reflexivity|left; reflexivity|apply Hl].
    + apply listQuerySchema_fits, V.
  - unfold getHandler.
    destruct (idParamsSchema Number id) as [issues|idTask] eqn:I; cbn [fst snd];
      [apply reply_refused, Hs|].
    destruct (ownerQuerySchema Number query) as [issues|[a u]] eqn:V; cbn [fst snd];
      [apply reply_refused, Hs|].
    eapply reply_settled.
    + apply respond_settled; [left; reflexivity|right; reflexivity|apply Hg].
    + apply (task_route_fits Number id query); assumption.
  - unfold putHandler.
    destruct (idParamsSchema Number id) as [issues|idTask] eqn:I; cbn [fst snd];
      [apply reply_refused, Hs|].
    destruct (updateBodySchema datetime body) as [issues|v] eqn:V; cbn [fst snd];
      [apply reply_refused, Hs|].
    eapply reply_settled.
    + apply respond_settled; [left; reflexivity|left; reflexivity|apply Hu].
    + apply (updateBodySchema_fits Number datetime id); assumption.
  - unfold deleteHandler.
    destruct (idParamsSchema Number id) as [issues|idTask] eqn:I; cbn [fst snd];
      [apply reply_refused, Hs|].
    destruct (ownerQuerySchema Number query) as [issues|[a u]] eqn:V; cbn [fst snd];
      [apply reply_refused, Hs|].
    eapply reply_settled.
    + apply respond_settled; [left; reflexivity|right; reflexivity|apply Hd].
    + apply (task_route_fits Number id query); assumption.
Qed.


Example five_requests_statuses :
  map (fun rp => match rp with Responded r => status r | Next _ => 500 end)
    (fst (serve decimal no_datetime five_requests fixture))
  = [400; 200; 201; 404; 200].
Proof. reflexivity. Qed.

(** An idTask and an idAccount beyond INTEGER pass the schemas, and their
    errors reach the generic error handler. *)
Example three_requests_replies :
  map (fun rp => match rp with
                 | Responded r => Some (status r)
                 | Next _ => None
                 end)
    (fst (serve decimal no_datetime three_requests fixture))
  = [None; None; Some 200].
Proof. reflexivity. Qed.


(** ** Create: the first violation of a request *)


Lemma length_within_held (n : nat) (x : option string) :
  length_within (Z.of_nat n) (option_map (NVARCHAR n) x) = true.
Proof.
  destruct x as [t|]; [|reflexivity]. apply length_within_NVARCHAR.
Qed.

Lemma held_within (n : nat) (x : option string) :
  characters_within n x = true -> option_map (NVARCHAR n) x = x.
Proof.
  destruct x as [t|]; [|reflexivity]. cbn [characters_within option_map].
  intros H. apply Nat.leb_le in H. rewrite NVARCHAR_within by exact H.
  reflexivity.
Qed.

(** The eight checks of the procedure on the values that its parameters
    hold are the six checks of the request: the two checks of a length
    always pass. *)
Lemma first_violation_held (idAccount idUser : Z)
    (title description : option string) (priority dueDate : option Z)
    (s : session) :
  first_violation
    (create_checks idAccount idUser (option_map (NVARCHAR 100) title)
       (option_map (NVARCHAR 500) description) priority dueDate s)
  = first_violation (request_checks idAccount idUser title priority dueDate s).
Proof.
  unfold create_checks, request_checks. cbn [first_violation].
  rewrite (length_within_held 100), (length_within_held 500). reflexivity.
Qed.


